(** * Customer Value Optimizer: field normalizers, quadrant classifiers,
      co-occurrence index and NBO scoring

    A shallow embedding of the classification and scoring core of the
    Customer-Value-Optimizer pipelines:

    - [src/pipeline/cvo_nbo_advanced_v4_2.py]: [parse_bandwidth_smart],
      [clean_tenure_smart], [categorize_arpu_realistic],
      [build_cooccurrence_matrix], [get_cooccurrence_boost],
      [calculate_nbo_score_v4_2], [assign_strategy];
    - [src/ml/cvo_ml_indonesia_v21.py]: the exclusion rule of
      [segment_customers], the per-cluster thresholds and [klasifikasi_bw]
      of [create_strategic_matrices], the override of [generate_predictions];
    - [cvo_nbo_v30.py]: the per-cluster thresholds and [classify_customer]
      of [create_strategic_matrices].

    Conventions.  Python exceptions are an explicit [result]; the floats
    of scores, thresholds and column statistics are exact rationals
    ([Q]), and a float read from a text is a double with its rounding
    ([double], in [parse_bandwidth_fix]); a spreadsheet cell is text or
    missing ([cell]); a Python [str] over the code points U+0000..U+00FF
    is a [string], one [ascii] per code point; dictionaries are [gmap]s. *)

From Stdlib Require Import ZArith QArith Qminmax Qround Lia Lqa Bool.
From Stdlib Require Import Ascii String List.
From stdpp Require Import base option list gmap strings.

Import ListNotations.
Open Scope string_scope.
Open Scope Z_scope.

(* ===================================================================== *)
(** ** Exceptions *)
(* ===================================================================== *)

Inductive exn : Set :=
| ValueError
| ZeroDivisionError
| TypeError.

Inductive result (A : Type) : Type :=
| Ok (a : A)
| Raise (e : exn).

Arguments Ok {A} a.
Arguments Raise {A} e.

Definition rbind {A B : Type} (m : result A) (k : A -> result B) : result B :=
  match m with
  | Ok a => k a
  | Raise e => Raise e
  end.

Notation "'let?' x ':=' m 'in' k" := (rbind m (fun x => k))
  (at level 10, x name, m at level 100, k at level 200).

(* ===================================================================== *)
(** ** Python string primitives *)
(* ===================================================================== *)

Module Py.

(** Code point of a character. *)
Definition ord (c : ascii) : N := N_of_ascii c.

(** [str.isspace] and the regular-expression class [\s] on U+0000..U+00FF:
    TAB..CR, FS..US, SPACE, NEL (U+0085) and NBSP (U+00A0). *)
Definition isspace_char (c : ascii) : bool :=
  let n := ord c in
  ((9 <=? n) && (n <=? 13) || (28 <=? n) && (n <=? 32)
   || (n =? 133) || (n =? 160))%N.

(** The regular-expression class [\d], also what [int] reads as a decimal
    digit: on U+0000..U+00FF only '0'..'9'. *)
Definition isdecimal_char (c : ascii) : bool :=
  let n := ord c in ((48 <=? n) && (n <=? 57))%N.

(** [str.isdigit] on one character: the decimal digits and the superscript
    digits U+00B2, U+00B3, U+00B9, which [int] does not read. *)
Definition isdigit_char (c : ascii) : bool :=
  let n := ord c in
  (isdecimal_char c || (n =? 178) || (n =? 179) || (n =? 185))%N.

Fixpoint forallb_str (p : ascii -> bool) (s : string) : bool :=
  match s with
  | EmptyString => true
  | String c t => p c && forallb_str p t
  end.

(** [s.isdigit()]: at least one character and all of them digits. *)
Definition isdigit (s : string) : bool :=
  match s with
  | EmptyString => false
  | _ => forallb_str isdigit_char s
  end.

(** [s.upper()].  'a'..'z' and U+00E0..U+00FE (but the division sign)
    move down by 32 and U+00DF becomes "SS".  The capitals of U+00B5 and
    U+00FF lie beyond U+00FF; they are no ASCII letter, digit or blank
    either, so these two characters are kept as they are. *)
Definition upper_char (c : ascii) : string :=
  let n := ord c in
  if ((97 <=? n) && (n <=? 122))%N then String (ascii_of_N (n - 32)) EmptyString
  else if (n =? 223)%N then "SS"
  else if ((224 <=? n) && (n <=? 254) && negb (n =? 247))%N
       then String (ascii_of_N (n - 32)) EmptyString
  else String c EmptyString.

Fixpoint upper (s : string) : string :=
  match s with
  | EmptyString => EmptyString
  | String c t => upper_char c ++ upper t
  end.

Fixpoint drop_while (p : ascii -> bool) (s : string) : string :=
  match s with
  | EmptyString => EmptyString
  | String c t => if p c then drop_while p t else s
  end.

Fixpoint take_while (p : ascii -> bool) (s : string) : string :=
  match s with
  | EmptyString => EmptyString
  | String c t => if p c then String c (take_while p t) else EmptyString
  end.

Fixpoint rev_append (s acc : string) : string :=
  match s with
  | EmptyString => acc
  | String c t => rev_append t (String c acc)
  end.

Definition rev (s : string) : string := rev_append s EmptyString.

(** [s.strip()]: white space removed at both ends. *)
Definition strip (s : string) : string :=
  rev (drop_while isspace_char (rev (drop_while isspace_char s))).

(** [s.strip("'")] *)
Definition strip_quote (s : string) : string :=
  let q := fun c => Ascii.eqb c "'"%char in
  rev (drop_while q (rev (drop_while q s))).

Fixpoint startswith (p s : string) : bool :=
  match p, s with
  | EmptyString, _ => true
  | String a p', String b s' => Ascii.eqb a b && startswith p' s'
  | String _ _, EmptyString => false
  end.

(** [p in s] for strings. *)
Fixpoint contains (p s : string) : bool :=
  startswith p s ||
  match s with
  | EmptyString => false
  | String _ t => contains p t
  end.

Definition digit_value (c : ascii) : Z := Z.of_N (ord c) - 48.

Fixpoint digits_value_from (acc : Z) (s : string) : Z :=
  match s with
  | EmptyString => acc
  | String c t => digits_value_from (10 * acc + digit_value c) t
  end.

(** [sys.get_int_max_str_digits()], the default limit of CPython on the
    number of digits [int] converts. *)
Definition int_max_str_digits : Z := 4300.

(** [int(s)] on the strings that reach it in this program, all of them
    non-empty and without sign or blanks: the value of a run of at most
    4300 decimal digits, [ValueError] on a longer run and on anything
    else. *)
Definition int (s : string) : result Z :=
  match s with
  | EmptyString => Raise ValueError
  | _ => if forallb_str isdecimal_char s
         then if Z.of_nat (String.length s) <=? int_max_str_digits
              then Ok (digits_value_from 0 s)
              else Raise ValueError
         else Raise ValueError
  end.

(** [re.search(r'\d+', s)]: the leftmost longest run of decimal digits. *)
Fixpoint search_digits (s : string) : option string :=
  match s with
  | EmptyString => None
  | String c t =>
      if isdecimal_char c then Some (take_while isdecimal_char s)
      else search_digits t
  end.

(** [re.match(r"^'\d+'$", s)] on a stripped string (no trailing newline). *)
Definition match_quoted_number (s : string) : bool :=
  match s with
  | String q t =>
      Ascii.eqb q "'"%char
      && negb (String.eqb (take_while isdecimal_char t) EmptyString)
      && String.eqb (drop_while isdecimal_char t) "'"
  | EmptyString => false
  end.

(** One attempt of [(\d+)\s*(MBPS|GBPS)] at the head of [s].  The digit run
    and the blank run are taken greedily; giving characters back never
    helps, as the next pattern item would then face a digit or a blank. *)
Definition match_bw_here (s : string) : option (string * string) :=
  let ds := take_while isdecimal_char s in
  let rest := drop_while isspace_char (drop_while isdecimal_char s) in
  if String.eqb ds EmptyString then None
  else if startswith "MBPS" rest then Some (ds, "MBPS")
  else if startswith "GBPS" rest then Some (ds, "GBPS")
  else None.

(** [re.search(r'(\d+)\s*(MBPS|GBPS)', s)]: groups 1 and 2 of the leftmost
    match. *)
Fixpoint search_bw (s : string) : option (string * string) :=
  match match_bw_here s with
  | Some r => Some r
  | None =>
      match s with
      | EmptyString => None
      | String _ t => search_bw t
      end
  end.

(** The characters of a quoted number: the quote and the decimal digits. *)
Definition quote_or_decimal (c : ascii) : bool :=
  Ascii.eqb c "'"%char || isdecimal_char c.

(** [s.isascii()] *)
Definition isascii (s : string) : bool :=
  forallb_str (fun c => (ord c <? 128)%N) s.

End Py.

(** A raw spreadsheet cell: missing ([None]/NaN, what [pd.isna] accepts) or
    text.  A cell holding a number is read through [str(...)] by both
    cleaners and so behaves as the text of that number. *)
Inductive cell : Set :=
| NaN
| Str (s : string).

(* ===================================================================== *)
(** ** Data cleaning ([cvo_nbo_advanced_v4_2.py]) *)
(* ===================================================================== *)

Definition parse_bandwidth_smart (bandwidth_str : cell)
  : result (Z * string) :=
  match bandwidth_str with
  | NaN => Ok (0, "Non-Connectivity")
  | Str s =>
      if String.eqb s "Tidak Ada" then Ok (0, "Non-Connectivity")
      else
        let bw := Py.strip (Py.upper s) in
        (* Pattern 1: IP address *)
        if Py.contains "IP" bw && negb (Py.contains "MBPS" bw)
           && negb (Py.contains "GBPS" bw)
        then Ok (0, "IP-Only")
        else
          (* Pattern 2: standard MBPS/GBPS *)
          match Py.search_bw bw with
          | Some (group1, unit) =>
              let? number := Py.int group1 in
              if String.eqb unit "GBPS"
              then Ok (number * 1000, "Connectivity")
              else Ok (number, "Connectivity")
          | None =>
              (* Pattern 3: E1 *)
              if Py.contains "E1" bw then Ok (2, "Connectivity")
              (* Pattern 4: just numbers *)
              else if Py.isdigit bw then
                let? n := Py.int bw in Ok (n, "Connectivity")
              else Ok (0, "Unknown")
          end
  end.

Definition clean_tenure_smart (tenure_value : cell) : result Z :=
  match tenure_value with
  | NaN => Ok 3
  | Str s =>
      let tenure_str := Py.strip s in
      (* Pure number *)
      if Py.isdigit tenure_str then
        let? years := Py.int tenure_str in Ok (Z.min years 26)
      (* Number with quotes *)
      else if Py.match_quoted_number tenure_str then
        let? years := Py.int (Py.strip_quote tenure_str) in
        Ok (Z.min years 26)
      (* "Berkontrak di Tahun XXXX" *)
      else if Py.contains "Berkontrak" tenure_str then Ok 0
      (* Invalid data *)
      else if Py.contains "Tidak Valid" tenure_str
              || Py.contains "Invalid" tenure_str then Ok 3
      else
        (* Extract any number *)
        match Py.search_digits tenure_str with
        | Some g => let? n := Py.int g in Ok (Z.min n 26)
        | None => Ok 3
        end
  end.

(* ===================================================================== *)
(** ** Rational comparisons *)
(* ===================================================================== *)

Definition Qlt_bool (x y : Q) : bool := negb (Qle_bool y x).

(** A pandas float: a rational, or [None] for NaN.  Every comparison with
    NaN is false. *)
Definition pdfloat : Type := option Q.

Definition ge_float (x : Q) (t : pdfloat) : bool :=
  match t with
  | Some t => Qle_bool t x
  | None => false
  end.

(* ===================================================================== *)
(** ** NBO scoring engine ([cvo_nbo_advanced_v4_2.py]) *)
(* ===================================================================== *)

Module Company.
(** The [company_data] dictionary of [process_data]; [revenue] is [None]
    when it is NaN. *)
Record t : Type := {
  revenue : option Q;
  bandwidth_clean : Z * string;
  tenure_clean : Z;
  industry : string;
  category : string;
  tier : string;
  current_products : list string
}.
End Company.

Module Product.
(** A catalog entry; [name] is [NaN] when the catalog line has no product
    name, and [tags] is [product.get('tags', [])]. *)
Record t : Type := {
  name : cell;
  category : string;
  tier_level : Z;
  cost_tier : Z;
  min_bandwidth : Q;
  complexity : string;
  target_industries : list string;
  tags : list string
}.
End Product.

(** [TIER_LEVELS.get(tier, 2)] *)
Definition TIER_LEVELS_get (tier : string) : Z :=
  if String.eqb tier "DI-TS" then 1
  else if String.eqb tier "DI-SDS-TS" then 2
  else if String.eqb tier "DI-SDS-SDS" then 3
  else if String.eqb tier "ALL NOMENKLATUR" then 4
  else 2.

Definition categorize_arpu_realistic (revenue : option Q) : string * Z :=
  match revenue with
  | None => ("Bundled/Free", 0)
  | Some r =>
      if Qeq_bool r 0 then ("Bundled/Free", 0)
      else if Qlt_bool r 1000000 then ("Entry", 1)
      else if Qlt_bool r 3500000 then ("Mid", 2)
      else if Qlt_bool r 15000000 then ("High", 3)
      else ("Enterprise", 4)
  end.

Definition in_list (x : string) (l : list string) : bool :=
  existsb (String.eqb x) l.

(** The co-occurrence table: [co_occurrence[p1][p2]] is a count. *)
Abbreviation cooc_table := (gmap string (gmap string nat)).

(** [candidate_product in co_occurrence[current_product]], with its count:
    the keys of the table are texts, so a missing name is none of them. *)
Definition candidate_count (inner : gmap string nat)
    (candidate_product : cell) : option nat :=
  match candidate_product with
  | Str name => inner !! name
  | NaN => None
  end.

Fixpoint boost_loop (company_products : list string) (candidate_product : cell)
    (co_occurrence : cooc_table) (total_companies : nat) (boost : Q)
  : result Q :=
  match company_products with
  | [] => Ok boost
  | current_product :: rest =>
      match co_occurrence !! current_product with
      | Some inner =>
          match candidate_count inner candidate_product with
          | Some count =>
              match total_companies with
              | O => Raise ZeroDivisionError
              | S _ =>
                  let confidence :=
                    (inject_Z (Z.of_nat count)
                     / inject_Z (Z.of_nat total_companies))%Q in
                  boost_loop rest candidate_product co_occurrence
                    total_companies (boost + confidence * 20)%Q
              end
          | None =>
              boost_loop rest candidate_product co_occurrence
                total_companies boost
          end
      | None =>
          boost_loop rest candidate_product co_occurrence total_companies boost
      end
  end.

Definition get_cooccurrence_boost (company_products : list string)
    (candidate_product : cell) (co_occurrence : cooc_table)
    (total_companies : nat) : result Q :=
  let? boost := boost_loop company_products candidate_product
                  co_occurrence total_companies 0%Q in
  Ok (Qmin boost 20).

Section Factors.
Variable company : Company.t.
Variable product : Product.t.

(** Factor 1: tier compatibility *)
Definition tier_compatibility : Q :=
  let company_tier_level := TIER_LEVELS_get (Company.tier company) in
  let product_tier_level := Product.tier_level product in
  let tier_diff := product_tier_level - company_tier_level in
  if (tier_diff =? 0)%Z then 15%Q
  else if (tier_diff =? 1)%Z then 12%Q
  else if (tier_diff =? 2)%Z then 8%Q
  else 3%Q.

(** Factor 2: category match *)
Definition category_match : Q :=
  let adjacent := ["Technology Services"; "Digital Infrastructure"] in
  if String.eqb (Product.category product) (Company.category company)
  then 15%Q
  else if in_list (Product.category product) adjacent
          && in_list (Company.category company) adjacent
  then 10%Q
  else 5%Q.

(** Factor 3: bandwidth suitability *)
Definition bandwidth_suitability : Q :=
  let '(company_bw, bw_type) := Company.bandwidth_clean company in
  let company_bw := inject_Z company_bw in
  let product_min_bw := Product.min_bandwidth product in
  if String.eqb bw_type "IP-Only" then
    if String.eqb (Product.category product) "Connectivity" then 15%Q
    else if Qeq_bool product_min_bw 0 then 15%Q
    else 5%Q
  else if Qeq_bool product_min_bw 0 then 15%Q
  else
    if Qle_bool (product_min_bw * 1.5) company_bw then 15%Q
    else if Qle_bool product_min_bw company_bw then 10%Q
    else if Qle_bool (product_min_bw * 0.5) company_bw then 5%Q
    else 2%Q.

(** [word in product['name']]: a missing name is a float, and [in] then
    raises [TypeError]. *)
Definition name_contains (word : string) : result bool :=
  match Product.name product with
  | Str name => Ok (Py.contains word name)
  | NaN => Raise TypeError
  end.

(** Factor 4: industry fit.  The name is only looked at for a customer of
    one of the three industries named. *)
Definition industry_fit : result Q :=
  let industry := Company.industry company in
  let manufacture :=
    if in_list industry ["MANUFACTURE"]
    then let? iot := name_contains "IoT" in
         Ok (if iot then 12%Q else 5%Q)
    else Ok 5%Q in
  if negb (match Product.target_industries product with
           | [] => true | _ => false end)
     && in_list industry (Product.target_industries product)
  then Ok 15%Q
  else if in_list industry ["BANKING & FINANCIAL"; "GOVERNMENT"]
  then let? security := name_contains "Security" in
       if security then Ok 12%Q else manufacture
  else manufacture.

(** Factor 5: current product gap / co-occurrence *)
Definition cooccurrence_factor (co_occurrence : cooc_table)
    (total_companies : nat) : result Q :=
  match Company.current_products company with
  | [] => Ok 5%Q
  | current_products =>
      let? boost := get_cooccurrence_boost current_products
                      (Product.name product) co_occurrence
                      total_companies in
      Ok (Qmin boost 10)
  end.

(** Factor 6: regional availability *)
Definition regional_availability : Q := 5%Q.

(** Factor 7: ARPU affordability *)
Definition arpu_affordability : Q :=
  let '(company_arpu_cat, company_arpu_level) :=
    categorize_arpu_realistic (Company.revenue company) in
  let product_cost_level := Product.cost_tier product in
  if match Company.revenue company with
     | Some r => Qeq_bool r 0
     | None => false
     end
  then (if (product_cost_level =? 1)%Z then 8%Q else 3%Q)
  else
    let tier_diff := product_cost_level - company_arpu_level in
    if (tier_diff =? 0)%Z then 15%Q
    else if (tier_diff =? 1)%Z then 12%Q
    else if (tier_diff =? 2)%Z then 7%Q
    else 2%Q.

(** Factor 8: tenure strategy.  [tenure_clean] is an integer, so
    [tenure < 0.5] is [2 * tenure < 1]. *)
Definition tenure_strategy : Q :=
  let tenure := Company.tenure_clean company in
  let complexity := Product.complexity product in
  if (tenure =? 0)%Z then
    ((if String.eqb complexity "Simple" then 10 else 3)
     + (if in_list "Retention" (Product.tags product) then 5 else 0))%Q
  else if 2 * tenure <? 1 then
    (if String.eqb complexity "Simple" then 10%Q else 3%Q)
  else if tenure <? 2 then
    (if in_list complexity ["Simple"; "Medium"] then 10%Q else 6%Q)
  else if tenure <=? 5 then 10%Q
  else
    (if in_list complexity ["Medium"; "Complex"] then 10%Q else 7%Q).

Definition calculate_nbo_score_v4_2 (co_occurrence : cooc_table)
    (total_companies : nat) : result Q :=
  let score := 0%Q in
  let score := (score + tier_compatibility)%Q in
  let score := (score + category_match)%Q in
  let score := (score + bandwidth_suitability)%Q in
  let? f4 := industry_fit in
  let score := (score + f4)%Q in
  let? f5 := cooccurrence_factor co_occurrence total_companies in
  let score := (score + f5)%Q in
  let score := (score + regional_availability)%Q in
  let score := (score + arpu_affordability)%Q in
  let score := (score + tenure_strategy)%Q in
  Ok (Qmin score 100).

(** [assign_strategy]: fixed thresholds, revenue 3.5 million (Q3) and
    10 Mbps.  A NaN revenue fails every comparison. *)
Definition assign_strategy : string * string :=
  let revenue := Company.revenue company in
  let bandwidth := fst (Company.bandwidth_clean company) in
  let rev_threshold := 3500000%Q in
  let bw_threshold := 10 in
  let rev_ge := match revenue with
                | Some r => Qle_bool rev_threshold r | None => false end in
  let rev_lt := match revenue with
                | Some r => Qlt_bool r rev_threshold | None => false end in
  if rev_ge && (bw_threshold <=? bandwidth) then ("Star", "RETAIN")
  else if rev_ge && (bandwidth <? bw_threshold) then ("Risk", "CROSS-SELL")
  else if rev_lt && (bw_threshold <=? bandwidth) then ("Sniper", "UPSELL")
  else ("Incubator", "AUTOMATE").
End Factors.

(* ===================================================================== *)
(** ** Co-occurrence analysis ([cvo_nbo_advanced_v4_2.py]) *)
(* ===================================================================== *)

(** [co_occurrence[p1][p2] += 1] on a [defaultdict] of [defaultdict(int)]. *)
Definition incr (co_occurrence : cooc_table) (p1 p2 : string) : cooc_table :=
  let inner := default ∅ (co_occurrence !! p1) in
  <[p1 := <[p2 := S (default O (inner !! p2))]> inner]> co_occurrence.

(** The double loop over [enumerate(products)] and [products[i+1:]]. *)
Fixpoint count_pairs (products : list string) (co_occurrence : cooc_table)
  : cooc_table :=
  match products with
  | [] => co_occurrence
  | p1 :: rest =>
      count_pairs rest
        (foldl (fun co p2 => incr (incr co p1 p2) p2 p1) co_occurrence rest)
  end.

(** [Counter.update(products)] *)
Definition counter_update (product_counts : gmap string nat)
    (products : list string) : gmap string nat :=
  foldl (fun m p => <[p := S (default O (m !! p))]> m) product_counts products.

(** The body of the loop over the rows of [company_products]. *)
Definition build_step (acc : cooc_table * gmap string nat)
    (row : string * list string) : cooc_table * gmap string nat :=
  let '(co_occurrence, product_counts) := acc in
  let products := snd row in
  (count_pairs products co_occurrence,
   counter_update product_counts products).

(** [company_products] is the grouped frame: one row per company
    ([Row Labels]) with the list of its [ProdukBaru] cells, as
    [groupby(...).apply(list)] leaves them. *)
Definition build_cooccurrence_matrix
    (company_products : list (string * list string))
  : cooc_table * gmap string nat :=
  foldl build_step (∅, ∅) company_products.

(** What the scoring engine reads: the count of a pair, 0 when absent. *)
Definition cooccurrence (co_occurrence : cooc_table) (a b : string) : nat :=
  match co_occurrence !! a with
  | Some inner => default O (inner !! b)
  | None => O
  end.

(* ===================================================================== *)
(** ** pandas statistics of a numeric column *)
(* ===================================================================== *)

Module Series.

Fixpoint insert_sorted (x : Q) (l : list Q) : list Q :=
  match l with
  | [] => [x]
  | y :: t => if Qle_bool x y then x :: l else y :: insert_sorted x t
  end.

Definition sort (l : list Q) : list Q := foldr insert_sorted [] l.

Definition sum (l : list Q) : Q := foldr Qplus 0%Q l.

(** [Series.mean()], NaN on an empty column. *)
Definition mean (l : list Q) : pdfloat :=
  match l with
  | [] => None
  | _ => Some (sum l / inject_Z (Z.of_nat (length l)))%Q
  end.

(** [Series.quantile(q)] with the default linear interpolation: position
    [q * (n - 1)] in the sorted column, NaN on an empty column. *)
Definition quantile (q : Q) (l : list Q) : pdfloat :=
  match l with
  | [] => None
  | _ =>
      let sorted := sort l in
      let pos := (q * inject_Z (Z.of_nat (length l) - 1))%Q in
      let lo := Qfloor pos in
      let frac := (pos - inject_Z lo)%Q in
      let a := nth (Z.to_nat lo) sorted 0%Q in
      let b := nth (Z.to_nat (lo + 1)) sorted a in
      Some (a + (b - a) * frac)%Q
  end.

(** [Series.median()]: the middle value, or the mean of the two middle
    values. *)
Definition median (l : list Q) : pdfloat :=
  match l with
  | [] => None
  | _ =>
      let sorted := sort l in
      let n := length l in
      let h := Nat.div n 2 in
      if Nat.even n
      then Some ((nth (h - 1)%nat sorted 0 + nth h sorted 0) / 2)%Q
      else Some (nth h sorted 0%Q)
  end.

(** [Series.unique()]: the distinct values in order of first appearance. *)
Fixpoint unique (l : list string) : list string :=
  match l with
  | [] => []
  | x :: t => x :: filter (fun y => y ≠ x) (unique t)
  end.

End Series.

(* ===================================================================== *)
(** ** Bandwidth segmentation and strategic matrix
       ([cvo_ml_indonesia_v21.py]) *)
(* ===================================================================== *)

Module V21.

(** One line of the data frame with the columns the rules below read and
    write.  [pendapatan] and [bandwidth_mbps] are never NaN after
    [clean_and_standardize].  The decorated labels are written as the
    source file has them; they are only compared for equality. *)
Record row : Type := {
  kategori : string;
  pendapatan : Q;
  bandwidth_mbps : Q;
  cluster_bandwidth : string;
  exclude_upsell : Z;
  exclude_reason : string;
  kuadran_matriks_1 : string;
  strategi_matriks_1 : string;
  skor_peluang_upsell : Q;
  skor_peluang_crosssell : Q
}.

Definition set_cluster_bandwidth (v : string) (r : row) : row :=
  {| kategori := kategori r; pendapatan := pendapatan r;
     bandwidth_mbps := bandwidth_mbps r; cluster_bandwidth := v;
     exclude_upsell := exclude_upsell r; exclude_reason := exclude_reason r;
     kuadran_matriks_1 := kuadran_matriks_1 r;
     strategi_matriks_1 := strategi_matriks_1 r;
     skor_peluang_upsell := skor_peluang_upsell r;
     skor_peluang_crosssell := skor_peluang_crosssell r |}.

Definition set_exclude (flag : Z) (reason : string) (r : row) : row :=
  {| kategori := kategori r; pendapatan := pendapatan r;
     bandwidth_mbps := bandwidth_mbps r;
     cluster_bandwidth := cluster_bandwidth r;
     exclude_upsell := flag; exclude_reason := reason;
     kuadran_matriks_1 := kuadran_matriks_1 r;
     strategi_matriks_1 := strategi_matriks_1 r;
     skor_peluang_upsell := skor_peluang_upsell r;
     skor_peluang_crosssell := skor_peluang_crosssell r |}.

Definition set_matriks_1 (hasil : string * string) (r : row) : row :=
  {| kategori := kategori r; pendapatan := pendapatan r;
     bandwidth_mbps := bandwidth_mbps r;
     cluster_bandwidth := cluster_bandwidth r;
     exclude_upsell := exclude_upsell r; exclude_reason := exclude_reason r;
     kuadran_matriks_1 := fst hasil;
     strategi_matriks_1 := snd hasil;
     skor_peluang_upsell := skor_peluang_upsell r;
     skor_peluang_crosssell := skor_peluang_crosssell r |}.

Definition set_skor (upsell crosssell : Q) (r : row) : row :=
  {| kategori := kategori r; pendapatan := pendapatan r;
     bandwidth_mbps := bandwidth_mbps r;
     cluster_bandwidth := cluster_bandwidth r;
     exclude_upsell := exclude_upsell r; exclude_reason := exclude_reason r;
     kuadran_matriks_1 := kuadran_matriks_1 r;
     strategi_matriks_1 := strategi_matriks_1 r;
     skor_peluang_upsell := upsell;
     skor_peluang_crosssell := crosssell |}.

Definition any_in (keys : list string) (s : string) : bool :=
  existsb (fun x => Py.contains x s) keys.

(** Strategy 1: product-based clustering *)
Definition klasifikasi_produk (tipe : string) : string :=
  let tipe := Py.upper tipe in
  if any_in ["METRO"; "NETWORK"; "BACKBONE"; "ISP"; "TRANSMISI"] tipe
  then "HIGH_BANDWIDTH_GROUP"
  else if any_in ["VPN"; "ATM"; "IPVPN"; "UMKM"; "MIKRO"; "KRENO"] tipe
  then "LOW_BANDWIDTH_GROUP"
  else "MID_BANDWIDTH_GROUP".

(** Strategy 2: bandwidth-based clustering (fallback) *)
Definition klasifikasi_bandwidth (bw : Q) : string :=
  if Qeq_bool bw 0 then "TIDAK_DIKETAHUI"
  else if Qlt_bool bw 10 then "LOW_BANDWIDTH_GROUP"
  else if Qle_bool bw 100 then "LOW_BANDWIDTH_GROUP"
  else if Qle_bool bw 500 then "MID_BANDWIDTH_GROUP"
  else "HIGH_BANDWIDTH_GROUP".

Definition mask_atm (r : row) : bool :=
  String.eqb (cluster_bandwidth r) "LOW_BANDWIDTH_GROUP"
  && Qlt_bool (bandwidth_mbps r) 1.

Definition mask_backbone (r : row) : bool :=
  String.eqb (cluster_bandwidth r) "HIGH_BANDWIDTH_GROUP"
  && Qlt_bool 5000 (bandwidth_mbps r).

(** [segment_customers]; [kategori_col] tells whether the frame has a
    product category column. *)
Definition segment_customers (kategori_col : bool) (df : list row)
  : list row :=
  let df :=
    map (fun r =>
           set_cluster_bandwidth
             (if kategori_col then klasifikasi_produk (kategori r)
              else klasifikasi_bandwidth (bandwidth_mbps r)) r) df in
  let df := map (set_exclude 0 "") df in
  (* exclusion 1: very low bandwidth *)
  let df :=
    map (fun r =>
           if mask_atm r
           then set_exclude 1 "ATM/IoT - Tidak butuh upsell broadband" r
           else r) df in
  (* exclusion 2: backbone or ISP already optimal *)
  let df :=
    map (fun r =>
           if mask_backbone r
           then set_exclude 1 "Backbone/ISP - Sudah optimal" r
           else r) df in
  df.

Record thresholds : Type := {
  median_pendapatan : pdfloat;
  median_bandwidth : pdfloat;
  q75_bandwidth : pdfloat;
  q25_pendapatan : pdfloat;
  avg_pendapatan : pdfloat
}.

(** [df[df['cluster_bandwidth'] == cluster]] *)
Definition cluster_rows (cluster : string) (df : list row) : list row :=
  filter (fun r => cluster_bandwidth r = cluster) df.

Definition threshold_bundle (cluster_data : list row) : thresholds :=
  {| median_pendapatan := Series.median (map pendapatan cluster_data);
     median_bandwidth := Series.median (map bandwidth_mbps cluster_data);
     q75_bandwidth := Series.quantile 0.75 (map bandwidth_mbps cluster_data);
     q25_pendapatan := Series.quantile 0.25 (map pendapatan cluster_data);
     avg_pendapatan := Series.mean (map pendapatan cluster_data) |}.

(** The loop over [df['cluster_bandwidth'].unique()]. *)
Definition threshold_step (df : list row)
    (cluster_thresholds : gmap string thresholds) (cluster : string)
  : gmap string thresholds :=
  if String.eqb cluster "TIDAK_DIKETAHUI" then cluster_thresholds
  else
    let cluster_data := cluster_rows cluster df in
    match cluster_data with
    | [] => cluster_thresholds
    | _ => <[cluster := threshold_bundle cluster_data]> cluster_thresholds
    end.

Definition per_cluster_thresholds (df : list row) : gmap string thresholds :=
  foldl (threshold_step df) ∅ (Series.unique (map cluster_bandwidth df)).

(** Matrix 1: revenue against bandwidth with cluster-specific logic. *)
Definition klasifikasi_bw (cluster_thresholds : gmap string thresholds)
    (r : row) : string * string :=
  let cluster := cluster_bandwidth r in
  if String.eqb cluster "TIDAK_DIKETAHUI"
  then ("❓ BELUM_TERKATEGORI", "PERLU_ANALISIS - Data tidak lengkap")
  else
    match cluster_thresholds !! cluster with
    | None => ("❓ BELUM_TERKATEGORI", "PERLU_ANALISIS - Data tidak lengkap")
    | Some thresh =>
        let pendapatan_tinggi :=
          ge_float (pendapatan r) (median_pendapatan thresh) in
        let bandwidth_tinggi :=
          ge_float (bandwidth_mbps r) (median_bandwidth thresh) in
        if (exclude_upsell r =? 1)%Z
        then ("🚫 DIKECUALIKAN", exclude_reason r)
        else if String.eqb cluster "LOW_BANDWIDTH_GROUP" then
          if pendapatan_tinggi
          then ("📱 UMKM_POTENSIAL",
                "CROSS-SELL - Solusi Digital UMKM (Wifi, Cloud)")
          else ("🥚 UMKM_PEMULA", "EDUKASI - Digitalisasi Bisnis")
        else if String.eqb cluster "HIGH_BANDWIDTH_GROUP" then
          if pendapatan_tinggi && bandwidth_tinggi
          then ("🏢 ENTERPRISE_BINTANG",
                "PERTAHANKAN - Kontrak Jangka Panjang & SLA")
          else if pendapatan_tinggi
          then ("🔗 BACKBONE_OPTIMAL",
                "CROSS-SELL - Managed Services & Security")
          else if bandwidth_tinggi
          then ("📡 ISP_POTENSI",
                "RENEGOSIASI - Harga Kompetitif & Bundling")
          else ("🏗️  ENTERPRISE_BARU",
                "KONSTRUKSI - Bangun Relasi & Trust")
        else
          if pendapatan_tinggi && bandwidth_tinggi
          then ("🌟 PELANGGAN_BINTANG",
                "PERTAHANKAN - Layanan Premium & Dedicated Support")
          else if pendapatan_tinggi && negb bandwidth_tinggi
          then ("🎯 AREA_RISIKO",
                "CROSS-SELL - Smart Home, PV Rooftop, EV Charging")
          else if negb pendapatan_tinggi && bandwidth_tinggi
          then ("🔫 ZONA_SNIPER",
                "UPSELL - Upgrade Bandwidth + Managed Services")
          else ("🥚 INKUBATOR", "EDUKASI - Demo Produk & Onboarding")
    end.

Definition create_strategic_matrices (df : list row) : list row :=
  let cluster_thresholds := per_cluster_thresholds df in
  map (fun r => set_matriks_1 (klasifikasi_bw cluster_thresholds r) r) df.

(** [generate_predictions]: the trained models are black boxes that give
    each line a probability; an untrained model gives 0.  Excluded lines
    then get an upsell score of 0 and half their cross-sell score. *)
Definition generate_predictions (upsell_model crosssell_model : option (row -> Q))
    (df : list row) : list row :=
  let predict (model : option (row -> Q)) (r : row) : Q :=
    match model with
    | Some predict_proba => predict_proba r
    | None => 0%Q
    end in
  let df :=
    map (fun r => set_skor (predict upsell_model r)
                           (predict crosssell_model r) r) df in
  let df :=
    map (fun r => if (exclude_upsell r =? 1)%Z
                  then set_skor 0 (skor_peluang_crosssell r) r
                  else r) df in
  let df :=
    map (fun r => if (exclude_upsell r =? 1)%Z
                  then set_skor (skor_peluang_upsell r)
                                (skor_peluang_crosssell r * 0.5) r
                  else r) df in
  df.

(** The pipeline from segmentation to the final scores. *)
Definition pipeline (kategori_col : bool)
    (upsell_model crosssell_model : option (row -> Q)) (df : list row)
  : list row :=
  generate_predictions upsell_model crosssell_model
    (create_strategic_matrices (segment_customers kategori_col df)).

End V21.

(* ===================================================================== *)
(** ** Strategic matrix of the NBO variant ([cvo_nbo_v30.py]) *)
(* ===================================================================== *)

Module V30.

Record row : Type := {
  pendapatan : Q;
  bandwidth_mbps : Q;
  bandwidth_cluster : string
}.

Record thresholds : Type := {
  median_pendapatan : pdfloat;
  median_bandwidth : pdfloat;
  q75_pendapatan : pdfloat;
  q25_pendapatan : pdfloat
}.

Definition cluster_rows (cluster : string) (df : list row) : list row :=
  filter (fun r => bandwidth_cluster r = cluster) df.

Definition threshold_bundle (cluster_data : list row) : thresholds :=
  {| median_pendapatan := Series.median (map pendapatan cluster_data);
     median_bandwidth := Series.median (map bandwidth_mbps cluster_data);
     q75_pendapatan := Series.quantile 0.75 (map pendapatan cluster_data);
     q25_pendapatan := Series.quantile 0.25 (map pendapatan cluster_data) |}.

Definition threshold_step (df : list row)
    (cluster_thresholds : gmap string thresholds) (cluster : string)
  : gmap string thresholds :=
  let cluster_data := cluster_rows cluster df in
  match cluster_data with
  | [] => cluster_thresholds
  | _ => <[cluster := threshold_bundle cluster_data]> cluster_thresholds
  end.

Definition per_cluster_thresholds (df : list row) : gmap string thresholds :=
  foldl (threshold_step df) ∅ (Series.unique (map bandwidth_cluster df)).

(** [cluster_thresholds.get(cluster, {}).get(key, 0)] *)
Definition get_or_zero (cluster_thresholds : gmap string thresholds)
    (cluster : string) (key : thresholds -> pdfloat) : pdfloat :=
  match cluster_thresholds !! cluster with
  | Some thresh => key thresh
  | None => Some 0%Q
  end.

Definition classify_customer (cluster_thresholds : gmap string thresholds)
    (r : row) : string * string :=
  let cluster := bandwidth_cluster r in
  if String.eqb cluster "NO_BANDWIDTH" then
    if ge_float (pendapatan r)
         (get_or_zero cluster_thresholds cluster median_pendapatan)
    then ("[TARGET] NON-BW HIGH VALUE",
          "CROSS-SELL - Add Connectivity or Digital Solutions")
    else (" NON-BW ENTRY", "EDUKASI - Introduce Value-Added Services")
  else if String.eqb cluster "ATM_IOT" then
    ("[SAT] ATM/IoT", "MAINTAIN - Ensure Reliability, No BW Upsell Needed")
  else if String.eqb cluster "UMKM_SMALL" then
    if ge_float (pendapatan r)
         (get_or_zero cluster_thresholds cluster median_pendapatan)
    then ("[MOBILE] UMKM POTENSIAL", "UPSELL - Upgrade to Corporate Package")
    else (" UMKM PEMULA", "EDUKASI - Digital Business Solutions")
  else if String.eqb cluster "CORPORATE" then
    let high_rev :=
      ge_float (pendapatan r)
        (get_or_zero cluster_thresholds cluster median_pendapatan) in
    let high_bw :=
      ge_float (bandwidth_mbps r)
        (get_or_zero cluster_thresholds cluster median_bandwidth) in
    if high_rev && high_bw
    then ("[STAR] CORPORATE BINTANG", "PERTAHANKAN - Premium Support & Bundle")
    else if high_rev && negb high_bw
    then ("[TARGET] CORPORATE RISIKO", "CROSS-SELL - Smart Solutions, PV, EV")
    else if negb high_rev && high_bw
    then (" CORPORATE SNIPER", "UPSELL - Increase Bandwidth & Add Services")
    else (" CORPORATE PEMULA", "EDUKASI - Demo & Onboarding")
  else if String.eqb cluster "ENTERPRISE" then
    if ge_float (pendapatan r)
         (get_or_zero cluster_thresholds cluster median_pendapatan)
    then ("[OFFICE] ENTERPRISE BINTANG",
          "PERTAHANKAN - SLA Premium & Consultative")
    else ("[SAT] ENTERPRISE POTENSI",
          "OPTIMIZE - Efficiency & Cost Management")
  else (" UNKNOWN", "ANALYZE").

Definition create_strategic_matrices (df : list row)
  : list (row * (string * string)) :=
  let cluster_thresholds := per_cluster_thresholds df in
  map (fun r => (r, classify_customer cluster_thresholds r)) df.

End V30.


(* ===================================================================== *)
(** ** Named inputs and documented value sets *)
(* ===================================================================== *)

(** The one-character text U+00B2 (superscript two). *)
Definition superscript_two : string := String (ascii_of_N 178) EmptyString.

(** The documented bandwidth type tags. *)
Definition bandwidth_types : list string :=
  ["Connectivity"; "IP-Only"; "Non-Connectivity"; "Unknown"].

(** [m] is the largest value a scoring factor takes. *)
Definition factor_max (f : Company.t -> Product.t -> Q) (m : Q) : Prop :=
  (forall company product, (f company product <= m)%Q)
  /\ exists company product, f company product = m.

(** [m] is the smallest value a scoring factor takes. *)
Definition factor_min (f : Company.t -> Product.t -> Q) (m : Q) : Prop :=
  (forall company product, (m <= f company product)%Q)
  /\ exists company product, f company product = m.

(** The same for a factor that may raise: [m] is the largest, or the
    smallest, value it returns. *)
Definition returned_max (f : Company.t -> Product.t -> result Q) (m : Q)
  : Prop :=
  (forall company product v, f company product = Ok v -> (v <= m)%Q)
  /\ exists company product, f company product = Ok m.

Definition returned_min (f : Company.t -> Product.t -> result Q) (m : Q)
  : Prop :=
  (forall company product v, f company product = Ok v -> (m <= v)%Q)
  /\ exists company product, f company product = Ok m.

(** A customer due for renewal (tenure 0) that matches [plain_bundle]
    on every factor, and one with nothing in common with [remote_suite]. *)
Definition renewal_company : Company.t :=
  {| Company.revenue := Some 500000%Q;
     Company.bandwidth_clean := (0, "IP-Only");
     Company.tenure_clean := 0;
     Company.industry := "GOVERNMENT";
     Company.category := "Connectivity";
     Company.tier := "DI-TS";
     Company.current_products := ["IP VPN"] |}.

Definition plain_bundle : Product.t :=
  {| Product.name := Str "Internet Basic";
     Product.category := "Connectivity";
     Product.tier_level := 1;
     Product.cost_tier := 1;
     Product.min_bandwidth := 10%Q;
     Product.complexity := "Simple";
     Product.target_industries := ["GOVERNMENT"];
     Product.tags := [] |}.

Definition idle_company : Company.t :=
  {| Company.revenue := Some 500000%Q;
     Company.bandwidth_clean := (0, "Unknown");
     Company.tenure_clean := 0;
     Company.industry := "RETAIL";
     Company.category := "Non-Connectivity";
     Company.tier := "ALL NOMENKLATUR";
     Company.current_products := ["IP VPN"] |}.

Definition remote_suite : Product.t :=
  {| Product.name := Str "Managed Platform Enterprise";
     Product.category := "Technology Services";
     Product.tier_level := 1;
     Product.cost_tier := 4;
     Product.min_bandwidth := 100%Q;
     Product.complexity := "Complex";
     Product.target_industries := [];
     Product.tags := [] |}.

(** A table where "IP VPN" and "Internet Basic" were seen together once. *)
Definition paired_once : cooc_table :=
  incr (incr ∅ "IP VPN" "Internet Basic") "Internet Basic" "IP VPN".

(** Occurrences of [x] in a product list. *)
Definition occurrences (x : string) (l : list string) : nat :=
  length (filter (fun y => y = x) l).

(** The pairs of positions [i < j] of a product list that hold [a] and [b],
    counted once for each order in which they do. *)
Fixpoint pair_hits (a b : string) (products : list string) : nat :=
  match products with
  | [] => O
  | p1 :: rest =>
      ((if decide (p1 = a) then occurrences b rest else O)
       + (if decide (p1 = b) then occurrences a rest else O)
       + pair_hits a b rest)%nat
  end.

(** The number of customers whose product list holds both [a] and [b]. *)
Definition customers_holding_both (a b : string)
    (company_products : list (string * list string)) : nat :=
  length (filter (fun row => a ∈ snd row /\ b ∈ snd row) company_products).

(** A customer whose product list names one product twice. *)
Definition repeated_product_rows : list (string * list string) :=
  [("PT SATU", ["Internet"; "IP VPN"; "Internet"])].

Definition distinct_product_rows : list (string * list string) :=
  [("PT SATU", ["Internet"; "IP VPN"]);
   ("PT DUA", ["IP VPN"; "Colocation"; "Internet"]);
   ("PT TIGA", ["Colocation"])].

(** A payment terminal with a large bill, and a backbone link. *)
Definition atm_row : V21.row :=
  {| V21.kategori := "IPVPN ATM";
     V21.pendapatan := 900000000%Q;
     V21.bandwidth_mbps := 0.5%Q;
     V21.cluster_bandwidth := "";
     V21.exclude_upsell := 0;
     V21.exclude_reason := "";
     V21.kuadran_matriks_1 := "";
     V21.strategi_matriks_1 := "";
     V21.skor_peluang_upsell := 0%Q;
     V21.skor_peluang_crosssell := 0%Q |}.

Definition backbone_row : V21.row :=
  {| V21.kategori := "METRONET BACKBONE";
     V21.pendapatan := 100%Q;
     V21.bandwidth_mbps := 10000%Q;
     V21.cluster_bandwidth := "";
     V21.exclude_upsell := 0;
     V21.exclude_reason := "";
     V21.kuadran_matriks_1 := "";
     V21.strategi_matriks_1 := "";
     V21.skor_peluang_upsell := 0%Q;
     V21.skor_peluang_crosssell := 0%Q |}.

(** A propensity model that is sure of every customer. *)
Definition eager_model : option (V21.row -> Q) := Some (fun _ => 1%Q).

(** The entry of a cluster in the threshold table of [V21], read off the
    rows of that cluster alone. *)
Definition v21_cluster_entry (df : list V21.row) (cluster : string)
  : option V21.thresholds :=
  if String.eqb cluster "TIDAK_DIKETAHUI" then None
  else match V21.cluster_rows cluster df with
       | [] => None
       | cluster_data => Some (V21.threshold_bundle cluster_data)
       end.

Definition v30_cluster_entry (df : list V30.row) (cluster : string)
  : option V30.thresholds :=
  match V30.cluster_rows cluster df with
  | [] => None
  | cluster_data => Some (V30.threshold_bundle cluster_data)
  end.

(** The quadrant tables of [klasifikasi_bw], one per cluster family, and
    of [assign_strategy], by (high revenue, high bandwidth). *)
Definition low_quadrant (pendapatan_tinggi : bool) : string * string :=
  if pendapatan_tinggi
  then ("📱 UMKM_POTENSIAL", "CROSS-SELL - Solusi Digital UMKM (Wifi, Cloud)")
  else ("🥚 UMKM_PEMULA", "EDUKASI - Digitalisasi Bisnis").

Definition high_quadrant (pendapatan_tinggi bandwidth_tinggi : bool)
  : string * string :=
  match pendapatan_tinggi, bandwidth_tinggi with
  | true, true =>
      ("🏢 ENTERPRISE_BINTANG", "PERTAHANKAN - Kontrak Jangka Panjang & SLA")
  | true, false =>
      ("🔗 BACKBONE_OPTIMAL", "CROSS-SELL - Managed Services & Security")
  | false, true =>
      ("📡 ISP_POTENSI", "RENEGOSIASI - Harga Kompetitif & Bundling")
  | false, false =>
      ("🏗️  ENTERPRISE_BARU", "KONSTRUKSI - Bangun Relasi & Trust")
  end.

Definition sales_quadrant (pendapatan_tinggi bandwidth_tinggi : bool)
  : string * string :=
  match pendapatan_tinggi, bandwidth_tinggi with
  | true, true =>
      ("🌟 PELANGGAN_BINTANG",
       "PERTAHANKAN - Layanan Premium & Dedicated Support")
  | true, false =>
      ("🎯 AREA_RISIKO", "CROSS-SELL - Smart Home, PV Rooftop, EV Charging")
  | false, true =>
      ("🔫 ZONA_SNIPER", "UPSELL - Upgrade Bandwidth + Managed Services")
  | false, false =>
      ("🥚 INKUBATOR", "EDUKASI - Demo Produk & Onboarding")
  end.

Definition strategy_quadrant (high_revenue high_bandwidth : bool)
  : string * string :=
  match high_revenue, high_bandwidth with
  | true, true => ("Star", "RETAIN")
  | true, false => ("Risk", "CROSS-SELL")
  | false, true => ("Sniper", "UPSELL")
  | false, false => ("Incubator", "AUTOMATE")
  end.

(** A table of four labels is a one-to-one map of the boolean pairs. *)
Definition four_way (quadrant : bool -> bool -> string * string) : Prop :=
  forall a b a' b',
    fst (quadrant a b) = fst (quadrant a' b') -> a = a' /\ b = b'.

(** A segmented, non-excluded customer of [V21]. *)
Definition v21_customer (cluster : string) (pendapatan bandwidth_mbps : Q)
  : V21.row :=
  {| V21.kategori := "";
     V21.pendapatan := pendapatan;
     V21.bandwidth_mbps := bandwidth_mbps;
     V21.cluster_bandwidth := cluster;
     V21.exclude_upsell := 0;
     V21.exclude_reason := "";
     V21.kuadran_matriks_1 := "";
     V21.strategi_matriks_1 := "";
     V21.skor_peluang_upsell := 0%Q;
     V21.skor_peluang_crosssell := 0%Q |}.

(** Three small businesses of the low-bandwidth cluster: median revenue
    10, median bandwidth 5. *)
Definition umkm_a : V21.row := v21_customer "LOW_BANDWIDTH_GROUP" 10 50.
Definition umkm_b : V21.row := v21_customer "LOW_BANDWIDTH_GROUP" 10 2.
Definition umkm_c : V21.row := v21_customer "LOW_BANDWIDTH_GROUP" 1 5.
Definition umkm_frame : list V21.row := [umkm_a; umkm_b; umkm_c].

(** Three corporate customers of the mid-bandwidth cluster (median
    revenue 20, median bandwidth 200), one backbone customer and one
    customer of unknown bandwidth. *)
Definition corp_a : V21.row := v21_customer "MID_BANDWIDTH_GROUP" 30 150.
Definition corp_b : V21.row := v21_customer "MID_BANDWIDTH_GROUP" 20 200.
Definition corp_c : V21.row := v21_customer "MID_BANDWIDTH_GROUP" 10 300.
Definition isp_a : V21.row := v21_customer "HIGH_BANDWIDTH_GROUP" 500 2000.
Definition isp_b : V21.row := v21_customer "HIGH_BANDWIDTH_GROUP" 700 4000.
Definition unknown_a : V21.row := v21_customer "TIDAK_DIKETAHUI" 5 0.
Definition mixed_frame : list V21.row :=
  [corp_a; isp_a; corp_b; unknown_a; corp_c].
Definition reshuffled_frame : list V21.row :=
  [isp_b; corp_a; corp_b; isp_a; isp_a; corp_c].

(** The bundle that [get_or_zero] reads for a cluster without entry. *)
Definition zero_thresholds : V30.thresholds :=
  {| V30.median_pendapatan := Some 0%Q;
     V30.median_bandwidth := Some 0%Q;
     V30.q75_pendapatan := Some 0%Q;
     V30.q25_pendapatan := Some 0%Q |}.

Definition v30_corporate : V30.row :=
  {| V30.pendapatan := 0%Q;
     V30.bandwidth_mbps := 0%Q;
     V30.bandwidth_cluster := "CORPORATE" |}.

Definition v30_frame : list V30.row :=
  [ {| V30.pendapatan := 40%Q; V30.bandwidth_mbps := 100%Q;
       V30.bandwidth_cluster := "CORPORATE" |};
    {| V30.pendapatan := 5%Q; V30.bandwidth_mbps := 10%Q;
       V30.bandwidth_cluster := "UMKM_SMALL" |};
    {| V30.pendapatan := 60%Q; V30.bandwidth_mbps := 50%Q;
       V30.bandwidth_cluster := "CORPORATE" |} ].

Definition v30_frame_more : list V30.row :=
  {| V30.pendapatan := 9%Q; V30.bandwidth_mbps := 900%Q;
     V30.bandwidth_cluster := "ENTERPRISE" |} :: v30_frame.

(** A tenure column: three stated tenures and the invalid-data sentinel. *)
Definition tenure_column : list cell :=
  [Str "10"; Str "12"; Str "14"; Str "Data Tidak Valid"].

(** The tenures of a column after cleaning (the cells the cleaner returns
    on). *)
Definition cleaned_tenures (column : list cell) : list Q :=
  omap (fun value => match clean_tenure_smart value with
                     | Ok years => Some (inject_Z years)
                     | Raise _ => None
                     end) column.

(* ===================================================================== *)
(** ** Further functions of the pipelines *)
(* ===================================================================== *)

From Stdlib Require Import Sorted Permutation.

(** Decimal digits and blanks, the characters of a number text. *)
Definition decimal_or_space (c : ascii) : bool :=
  Py.isdecimal_char c || Py.isspace_char c.

(** [s.lower()] on U+0000..U+00FF: 'A'..'Z' and U+00C0..U+00DE (but the
    multiplication sign) move up by 32. *)
Definition lower_char (c : ascii) : ascii :=
  let n := Py.ord c in
  if ((65 <=? n) && (n <=? 90))%N then ascii_of_N (n + 32)
  else if ((192 <=? n) && (n <=? 222) && negb (n =? 215))%N
       then ascii_of_N (n + 32)
  else c.

Fixpoint lower (s : string) : string :=
  match s with
  | EmptyString => EmptyString
  | String c t => String (lower_char c) (lower t)
  end.

(** [COMPLEXITY_KEYWORDS], in the order the dictionary lists them. *)
Definition COMPLEXITY_KEYWORDS : list (string * list string) :=
  [("Simple", ["basic"; "starter"; "light"; "essential"; "entry"; "bronze"]);
   ("Medium", ["standard"; "professional"; "plus"; "advanced"; "silver";
               "medium"]);
   ("Complex", ["enterprise"; "premium"; "ultimate"; "managed"; "gold";
                "platinum"; "deluxe"])].

(** [any(kw in s for kw in keywords)] *)
Definition any_keyword (keywords : list string) (s : string) : bool :=
  existsb (fun kw => Py.contains kw s) keywords.

Fixpoint first_complexity (table : list (string * list string))
    (name_lower : string) : option string :=
  match table with
  | [] => None
  | (complexity, keywords) :: rest =>
      if any_keyword keywords name_lower then Some complexity
      else first_complexity rest name_lower
  end.

(** [str(x)] of a cell: a missing value prints as "nan". *)
Definition str (x : cell) : string :=
  match x with
  | NaN => "nan"
  | Str s => s
  end.

Definition infer_product_complexity (product_name : cell) : string :=
  let name_lower := lower (str product_name) in
  match first_complexity COMPLEXITY_KEYWORDS name_lower with
  | Some complexity => complexity
  | None => "Medium"
  end.

Definition estimate_cost_tier (nomenklatur : string) : Z :=
  let nom := Py.upper nomenklatur in
  if any_keyword ["DI-TS"] nom then 1
  else if any_keyword ["DI-SDS-TS"] nom then 2
  else if any_keyword ["DI-SDS-SDS"] nom then 3
  else 2.

(** A line of the product catalog with the three columns [process_data]
    reads: [Produk], [Kategori Produk], [Nomenklatur Baru].  [Produk] is
    [NaN] where the spreadsheet cell is blank. *)
Module Catalog.
Record line : Type := {
  Produk : cell;
  Kategori_Produk : string;
  Nomenklatur_Baru : string
}.
End Catalog.

(** The product dictionary [process_data] builds from a catalog line (its
    keys [nomenklatur] and [tier] repeat the nomenklatur text and are not
    read by the scoring); no [tags] key is set. *)
Definition catalog_product (row : Catalog.line) : Product.t :=
  {| Product.name := Catalog.Produk row;
     Product.category := Catalog.Kategori_Produk row;
     Product.tier_level := estimate_cost_tier (Catalog.Nomenklatur_Baru row);
     Product.cost_tier := estimate_cost_tier (Catalog.Nomenklatur_Baru row);
     Product.min_bandwidth := 0%Q;
     Product.complexity := infer_product_complexity (Catalog.Produk row);
     Product.target_industries := [];
     Product.tags := [] |}.

(** A catalog line whose cells all hold text, as [ProductCatalog] of
    [cvo_nbo_v30.py] reads it. *)
Record catalog_row : Type := {
  Produk : string;
  Kategori_Produk : string;
  Nomenklatur_Baru : string
}.

(** [assign_priority]; a NaN revenue fails every comparison. *)
Definition assign_priority (company : Company.t) (nbo_score : Q)
  : string * string :=
  let revenue := Company.revenue company in
  let tenure := Company.tenure_clean company in
  let revenue_ge (threshold : Q) : bool :=
    match revenue with
    | Some r => Qle_bool threshold r
    | None => false
    end in
  if Qle_bool 80 nbo_score
  then ("High", "Perfect match - immediate action")
  else if revenue_ge 15000000%Q || (revenue_ge 3500000%Q && (tenure =? 0))
  then ("High", "High-value or renewal risk")
  else if Qle_bool 60 nbo_score
  then ("Medium", "Good opportunity")
  else ("Low", "Monitor or automated campaign").

(** The order of the priority labels. *)
Definition priority_rank (priority : string) : Z :=
  if String.eqb priority "High" then 2
  else if String.eqb priority "Medium" then 1
  else 0.

(** [list.sort(key=..., reverse=True)]: descending and stable, an entry
    goes before the first entry whose key is not larger. *)
Fixpoint insert_desc {A : Type} (key : A -> Q) (x : A) (l : list A) : list A :=
  match l with
  | [] => [x]
  | y :: t =>
      if Qle_bool (key y) (key x) then x :: l else y :: insert_desc key x t
  end.

Definition sort_desc {A : Type} (key : A -> Q) (l : list A) : list A :=
  foldr (insert_desc key) [] l.

(** The loop of [process_data] that scores every catalog product for one
    company. *)
Fixpoint score_products (company : Company.t) (products : list Product.t)
    (co_occurrence : cooc_table) (total_companies : nat)
  : result (list (Product.t * Q)) :=
  match products with
  | [] => Ok []
  | product :: rest =>
      let? score := calculate_nbo_score_v4_2 company product co_occurrence
                      total_companies in
      let? product_scores := score_products company rest co_occurrence
                               total_companies in
      Ok ((product, score) :: product_scores)
  end.

(** Sort and keep the first three. *)
Definition top3 (company : Company.t) (products : list Product.t)
    (co_occurrence : cooc_table) (total_companies : nat)
  : result (list (Product.t * Q)) :=
  let? product_scores := score_products company products co_occurrence
                           total_companies in
  Ok (firstn 3 (sort_desc snd product_scores)).


(** A customer with Enterprise revenue on the tier ALL NOMENKLATUR. *)
Definition enterprise_company : Company.t :=
  {| Company.revenue := Some 20000000%Q;
     Company.bandwidth_clean := (1000, "Connectivity");
     Company.tenure_clean := 8;
     Company.industry := "BANKING & FINANCIAL";
     Company.category := "Technology Services";
     Company.tier := "ALL NOMENKLATUR";
     Company.current_products := [] |}.

Definition sample_catalog : list Catalog.line :=
  [ {| Catalog.Produk := Str "Internet Basic";
       Catalog.Kategori_Produk := "Connectivity";
       Catalog.Nomenklatur_Baru := "DI-TS" |};
    {| Catalog.Produk := Str "Managed Security Premium";
       Catalog.Kategori_Produk := "Technology Services";
       Catalog.Nomenklatur_Baru := "DI-SDS-TS" |};
    {| Catalog.Produk := Str "Cloud Standard";
       Catalog.Kategori_Produk := "Technology Services";
       Catalog.Nomenklatur_Baru := "DI-SDS-SDS" |};
    {| Catalog.Produk := Str "IoT Starter";
       Catalog.Kategori_Produk := "Smart Solution";
       Catalog.Nomenklatur_Baru := "Lainnya" |} ].

(** A catalog line whose product name was left blank. *)
Definition blank_name_line : Catalog.line :=
  {| Catalog.Produk := NaN;
     Catalog.Kategori_Produk := "Technology Services";
     Catalog.Nomenklatur_Baru := "DI-SDS-TS" |}.

(** Entries in descending order of their key. *)
Definition descending {A : Type} (key : A -> Q) (l : list A) : Prop :=
  StronglySorted (fun a b => (key b <= key a)%Q) l.

(** The entries whose key equals [k], in the order of the list. *)
Definition with_key {A : Type} (key : A -> Q) (k : Q) (l : list A) : list A :=
  List.filter (fun x => Qeq_bool (key x) k) l.

(** The total number of rows naming product [p]. *)
Definition total_occurrences (p : string)
    (company_products : list (string * list string)) : nat :=
  sum_list (map (fun row => occurrences p (snd row)) company_products).

(* ===================================================================== *)
(** ** Priorities, potentials and value scores ([cvo_ml_indonesia_v21.py]) *)
(* ===================================================================== *)

(** [pd.cut(x, bins=[0, 0.3, 0.6, 1.0], labels=['Rendah', 'Sedang',
    'Tinggi'])]: the bins are open on the left and closed on the right,
    and a value in no bin gives a missing label. *)
Definition pd_cut_prioritas (skor : Q) : option string :=
  if Qlt_bool 0 skor && Qle_bool skor 0.3 then Some "Rendah"
  else if Qlt_bool 0.3 skor && Qle_bool skor 0.6 then Some "Sedang"
  else if Qlt_bool 0.6 skor && Qle_bool skor 1 then Some "Tinggi"
  else None.

(** [np.where((skor_peluang_upsell > 0.5) & (exclude_upsell == 0),
    clv_prediksi_12bulan * 0.3, 0)] for one line, [clv] its predicted
    value. *)
Definition potensi_upsell (clv : Q) (r : V21.row) : Q :=
  if Qlt_bool 0.5 (V21.skor_peluang_upsell r) && (V21.exclude_upsell r =? 0)
  then (clv * 0.3)%Q else 0%Q.

(** [np.where(skor_peluang_crosssell > 0.5, clv_prediksi_12bulan * 0.25, 0)] *)
Definition potensi_crosssell (clv : Q) (r : V21.row) : Q :=
  if Qlt_bool 0.5 (V21.skor_peluang_crosssell r)
  then (clv * 0.25)%Q else 0%Q.

(** A model whose predictions are probabilities. *)
Definition probability_model (model : option (V21.row -> Q)) : Prop :=
  forall predict_proba r,
    model = Some predict_proba -> (0 <= predict_proba r <= 1)%Q.

(** [Series.max()] of a column without NaN; NaN on an empty column. *)
Definition series_max (l : list Q) : pdfloat :=
  match l with
  | [] => None
  | x :: t => Some (foldl Qmax x t)
  end.

(** The columns [calc_value_score] reads. *)
Record value_row : Type := {
  v_pendapatan : Q;
  v_masa_berlangganan : Q;
  v_bandwidth_mbps : Q
}.

(** A value of pandas arithmetic: a bare number, or a column with one
    entry per line of the group. *)
Inductive broadcast : Type :=
  | Scalar (q : Q)
  | Column (l : list Q).

(** [column / column.max() if column.max() > 0 else 0]: the column
    divided by its maximum, or the bare number 0. *)
Definition normalise (column : list Q) : broadcast :=
  match series_max column with
  | Some m => if Qlt_bool 0 m then Column (map (fun x => (x / m)%Q) column)
              else Scalar 0
  | None => Scalar 0
  end.

(** [value * k] for a number [k]. *)
Definition scale (value : broadcast) (k : Q) : broadcast :=
  match value with
  | Scalar q => Scalar (q * k)
  | Column l => Column (map (fun x => (x * k)%Q) l)
  end.

(** [a + b]; a bare number is added to every entry of a column, two
    columns of one group are added entry by entry. *)
Definition add (a b : broadcast) : broadcast :=
  match a, b with
  | Scalar x, Scalar y => Scalar (x + y)
  | Scalar x, Column l => Column (map (fun y => (x + y)%Q) l)
  | Column l, Scalar y => Column (map (fun x => (x + y)%Q) l)
  | Column l, Column l' => Column (zip_with Qplus l l')
  end.

(** [calc_value_score] on the lines of one cluster. *)
Definition calc_value_score (group : list value_row) : broadcast :=
  match group with
  | [] => Column []
  | _ =>
      let pendapatan_norm := normalise (map v_pendapatan group) in
      let tenure_norm := normalise (map v_masa_berlangganan group) in
      let bw_norm := normalise (map v_bandwidth_mbps group) in
      add (add (scale pendapatan_norm 0.4) (scale tenure_norm 0.3))
          (scale bw_norm 0.3)
  end.

(** The flags [pelanggan_high_value] and [bandwidth_tinggi] of one line
    within its cluster's column: [(x >= x.quantile(0.75)).astype(int)]. *)
Definition high_value_flag (column : list Q) (x : Q) : Z :=
  if ge_float x (Series.quantile 0.75 column) then 1 else 0.

Definition high_value_flags (column : list Q) : list Z :=
  map (high_value_flag column) column.

(** The flag [pendapatan_rendah]: [(x < x.quantile(0.25)).astype(int)]. *)
Definition low_revenue_flag (column : list Q) (x : Q) : Z :=
  match Series.quantile 0.25 column with
  | Some q => if Qlt_bool x q then 1 else 0
  | None => 0
  end.

Definition low_revenue_flags (column : list Q) : list Z :=
  map (low_revenue_flag column) column.

(** What holds of a value of pandas arithmetic over a group of [n]
    lines: of the bare number, or of every entry of the column. *)
Definition all_in (P : Q -> Prop) (n : nat) (value : broadcast) : Prop :=
  match value with
  | Scalar q => P q
  | Column l => length l = n /\ Forall P l
  end.

Definition is_column (value : broadcast) : bool :=
  match value with
  | Scalar _ => false
  | Column _ => true
  end.

(* ===================================================================== *)
(** ** The NBO engine v3.0: bandwidth texts, roadmap, catalog, fallback *)
(* ===================================================================== *)

(** [s.replace(',', '.')] *)
Fixpoint replace_comma (s : string) : string :=
  match s with
  | EmptyString => EmptyString
  | String c t =>
      String (if Ascii.eqb c ","%char then "."%char else c) (replace_comma t)
  end.

(** The class [[\d.]] of the number pattern. *)
Definition decimal_or_dot (c : ascii) : bool :=
  Py.isdecimal_char c || Ascii.eqb c "."%char.

(** [re.findall(r"[\d.]+", s)], its first element: the leftmost longest
    run of decimal digits and dots. *)
Fixpoint first_number (s : string) : option string :=
  match s with
  | EmptyString => None
  | String c t =>
      if decimal_or_dot c then Some (Py.take_while decimal_or_dot s)
      else first_number t
  end.

(** *** Floats

    A Python float is a double: a rational [m * 2^e] with a significand
    [m] of at most 53 bits and [-1074 <= e], below [2^1024] in size, or
    an infinity.  A finite double is written as the rational it is, in
    lowest terms.  The value of [float(s)], of a product and of a
    quotient is the double nearest to the exact result, ties going to the
    even significand, and an infinity when that is [2^1024] or more in
    size ([float_round]). *)
Inductive double : Set :=
| Finite (q : Q)
| Inf (negative : bool).

(** The nearest integer to [n / d], ties to the even one. *)
Definition round_half_even (n d : Z) : Z :=
  let f := n / d in
  let r := n mod d in
  if 2 * r <? d then f
  else if d <? 2 * r then f + 1
  else if Z.even f then f else f + 1.

(** The exponent [k] with [2^k <= n/d < 2^(k+1)]. *)
Definition binade (n d : positive) : Z :=
  let k := Z.log2 (Zpos n) - Z.log2 (Zpos d) in
  if Zpos d * 2 ^ Z.max 0 k <=? Zpos n * 2 ^ Z.max 0 (- k) then k
  else k - 1.

(** The double nearest to [n/d], [None] when it is beyond the largest
    double: a significand of 53 bits at the exponent [e] of its last bit,
    of fewer bits where [e] stops at -1074. *)
Definition float_round_pos (n d : positive) : option Q :=
  let e := Z.max (binade n d - 52) (-1074) in
  let significand :=
    round_half_even (Zpos n * 2 ^ Z.max 0 (- e)) (Zpos d * 2 ^ Z.max 0 e) in
  if 2 ^ 2098 <=? significand * 2 ^ (e + 1074) then None
  else Some (Qred (Qmake (significand * 2 ^ Z.max 0 e)
                         (Z.to_pos (2 ^ Z.max 0 (- e))))).

Definition float_round (q : Q) : double :=
  match Qnum q with
  | Z0 => Finite 0
  | Zpos n =>
      match float_round_pos n (Qden q) with
      | Some r => Finite r
      | None => Inf false
      end
  | Zneg n =>
      match float_round_pos n (Qden q) with
      | Some r => Finite (- r)
      | None => Inf true
      end
  end.

(** [x * k] and [x / k] for a float [x] and a positive integer [k]. *)
Definition float_times (x : double) (k : Q) : double :=
  match x with
  | Finite q => float_round (q * k)
  | Inf negative => Inf negative
  end.

Definition float_over (x : double) (k : Q) : double :=
  match x with
  | Finite q => float_round (q / k)
  | Inf negative => Inf negative
  end.

(** [x == k], [x < k] and [x <= k] for a float [x] and a number [k]. *)
Definition float_eqb (x : double) (k : Q) : bool :=
  match x with
  | Finite q => Qeq_bool q k
  | Inf _ => false
  end.

Definition float_ltb (x : double) (k : Q) : bool :=
  match x with
  | Finite q => Qlt_bool q k
  | Inf negative => negative
  end.

Definition float_leb (x : double) (k : Q) : bool :=
  match x with
  | Finite q => Qle_bool q k
  | Inf negative => negative
  end.

(** A float that is not negative. *)
Definition float_nonneg (x : double) : Prop :=
  match x with
  | Finite q => (0 <= q)%Q
  | Inf negative => negative = false
  end.

(** [float(s)] on a run of decimal digits and dots: digits with at most
    one dot among them, at least one digit, read as the nearest double;
    [None] where [float] raises [ValueError]. *)
Definition float_of_number (s : string) : option double :=
  let whole := Py.take_while Py.isdecimal_char s in
  match Py.drop_while Py.isdecimal_char s with
  | EmptyString =>
      if String.eqb whole EmptyString then None
      else Some (float_round (inject_Z (Py.digits_value_from 0 whole)))
  | String c fraction =>
      if Ascii.eqb c "."%char
         && Py.forallb_str Py.isdecimal_char fraction
         && negb (String.eqb (whole ++ fraction) EmptyString)
      then Some (float_round
                   (inject_Z (Py.digits_value_from 0 (whole ++ fraction))
                    / inject_Z (10 ^ Z.of_nat (String.length fraction))))%Q
      else None
  end.

(** The characters of a number text and the blanks after it. *)
Definition number_char (c : ascii) : bool :=
  decimal_or_dot c || Py.isspace_char c.

(** The unit words [parse_bandwidth_fix] knows. *)
Definition unit_words : list string :=
  ["gbps"; "gb"; "kbps"; "kb"; "mbps"; "mb"; "pair"].

(** The characters that are no decimal digit. *)
Definition no_decimal (c : ascii) : bool := negb (Py.isdecimal_char c).

Module NBO.

(** The Mbps figure of a value in the unit the text names; the products
    and the quotient are float operations. *)
Definition to_mbps (bw_str : string) (value : double) : double :=
  if Py.contains "gbps" bw_str || Py.contains "gb" bw_str
  then float_times value 1000
  else if Py.contains "kbps" bw_str || Py.contains "kb" bw_str
  then float_over value 1000
  else if Py.contains "mbps" bw_str || Py.contains "mb" bw_str
  then value
  else if Py.contains "pair" bw_str
  then float_times value 100
  else value.

Definition cluster_of (mbps : double) : string :=
  if float_eqb mbps 0 then "NO_BANDWIDTH"
  else if float_ltb mbps 1 then "ATM_IOT"
  else if float_leb mbps 20 then "UMKM_SMALL"
  else if float_leb mbps 500 then "CORPORATE"
  else "ENTERPRISE".

(** [parse_bandwidth_fix] on a cell of the column "Bandwidth Fix": a
    missing value or a text. *)
Definition parse_bandwidth_fix (bw_value : cell) : double * string :=
  match bw_value with
  | NaN => (Finite 0, "NO_BANDWIDTH")
  | Str s =>
      if in_list (lower s) ["tidak ada"; "none"; "nan"; "-"]
      then (Finite 0, "NO_BANDWIDTH")
      else
        let bw_str := Py.strip (replace_comma (lower s)) in
        match first_number bw_str with
        | None => (Finite 0, "UNKNOWN")
        | Some number =>
            match float_of_number number with
            | None => (Finite 0, "UNKNOWN")
            | Some value =>
                let mbps := to_mbps bw_str value in
                (mbps, cluster_of mbps)
            end
        end
  end.

(** [calc_value_score] of [engineer_features] on the lines of one
    bandwidth cluster. *)
Definition calc_value_score (group : list value_row) : broadcast :=
  match group with
  | [] => Column []
  | _ =>
      match series_max (map v_pendapatan group) with
      | Some m =>
          if Qeq_bool m 0 then Column (map (fun _ => 0%Q) group)
          else
            let pendapatan_norm :=
              Column (map (fun x => (x / m)%Q) (map v_pendapatan group)) in
            let tenure_norm := normalise (map v_masa_berlangganan group) in
            let bw_norm := normalise (map v_bandwidth_mbps group) in
            add (add (scale pendapatan_norm 0.5) (scale tenure_norm 0.3))
                (scale bw_norm 0.2)
      | None => Column (map (fun _ => 0%Q) group)
      end
  end.

(** The score [generate_predictions] uses when no upsell model was
    trained. *)
Definition fallback_skor_upsell (kuadran : string) : Q :=
  if Py.contains "SNIPER" kuadran then 0.8%Q
  else if Py.contains "RISIKO" kuadran then 0.3%Q
  else 0.1%Q.

Definition skor_upsell (upsell_model : option (V30.row -> Q))
    (r : V30.row) (kuadran : string) : Q :=
  match upsell_model with
  | Some predict_proba => predict_proba r
  | None => fallback_skor_upsell kuadran
  end.

(** [np.where(skor_upsell > 0.5, clv_prediksi * 0.3, 0)] *)
Definition potensi_revenue (clv skor : Q) : Q :=
  if Qlt_bool 0.5 skor then (clv * 0.3)%Q else 0%Q.

(** The columns [kuadran], [skor_upsell], [prioritas] and
    [potensi_revenue] of [create_strategic_matrices] followed by
    [generate_predictions]; [clv] gives the predicted value of a line. *)
Record prediction : Type := {
  p_kuadran : string;
  p_skor_upsell : Q;
  p_prioritas : option string;
  p_potensi_revenue : Q
}.

Definition generate_predictions (upsell_model : option (V30.row -> Q))
    (clv : V30.row -> Q) (df : list V30.row) : list (V30.row * prediction) :=
  map (fun '(r, (kuadran, strategi)) =>
         let skor := skor_upsell upsell_model r kuadran in
         (r, {| p_kuadran := kuadran;
                p_skor_upsell := skor;
                p_prioritas := pd_cut_prioritas skor;
                p_potensi_revenue := potensi_revenue (clv r) skor |}))
      (V30.create_strategic_matrices df).

End NBO.

(** A dictionary written as the list of its items, in insertion order:
    [d.get(key)] and [d[key] = value]. *)
Fixpoint dict_get {A : Type} (d : list (string * A)) (key : string)
  : option A :=
  match d with
  | [] => None
  | (k, v) :: rest => if String.eqb key k then Some v else dict_get rest key
  end.

Fixpoint dict_set {A : Type} (d : list (string * A)) (key : string)
    (value : A) : list (string * A) :=
  match d with
  | [] => [(key, value)]
  | (k, v) :: rest =>
      if String.eqb key k then (k, value) :: rest
      else (k, v) :: dict_set rest key value
  end.

Module TierRoadmap.

Record recommendation : Type := {
  next : option string;
  priority : string;
  action : string
}.

Definition TIER_ROADMAP : list (string * recommendation) :=
  [("DI Only", {| next := Some "DI-TS"; priority := "HIGH";
                  action := "Add Technology Services" |});
   ("TS Only", {| next := Some "DI-TS"; priority := "HIGH";
                  action := "Add Digital Infrastructure" |});
   ("SDS Only", {| next := Some "DI-SDS-TS"; priority := "MEDIUM";
                   action := "Add DI + TS" |});
   ("GE Only", {| next := Some "GE-DI"; priority := "MEDIUM";
                  action := "Add Digital Infrastructure" |});
   ("DI-TS", {| next := Some "DI-SDS-TS"; priority := "HIGH";
                action := "Add Smart Digital Solution" |});
   ("DI-SDS", {| next := Some "DI-SDS-TS"; priority := "MEDIUM";
                 action := "Add Technology Services" |});
   ("DI-GE", {| next := Some "DI-GE-TS"; priority := "MEDIUM";
                action := "Add Technology Services" |});
   ("DI-SDS-TS", {| next := Some "DI-GE-SDS-TS"; priority := "MEDIUM";
                    action := "Add Green Ecosystem" |});
   ("DI-GE-TS", {| next := Some "DI-SDS-GE-TS"; priority := "MEDIUM";
                   action := "Add Smart Digital Solution" |});
   ("DI-GE-SDS", {| next := Some "ALL_NOMENKLATUR"; priority := "LOW";
                    action := "Add Technology Services" |});
   ("GE-SDS-TS", {| next := Some "GE-SDS-TS-DI"; priority := "HIGH";
                    action := "Add Digital Infrastructure" |});
   ("GE-SDS", {| next := Some "GE-SDS-TS"; priority := "MEDIUM";
                 action := "Add Technology Services" |});
   ("GE-TS", {| next := Some "GE-TS-DI"; priority := "MEDIUM";
                action := "Add Digital Infrastructure" |});
   ("SDS-TS", {| next := Some "DI-SDS-TS"; priority := "HIGH";
                 action := "Add Digital Infrastructure" |});
   ("ALL NOMENKLATUR", {| next := None; priority := "RETENTION";
                          action := "Retention & Premium Services" |})].

Definition get_recommendation (current_tier : string) : recommendation :=
  match dict_get TIER_ROADMAP current_tier with
  | Some r => r
  | None => {| next := None; priority := "UNKNOWN";
               action := "Analyze Further" |}
  end.

(** The tier reached from [tier] after [n] steps along [next], while the
    roadmap names one. *)
Fixpoint follow (n : nat) (tier : string) : option string :=
  match n with
  | O => Some tier
  | S n' =>
      match next (get_recommendation tier) with
      | Some tier' => follow n' tier'
      | None => None
      end
  end.

(** The line [generate_nbo] adds for the tier: the action, when the
    roadmap names a next tier. *)
Definition tier_nbo (tier : string) : list string :=
  match next (get_recommendation tier) with
  | Some _ => ["Tier: " ++ action (get_recommendation tier)]
  | None => []
  end.

End TierRoadmap.

Module ProductCatalog.

(** [self.tier_products]: the products of each family code. *)
Abbreviation tier_products_t := (gmap string (list string)).

(** [self.tier_products.get(code, [])] *)
Definition products_of (tier_products : tier_products_t) (code : string)
  : list string :=
  default [] (tier_products !! code).

Definition append_product (tier_products : tier_products_t)
    (code produk : string) : tier_products_t :=
  <[code := (products_of tier_products code ++ [produk])%list]>
    tier_products.

(** One turn of the loop of [_categorize_by_tier]. *)
Definition categorize_step (tier_products : tier_products_t)
    (row : catalog_row) : tier_products_t :=
  let nomenklatur := Nomenklatur_Baru row in
  let produk := Produk row in
  if Py.contains "Technology Services" nomenklatur
  then append_product tier_products "TS" produk
  else if Py.contains "Smart" nomenklatur
          || Py.contains "Digital Solution" nomenklatur
  then append_product tier_products "SDS" produk
  else if Py.contains "Green" nomenklatur
          || Py.contains "Ecosystem" nomenklatur
  then append_product tier_products "GE" produk
  else if Py.contains "Infrastructure" nomenklatur
  then append_product tier_products "DI" produk
  else tier_products.

Definition empty_tier_products : tier_products_t :=
  <["DI" := []]> (<["TS" := []]> (<["SDS" := []]> (<["GE" := []]> ∅))).

(** [_categorize_by_tier] on the rows of a loaded catalog. *)
Definition categorize_by_tier (df_catalog : list catalog_row)
  : tier_products_t :=
  foldl categorize_step empty_tier_products df_catalog.

(** An entry of [self.product_hierarchy]; its key [code] is not read by
    the recommendations. *)
Record info : Type := {
  level : string;
  nomenklatur : string;
  kategori : string
}.

Definition entry_keywords : list string :=
  ["basic"; "starter"; "bronze"; "standard"; "light"; "essential"; "entry"].
Definition mid_keywords : list string :=
  ["medium"; "silver"; "professional"; "pro"; "plus"; "advanced";
   "business"].
Definition high_keywords : list string :=
  ["gold"; "platinum"; "premium"; "enterprise"; "ultimate"; "max";
   "deluxe"].

Definition level_of (produk : string) : string :=
  let product_name := lower produk in
  if any_keyword entry_keywords product_name then "ENTRY"
  else if any_keyword mid_keywords product_name then "MID"
  else if any_keyword high_keywords product_name then "HIGH"
  else "UNKNOWN".

(** One turn of the loop of [_build_product_hierarchy]. *)
Definition hierarchy_step (product_hierarchy : list (string * info))
    (row : catalog_row) : list (string * info) :=
  dict_set product_hierarchy (Produk row)
    {| level := level_of (Produk row);
       nomenklatur := Nomenklatur_Baru row;
       kategori := Kategori_Produk row |}.

Definition build_product_hierarchy (df_catalog : list catalog_row)
  : list (string * info) :=
  foldl hierarchy_step [] df_catalog.

(** [{'ENTRY': 'MID', 'MID': 'HIGH', 'HIGH': None}.get(current_level)] *)
Definition target_level (current_level : string) : option string :=
  if String.eqb current_level "ENTRY" then Some "MID"
  else if String.eqb current_level "MID" then Some "HIGH"
  else None.

Definition get_next_level_product (product_hierarchy : list (string * info))
    (current_product : string) : option string :=
  match dict_get product_hierarchy current_product with
  | None => None
  | Some current_info =>
      match target_level (level current_info) with
      | None => None
      | Some target =>
          let candidates :=
            map fst
              (List.filter
                 (fun item =>
                    String.eqb (level (snd item)) target
                    && String.eqb (kategori (snd item))
                                  (kategori current_info))
                 product_hierarchy) in
          match candidates with
          | [] => None
          | product :: _ => Some product
          end
      end
  end.

(** A catalog with a basic, a professional and a premium product of one
    category. *)
Definition ladder_catalog : list catalog_row :=
  [ {| Produk := "IP VPN Basic"; Kategori_Produk := "Connectivity";
       Nomenklatur_Baru := "Digital Infrastructure" |};
    {| Produk := "IP VPN Premium"; Kategori_Produk := "Connectivity";
       Nomenklatur_Baru := "Digital Infrastructure" |};
    {| Produk := "IP VPN Professional"; Kategori_Produk := "Connectivity";
       Nomenklatur_Baru := "Digital Infrastructure" |} ].

Definition gov_keywords : list string :=
  ["ap2t"; "ago"; "smart city"; "public"].

Definition get_cross_sell_by_tier (tier_products : tier_products_t)
    (current_tier segmen : string) : list string :=
  let has_ts := Py.contains "TS" current_tier in
  let has_sds := Py.contains "SDS" current_tier in
  let has_ge := Py.contains "GE" current_tier in
  let r1 :=
    if negb has_ts && Py.contains "DI" current_tier
    then firstn 3 (products_of tier_products "TS") else [] in
  let r2 :=
    if negb has_sds && Py.contains "DI" current_tier
       && Py.contains "TS" current_tier
    then firstn 3 (products_of tier_products "SDS") else [] in
  let r3 :=
    if negb has_ge
       && (Py.contains "SDS" current_tier || Py.contains "TS" current_tier)
    then firstn 2 (products_of tier_products "GE") else [] in
  let recommendations := (r1 ++ r2 ++ r3)%list in
  let recommendations :=
    if String.eqb segmen "GOVERNMENT"
    then
      let gov_products :=
        List.filter (fun p => existsb (fun x => Py.contains x (lower p))
                                      gov_keywords) recommendations in
      match gov_products with
      | [] => recommendations
      | _ => (gov_products ++ recommendations)%list
      end
    else recommendations in
  firstn 5 recommendations.

End ProductCatalog.

(** The family code under which [_categorize_by_tier] files a catalog
    row, read off its nomenklatur. *)
Definition family (row : catalog_row) : option string :=
  let nomenklatur := Nomenklatur_Baru row in
  if Py.contains "Technology Services" nomenklatur then Some "TS"
  else if Py.contains "Smart" nomenklatur
          || Py.contains "Digital Solution" nomenklatur then Some "SDS"
  else if Py.contains "Green" nomenklatur
          || Py.contains "Ecosystem" nomenklatur then Some "GE"
  else if Py.contains "Infrastructure" nomenklatur then Some "DI"
  else None.

(** A catalog with one product of each family. *)
Definition nbo_catalog : list catalog_row :=
  [ {| Produk := "Metronet"; Kategori_Produk := "Connectivity";
       Nomenklatur_Baru := "Digital Infrastructure" |};
    {| Produk := "Managed Security"; Kategori_Produk := "Security";
       Nomenklatur_Baru := "Technology Services" |};
    {| Produk := "Smart City Platform"; Kategori_Produk := "Platform";
       Nomenklatur_Baru := "Smart Digital Solution" |};
    {| Produk := "PLTS Atap"; Kategori_Produk := "Energy";
       Nomenklatur_Baru := "Green Ecosystem" |} ].

(* ===================================================================== *)
(** ** Reasoning texts and data cleaning *)
(* ===================================================================== *)

(** [sep.join(l)] *)
Fixpoint join (sep : string) (l : list string) : string :=
  match l with
  | [] => EmptyString
  | [s] => s
  | s :: rest => s ++ sep ++ join sep rest
  end.

(** The parts of the list [reasons] of [generate_reasoning], one for each
    [if] of the function.  [cost_category] is the product's key of that
    name, [None] when the product dictionary has no such key;
    [score_factors] is the dictionary of that name. *)
Definition arpu_reason (company : Company.t) (cost_category : option string)
  : list string :=
  match Company.revenue company with
  | Some r =>
      if Qlt_bool 0 r
      then
        let arpu_cat := fst (categorize_arpu_realistic (Some r)) in
        if String.eqb arpu_cat (default "Unknown" cost_category)
        then [("Sesuai daya beli " ++ arpu_cat)%string]
        else []
      else []
  | None => []
  end.

Definition ip_reason (company : Company.t) : list string :=
  if String.eqb (snd (Company.bandwidth_clean company)) "IP-Only"
  then ["Anda punya IP, segera bundling dengan Internet untuk SLA lebih baik"]
  else [].

Definition category_reason (company : Company.t) (product : Product.t)
  : list string :=
  if String.eqb (Product.category product) (Company.category company)
  then [("Melengkapi layanan " ++ Company.category company)%string]
  else [].

Definition compliance_reason (company : Company.t) : list string :=
  if in_list (Company.industry company) ["BANKING & FINANCIAL"; "GOVERNMENT"]
  then [("Compliance penting untuk sektor "
           ++ Company.industry company)%string]
  else [].

Definition tenure_reason (company : Company.t) : list string :=
  if Company.tenure_clean company =? 0
  then ["Prioritas renewal kontrak 2026"]
  else if 5 <? Company.tenure_clean company
  then ["Customer loyal - layanan premium tersedia"]
  else [].

Definition complementary_reason (score_factors : gmap string bool)
  : list string :=
  if default false (score_factors !! "has_complementary")
  then ["Pelanggan serupa juga membeli produk ini"]
  else [].

Definition reasons (company : Company.t) (product : Product.t)
    (cost_category : option string) (score_factors : gmap string bool)
  : list string :=
  (arpu_reason company cost_category
   ++ ip_reason company
   ++ category_reason company product
   ++ compliance_reason company
   ++ tenure_reason company
   ++ complementary_reason score_factors)%list.

(** The reasons a recommendation of the pipeline can carry. *)
Definition pipeline_reasons (company : Company.t) : list string :=
  ["Anda punya IP, segera bundling dengan Internet untuk SLA lebih baik";
   ("Melengkapi layanan " ++ Company.category company)%string;
   ("Compliance penting untuk sektor " ++ Company.industry company)%string;
   "Prioritas renewal kontrak 2026";
   "Customer loyal - layanan premium tersedia"].

Definition generate_reasoning (company : Company.t) (product : Product.t)
    (cost_category : option string) (score_factors : gmap string bool)
  : string :=
  match reasons company product cost_category score_factors with
  | [] => "Rekomendasi berdasarkan profil lengkap"
  | l => join " | " l
  end.

(** The reasoning [process_data] attaches to a recommended catalog
    product: the product dictionary built from the catalog has no key
    [cost_category], and the score factors passed are the empty
    dictionary. *)
Definition pipeline_reasoning (company : Company.t) (row : Catalog.line)
  : string :=
  generate_reasoning company (catalog_product row) None ∅.

(** [str.replace(r'[^\d]', '', regex=True)]: the decimal digits of a
    text. *)
Fixpoint keep_decimal (s : string) : string :=
  match s with
  | EmptyString => EmptyString
  | String c t =>
      if Py.isdecimal_char c then String c (keep_decimal t)
      else keep_decimal t
  end.

(** A number of a column read by [pd.to_numeric] from a text of digits
    that denotes the integer [z].  Up to 2^53 the column holds [z]
    itself, an integer column and a float column alike ([Exact]);
    beyond, it holds [z] when it is an integer column and a float near
    [z] when it is a float column, which depends on the other cells of
    the column ([Inexact]): 9007199254740993 is read as
    9007199254740992.0 next to a cell without digits. *)
Inductive numeric : Set :=
| Exact (z : Z)
| Inexact (z : Z).

(** The integer the digits denote. *)
Definition denoted (n : numeric) : Z :=
  match n with
  | Exact z => z
  | Inexact z => z
  end.

(** The cleaning of the revenue columns in [clean_and_standardize]:
    [astype(str)], the digits kept, [pd.to_numeric(errors='coerce')] and
    [fillna(0)]. *)
Definition clean_revenue (value : cell) : numeric :=
  match keep_decimal (str value) with
  | EmptyString => Exact 0
  | digits =>
      let z := Py.digits_value_from 0 digits in
      if z <=? 2 ^ 53 then Exact z else Inexact z
  end.
(* ===================================================================== *)
(** * Properties *)
(* ===================================================================== *)

(** ** String primitives *)

Module PyFacts.
Import Py.

Lemma app_nil (t : string) : (EmptyString ++ t)%string = t.
Proof. reflexivity. Qed.

Lemma app_cons c (s t : string) :
  (String c s ++ t)%string = String c (s ++ t)%string.
Proof. reflexivity. Qed.

Lemma forallb_str_app p s t :
  forallb_str p (s ++ t)%string = forallb_str p s && forallb_str p t.
Proof.
  induction s as [|c s IH]; [reflexivity|].
  rewrite app_cons. simpl. rewrite IH. apply andb_assoc.
Qed.

Lemma forallb_str_weaken (p q : ascii -> bool) s :
  (forall c, p c = true -> q c = true) ->
  forallb_str p s = true -> forallb_str q s = true.
Proof.
  intros Hpq. induction s as [|c s IH]; simpl; [reflexivity|].
  intros [Hc Hs]%andb_true_iff. rewrite (Hpq _ Hc), (IH Hs). reflexivity.
Qed.

Lemma take_drop_while p s :
  (take_while p s ++ drop_while p s)%string = s.
Proof.
  induction s as [|c s IH]; simpl; [reflexivity|].
  destruct (p c); [rewrite app_cons, IH|]; reflexivity.
Qed.

Lemma forallb_take_while p s : forallb_str p (take_while p s) = true.
Proof.
  induction s as [|c s IH]; simpl; [reflexivity|].
  destruct (p c) eqn:E; simpl; [rewrite E, IH|]; reflexivity.
Qed.

Lemma forallb_drop_while p q s :
  forallb_str q s = true -> forallb_str q (drop_while p s) = true.
Proof.
  induction s as [|c s IH]; simpl; [reflexivity|].
  intros H. destruct (p c); [|exact H].
  apply andb_true_iff in H as [_ H]. exact (IH H).
Qed.

Lemma forallb_rev_append q s acc :
  forallb_str q (rev_append s acc) = forallb_str q s && forallb_str q acc.
Proof.
  revert acc. induction s as [|c s IH]; intros acc; simpl; [reflexivity|].
  rewrite IH. simpl. destruct (q c), (forallb_str q s); reflexivity.
Qed.

Lemma forallb_rev q s : forallb_str q (rev s) = forallb_str q s.
Proof. unfold rev. rewrite forallb_rev_append. simpl. apply andb_true_r. Qed.

Lemma forallb_strip q s :
  forallb_str q s = true -> forallb_str q (strip s) = true.
Proof.
  intros H. unfold strip. rewrite forallb_rev.
  apply forallb_drop_while. rewrite forallb_rev.
  apply forallb_drop_while, H.
Qed.

(** A word found in [s] has its first letter in [s]. *)
Lemma contains_head_absent q a p s :
  forallb_str q s = true -> q a = false ->
  contains (String a p) s = false.
Proof.
  intros Hs Ha. induction s as [|c s IH]; [reflexivity|].
  simpl in Hs. apply andb_true_iff in Hs as [Hc Hs].
  cbn [contains startswith]. rewrite (IH Hs), orb_false_r.
  destruct (Ascii.eqb_spec a c) as [->|_]; [congruence|reflexivity].
Qed.

Lemma digit_value_nonneg c : isdecimal_char c = true -> 0 <= digit_value c <= 9.
Proof.
  unfold isdecimal_char, digit_value. intros H.
  apply andb_true_iff in H as [H1 H2].
  apply N.leb_le in H1, H2. lia.
Qed.

Lemma digits_value_from_nonneg s : forall acc,
  0 <= acc -> forallb_str isdecimal_char s = true ->
  0 <= digits_value_from acc s.
Proof.
  induction s as [|c s IH]; intros acc Hacc H; simpl; [exact Hacc|].
  simpl in H. apply andb_true_iff in H as [Hc Hs].
  apply IH; [|exact Hs]. pose proof (digit_value_nonneg c Hc). lia.
Qed.

Lemma int_nonneg s n : int s = Ok n -> 0 <= n.
Proof.
  unfold int. destruct s as [|c s]; [discriminate|].
  destruct (forallb_str isdecimal_char (String c s)) eqn:E; [|discriminate].
  destruct (_ <=? int_max_str_digits); [|discriminate].
  intros [= <-]. apply (digits_value_from_nonneg (String c s) 0); [lia|exact E].
Qed.

(** [int] reads a run of at most 4300 decimal digits ... *)
Lemma int_decimal s :
  s <> EmptyString -> forallb_str isdecimal_char s = true ->
  Z.of_nat (String.length s) <= int_max_str_digits ->
  int s = Ok (digits_value_from 0 s).
Proof.
  intros Hne H Hlen. unfold int. destruct s; [congruence|]. rewrite H.
  apply Z.leb_le in Hlen. rewrite Hlen. reflexivity.
Qed.

(** ... and raises on a longer one. *)
Lemma int_too_long s :
  int_max_str_digits < Z.of_nat (String.length s) ->
  int s = Raise ValueError.
Proof.
  intros Hlen. unfold int. destruct s; [reflexivity|].
  destruct (forallb_str _ _); [|reflexivity].
  apply Z.leb_gt in Hlen. rewrite Hlen. reflexivity.
Qed.

Lemma int_raises s e :
  int s = Raise e ->
  e = ValueError
  /\ (s = EmptyString \/ forallb_str isdecimal_char s = false
      \/ int_max_str_digits < Z.of_nat (String.length s)).
Proof.
  unfold int. destruct s as [|c s]; [intros [= <-]; auto|].
  destruct (forallb_str isdecimal_char (String c s));
    [|intros [= <-]; auto].
  destruct (Z.leb_spec (Z.of_nat (String.length (String c s)))
              int_max_str_digits); [discriminate|].
  intros [= <-]. auto.
Qed.

Lemma length_app (s t : string) :
  String.length (s ++ t) = (String.length s + String.length t)%nat.
Proof.
  induction s as [|c s IH]; [reflexivity|].
  rewrite app_cons. simpl. rewrite IH. reflexivity.
Qed.

Lemma length_take_while p s :
  (String.length (take_while p s) <= String.length s)%nat.
Proof.
  induction s as [|c s IH]; simpl; [lia|].
  destruct (p c); simpl; lia.
Qed.

Lemma length_drop_while p s :
  (String.length (drop_while p s) <= String.length s)%nat.
Proof.
  induction s as [|c s IH]; simpl; [lia|].
  destruct (p c); simpl; lia.
Qed.

Lemma length_rev_append s acc :
  String.length (rev_append s acc)
  = (String.length s + String.length acc)%nat.
Proof.
  revert acc. induction s as [|c s IH]; intros acc; simpl; [reflexivity|].
  rewrite IH. simpl. lia.
Qed.

Lemma length_rev s : String.length (rev s) = String.length s.
Proof. unfold rev. rewrite length_rev_append. simpl. lia. Qed.

Lemma length_strip s : (String.length (strip s) <= String.length s)%nat.
Proof.
  unfold strip. rewrite length_rev.
  etransitivity; [apply length_drop_while|]. rewrite length_rev.
  apply length_drop_while.
Qed.

Lemma eqb_empty_false s : String.eqb s EmptyString = false -> s <> EmptyString.
Proof. intros H ->. discriminate. Qed.

(** Group 1 of a match of the bandwidth pattern is a run of decimal
    digits, group 2 one of the two units. *)
Lemma match_bw_here_groups s g u :
  match_bw_here s = Some (g, u) ->
  g <> EmptyString /\ forallb_str isdecimal_char g = true
  /\ (u = "MBPS" \/ u = "GBPS").
Proof.
  unfold match_bw_here.
  destruct (String.eqb (take_while isdecimal_char s) EmptyString) eqn:E;
    [discriminate|].
  apply eqb_empty_false in E.
  destruct (startswith "MBPS" _); [intros [= <- <-]|
    destruct (startswith "GBPS" _); [intros [= <- <-]|discriminate]];
    (split; [exact E|split; [apply forallb_take_while|auto]]).
Qed.

Lemma search_bw_groups s g u :
  search_bw s = Some (g, u) ->
  g <> EmptyString /\ forallb_str isdecimal_char g = true
  /\ (u = "MBPS" \/ u = "GBPS").
Proof.
  induction s as [|c s IH]; simpl.
  - discriminate.
  - destruct (match_bw_here (String c s)) as [[g' u']|] eqn:E.
    + intros [= <- <-]. exact (match_bw_here_groups _ _ _ E).
    + exact IH.
Qed.

Lemma search_digits_group s g :
  search_digits s = Some g ->
  g <> EmptyString /\ forallb_str isdecimal_char g = true.
Proof.
  induction s as [|c s IH]; simpl; [discriminate|].
  destruct (isdecimal_char c) eqn:E; [|exact IH].
  intros [= <-]. split; [discriminate|].
  simpl. rewrite E. apply forallb_take_while.
Qed.

(** The first number of a text: a digit-free prefix, the digits, and a
    rest that does not go on with a digit. *)
Lemma search_digits_first pre ds post :
  forallb_str (fun c => negb (isdecimal_char c)) pre = true ->
  ds <> EmptyString -> forallb_str isdecimal_char ds = true ->
  take_while isdecimal_char post = EmptyString ->
  search_digits (pre ++ ds ++ post)%string = Some ds.
Proof.
  intros Hpre Hne Hds Hpost.
  induction pre as [|c pre IH]; [rewrite app_nil|rewrite app_cons; simpl].
  - destruct ds as [|d ds]; [congruence|]. rewrite app_cons. simpl in *.
    apply andb_true_iff in Hds as [Hd Hds]. rewrite Hd. f_equal. f_equal.
    clear Hne Hd. induction ds as [|e ds IH]; [exact Hpost|].
    rewrite app_cons. simpl in *. apply andb_true_iff in Hds as [He Hds].
    rewrite He, (IH Hds). reflexivity.
  - simpl in Hpre. apply andb_true_iff in Hpre as [Hc Hpre].
    apply negb_true_iff in Hc. rewrite Hc. exact (IH Hpre).
Qed.

Lemma search_digits_length s g :
  search_digits s = Some g -> (String.length g <= String.length s)%nat.
Proof.
  induction s as [|c s IH]; simpl; [discriminate|].
  destruct (isdecimal_char c) eqn:E.
  - intros [= <-]. simpl. pose proof (length_take_while isdecimal_char s). lia.
  - intros H. specialize (IH H). lia.
Qed.

Lemma search_bw_length s g u :
  search_bw s = Some (g, u) -> (String.length g <= String.length s)%nat.
Proof.
  induction s as [|c s IH]; simpl.
  - discriminate.
  - destruct (match_bw_here (String c s)) as [[g' u']|] eqn:E.
    + intros [= <- <-]. unfold match_bw_here in E.
      destruct (String.eqb _ _); [discriminate|].
      pose proof (length_take_while isdecimal_char (String c s)) as Hl.
      destruct (startswith "MBPS" _); [injection E as <- _; exact Hl|].
      destruct (startswith "GBPS" _); [injection E as <- _; exact Hl|].
      discriminate.
    + intros H. specialize (IH H). lia.
Qed.

Lemma match_quoted_number_chars s :
  match_quoted_number s = true -> forallb_str quote_or_decimal s = true.
Proof.
  destruct s as [|q t]; [discriminate|]. simpl.
  intros [[Hq _]%andb_true_iff Hd]%andb_true_iff.
  unfold quote_or_decimal at 1. rewrite Hq. simpl.
  rewrite <- (take_drop_while isdecimal_char t), forallb_str_app.
  apply String.eqb_eq in Hd. rewrite Hd. simpl. rewrite andb_true_r.
  apply forallb_str_weaken with (p := isdecimal_char);
    [|apply forallb_take_while].
  intros c Hc. unfold quote_or_decimal. rewrite Hc. apply orb_true_r.
Qed.

Lemma isdigit_chars s : isdigit s = true -> forallb_str isdigit_char s = true.
Proof. destruct s; [discriminate|exact id]. Qed.

End PyFacts.

(** ** Bandwidth normalizer *)

Section ParseBandwidth.
Import Py PyFacts.

Lemma upper_char_ascii c :
  (ord c <? 128)%N = true -> isascii (upper_char c) = true.
Proof.
  destruct c as [[] [] [] [] [] [] [] []]; vm_compute; congruence.
Qed.

Lemma upper_ascii s : isascii s = true -> isascii (upper s) = true.
Proof.
  unfold isascii. induction s as [|c s IH]; simpl; [reflexivity|].
  intros [Hc Hs]%andb_true_iff. rewrite forallb_str_app, (IH Hs).
  rewrite andb_true_r. exact (upper_char_ascii c Hc).
Qed.

Lemma ascii_digit_decimal c :
  (ord c <? 128)%N = true -> isdigit_char c = true -> isdecimal_char c = true.
Proof.
  destruct c as [[] [] [] [] [] [] [] []]; vm_compute; congruence.
Qed.

Lemma ascii_isdigit_decimal s :
  isascii s = true -> forallb_str isdigit_char s = true ->
  forallb_str isdecimal_char s = true.
Proof.
  unfold isascii. induction s as [|c s IH]; simpl; [reflexivity|].
  intros [Hc Hs]%andb_true_iff [Hd Hds]%andb_true_iff.
  rewrite (ascii_digit_decimal c Hc Hd), (IH Hs Hds). reflexivity.
Qed.

(** Whenever the parser returns, the value is a non-negative Mbps figure
    and the tag is one of the four documented ones. *)
Local Ltac range_done :=
  intros [= <- <-]; split; [lia | simpl; tauto].

Lemma parse_bandwidth_smart_range input v tag :
  parse_bandwidth_smart input = Ok (v, tag) ->
  0 <= v /\ In tag bandwidth_types.
Proof.
  unfold parse_bandwidth_smart, bandwidth_types.
  destruct input as [|s]; [range_done|].
  destruct (String.eqb s "Tidak Ada"); [range_done|].
  set (bw := strip (upper s)).
  destruct (_ && _); [range_done|].
  destruct (search_bw bw) as [[g u]|] eqn:Es.
  - destruct (int g) as [n|e] eqn:Ei; simpl; [|discriminate].
    apply int_nonneg in Ei.
    destruct (String.eqb u "GBPS"); range_done.
  - destruct (contains "E1" bw); [range_done|].
    destruct (isdigit bw); [|range_done].
    destruct (int bw) as [n|e] eqn:Ei; simpl; [|discriminate].
    apply int_nonneg in Ei. range_done.
Qed.

Lemma upper_char_length c :
  (ord c <? 128)%N = true -> String.length (upper_char c) = 1%nat.
Proof.
  destruct c as [[] [] [] [] [] [] [] []]; vm_compute; congruence.
Qed.

Lemma upper_length s :
  isascii s = true -> String.length (upper s) = String.length s.
Proof.
  unfold isascii. induction s as [|c s IH]; simpl; [reflexivity|].
  intros [Hc Hs]%andb_true_iff.
  rewrite length_app, (upper_char_length c Hc), (IH Hs). reflexivity.
Qed.

(** X1.  On every ASCII text of at most 4300 characters the parser
    returns (as it does on a missing cell, by its first test); 4300 is the
    number of digits beyond which [int] raises. *)
Lemma parse_bandwidth_smart_ascii_total s :
  isascii s = true ->
  Z.of_nat (String.length s) <= int_max_str_digits ->
  exists v tag, parse_bandwidth_smart (Str s) = Ok (v, tag).
Proof.
  intros Hs Hlen. unfold parse_bandwidth_smart.
  destruct (String.eqb s "Tidak Ada"); [eauto|].
  assert (Hbw : isascii (strip (upper s)) = true)
    by (apply forallb_strip, upper_ascii, Hs).
  assert (Hbwl : Z.of_nat (String.length (strip (upper s)))
                 <= int_max_str_digits).
  { pose proof (length_strip (upper s)) as Hl.
    rewrite (upper_length s Hs) in Hl. lia. }
  set (bw := strip (upper s)) in *.
  destruct (_ && _); [eauto|].
  destruct (search_bw bw) as [[g u]|] eqn:Es.
  - pose proof (search_bw_length _ _ _ Es) as Hl.
    apply search_bw_groups in Es as (Hne & Hd & _).
    rewrite (int_decimal g Hne Hd) by lia. simpl.
    destruct (String.eqb u "GBPS"); eauto.
  - destruct (contains "E1" bw); [eauto|].
    destruct (isdigit bw) eqn:Ed; [|eauto].
    assert (Hne : bw <> EmptyString) by (intros E; rewrite E in Ed; discriminate).
    rewrite (int_decimal bw Hne
               (ascii_isdigit_decimal bw Hbw (isdigit_chars bw Ed)) Hbwl).
    simpl. eauto.
Qed.

(** C6 (bandwidth normalizer is total).  The code guards [int(bw)] with
    [bw.isdigit()], which also accepts the superscript digits that [int]
    refuses: on the text U+00B2 the normalizer raises [ValueError]
    instead of returning a default. *)
Theorem parse_bandwidth_smart_raises_on_superscript :
  parse_bandwidth_smart (Str superscript_two) = Raise ValueError.
Proof. reflexivity. Qed.

(** C7 (missing values), as the code has it: a missing cell and the
    literal "Tidak Ada" give (0, Non-Connectivity); the empty text falls
    through every pattern and gives (0, Unknown). *)
Theorem parse_bandwidth_smart_missing_values :
  parse_bandwidth_smart NaN = Ok (0, "Non-Connectivity")
  /\ parse_bandwidth_smart (Str "Tidak Ada") = Ok (0, "Non-Connectivity")
  /\ parse_bandwidth_smart (Str "") = Ok (0, "Unknown").
Proof. repeat split. Qed.

(** C7 fails on the empty text: the result is not (0, Non-Connectivity). *)
Lemma parse_bandwidth_smart_empty_not_nonconnectivity :
  parse_bandwidth_smart (Str "") <> Ok (0, "Non-Connectivity").
Proof. discriminate. Qed.

End ParseBandwidth.

(** ** Tenure cleaner *)

Section CleanTenure.
Import Py PyFacts.

(** A text that holds a word starting with a letter is neither a bare nor
    a quoted number. *)
Lemma word_not_in_number a p t :
  isdigit_char a = false -> quote_or_decimal a = false ->
  contains (String a p) t = true ->
  isdigit t = false /\ match_quoted_number t = false.
Proof.
  intros Ha Hq Hc. split.
  - destruct (isdigit t) eqn:E; [|reflexivity].
    rewrite (contains_head_absent isdigit_char a p t (isdigit_chars t E) Ha)
      in Hc. discriminate.
  - destruct (match_quoted_number t) eqn:E; [|reflexivity].
    rewrite (contains_head_absent quote_or_decimal a p t
               (match_quoted_number_chars t E) Hq) in Hc. discriminate.
Qed.

Lemma clean_tenure_smart_berkontrak s :
  contains "Berkontrak" (strip s) = true -> clean_tenure_smart (Str s) = Ok 0.
Proof.
  intros H. unfold clean_tenure_smart.
  assert (isdigit (strip s) = false /\ match_quoted_number (strip s) = false)
    as [-> ->] by (refine (word_not_in_number _ _ _ _ _ H); reflexivity).
  rewrite H. reflexivity.
Qed.

Lemma clean_tenure_smart_invalid s :
  contains "Berkontrak" (strip s) = false ->
  contains "Tidak Valid" (strip s) || contains "Invalid" (strip s) = true ->
  clean_tenure_smart (Str s) = Ok 3.
Proof.
  intros Hb H. unfold clean_tenure_smart.
  assert (isdigit (strip s) = false /\ match_quoted_number (strip s) = false)
    as [-> ->].
  { apply orb_true_iff in H as [H|H];
      (refine (word_not_in_number _ _ _ _ _ H); reflexivity). }
  rewrite Hb, H. reflexivity.
Qed.

Lemma clean_tenure_smart_first_number s pre ds post :
  strip s = (pre ++ ds ++ post)%string ->
  forallb_str (fun c => negb (isdecimal_char c)) pre = true ->
  ds <> EmptyString -> forallb_str isdecimal_char ds = true ->
  Z.of_nat (String.length ds) <= int_max_str_digits ->
  take_while isdecimal_char post = EmptyString ->
  isdigit (strip s) = false -> match_quoted_number (strip s) = false ->
  contains "Berkontrak" (strip s) = false ->
  contains "Tidak Valid" (strip s) = false ->
  contains "Invalid" (strip s) = false ->
  clean_tenure_smart (Str s) = Ok (Z.min (digits_value_from 0 ds) 26).
Proof.
  intros Ht Hpre Hne Hds Hlen Hpost Hd Hq Hb Hv Hi. unfold clean_tenure_smart.
  rewrite Hd, Hq, Hb, Hv, Hi. simpl.
  rewrite Ht, (search_digits_first pre ds post Hpre Hne Hds Hpost).
  rewrite (int_decimal ds Hne Hds Hlen). reflexivity.
Qed.

(** A bare number of more than 4300 digits is beyond [int]. *)
Lemma clean_tenure_smart_long_number s :
  isdigit (strip s) = true ->
  int_max_str_digits < Z.of_nat (String.length (strip s)) ->
  clean_tenure_smart (Str s) = Raise ValueError.
Proof.
  intros Hd Hlen. unfold clean_tenure_smart.
  rewrite Hd, (int_too_long _ Hlen). reflexivity.
Qed.

Lemma clean_tenure_smart_capped input v :
  clean_tenure_smart input = Ok v -> 0 <= v <= 26.
Proof.
  unfold clean_tenure_smart. destruct input as [|s]; [intros [= <-]; lia|].
  set (t := strip s).
  destruct (isdigit t).
  { destruct (int t) as [n|] eqn:E; simpl; [|discriminate].
    apply int_nonneg in E. intros [= <-]. lia. }
  destruct (match_quoted_number t).
  { destruct (int (strip_quote t)) as [n|] eqn:E; simpl; [|discriminate].
    apply int_nonneg in E. intros [= <-]. lia. }
  destruct (contains "Berkontrak" t); [intros [= <-]; lia|].
  destruct (_ || _); [intros [= <-]; lia|].
  destruct (search_digits t) as [g|]; [|intros [= <-]; lia].
  destruct (int g) as [n|] eqn:E; simpl; [|discriminate].
  apply int_nonneg in E. intros [= <-]. lia.
Qed.

(** C8 (tenure cleaner), as the code has it.  A text holding the
    future-contract sentinel "Berkontrak" cleans to 0; a text holding the
    invalid-data sentinel ("Tidak Valid" or "Invalid") cleans to the
    constant 3, whatever the other tenures of the data set are; free text
    without a sentinel cleans to its first embedded number, capped, when
    that number has at most 4300 digits; a bare number of more digits
    raises [ValueError]; and every value the cleaner returns lies between
    0 and 26. *)
Theorem clean_tenure_smart_rules :
  (forall s, contains "Berkontrak" (strip s) = true ->
             clean_tenure_smart (Str s) = Ok 0)
  /\ (forall s, contains "Berkontrak" (strip s) = false ->
                contains "Tidak Valid" (strip s)
                || contains "Invalid" (strip s) = true ->
                clean_tenure_smart (Str s) = Ok 3)
  /\ (forall s pre ds post,
        strip s = (pre ++ ds ++ post)%string ->
        forallb_str (fun c => negb (isdecimal_char c)) pre = true ->
        ds <> EmptyString -> forallb_str isdecimal_char ds = true ->
        Z.of_nat (String.length ds) <= int_max_str_digits ->
        take_while isdecimal_char post = EmptyString ->
        isdigit (strip s) = false -> match_quoted_number (strip s) = false ->
        contains "Berkontrak" (strip s) = false ->
        contains "Tidak Valid" (strip s) = false ->
        contains "Invalid" (strip s) = false ->
        clean_tenure_smart (Str s) = Ok (Z.min (digits_value_from 0 ds) 26))
  /\ (forall s, isdigit (strip s) = true ->
                int_max_str_digits < Z.of_nat (String.length (strip s)) ->
                clean_tenure_smart (Str s) = Raise ValueError)
  /\ (forall input v, clean_tenure_smart input = Ok v -> 0 <= v <= 26).
Proof.
  split; [exact clean_tenure_smart_berkontrak|].
  split; [exact clean_tenure_smart_invalid|].
  split; [exact clean_tenure_smart_first_number|].
  split; [exact clean_tenure_smart_long_number|].
  exact clean_tenure_smart_capped.
Qed.

(** The rules of C8 at "Berkontrak di Tahun 2026", "Data Tidak Valid",
    "sejak 31 tahun (2 kontrak)", a run of 4301 digits and "14". *)
Lemma clean_tenure_smart_rules_witness :
  clean_tenure_smart (Str "Berkontrak di Tahun 2026") = Ok 0
  /\ clean_tenure_smart (Str "Data Tidak Valid") = Ok 3
  /\ clean_tenure_smart (Str "sejak 31 tahun (2 kontrak)") = Ok 26
  /\ clean_tenure_smart (Str (string_of_list_ascii (repeat "1"%char 4301)))
     = Raise ValueError
  /\ 0 <= 14 <= 26.
Proof.
  destruct clean_tenure_smart_rules as (H1 & H2 & H3 & H4 & H5).
  split; [apply H1; reflexivity|].
  split; [apply H2; reflexivity|].
  split; [|split; [apply H4; vm_compute; reflexivity
                  |apply (H5 (Str "14")); reflexivity]].
  apply (H3 "sejak 31 tahun (2 kontrak)" "sejak " "31" " tahun (2 kontrak)");
    first [reflexivity | discriminate | vm_compute; discriminate].
Defined.

(** C8 fails where it names the data set's median: in the column 10, 12,
    14, "Data Tidak Valid" the sentinel cleans to 3, while the median of
    the three stated tenures is 12 and that of the whole cleaned column
    is 11. *)
Lemma clean_tenure_smart_invalid_not_median :
  clean_tenure_smart (Str "Data Tidak Valid") = Ok 3
  /\ In (Str "Data Tidak Valid") tenure_column
  /\ cleaned_tenures tenure_column = [10; 12; 14; 3]%Q
  /\ (exists m, Series.median [10; 12; 14]%Q = Some m
                /\ (m == 12)%Q /\ ~ (m == 3)%Q)
  /\ (exists m, Series.median (cleaned_tenures tenure_column) = Some m
                /\ (m == 11)%Q /\ ~ (m == 3)%Q).
Proof.
  split; [reflexivity|].
  split; [simpl; tauto|].
  split; [reflexivity|].
  split; eexists; (split; [vm_compute; reflexivity|split; [reflexivity|]]);
    intros H; vm_compute in H; discriminate.
Qed.

End CleanTenure.

(** ** NBO scoring engine *)

Section NboScore.

Local Ltac split_ifs :=
  repeat match goal with
         | |- context [if ?b then _ else _] => destruct b
         end.

Local Ltac factor_bounds :=
  split_ifs; split; apply Qle_bool_imp_le; reflexivity.

Lemma tier_compatibility_bounds c p :
  (3 <= tier_compatibility c p <= 15)%Q.
Proof. unfold tier_compatibility. cbv zeta. factor_bounds. Qed.

Lemma category_match_bounds c p : (5 <= category_match c p <= 15)%Q.
Proof. unfold category_match. cbv zeta. factor_bounds. Qed.

Lemma bandwidth_suitability_bounds c p :
  (2 <= bandwidth_suitability c p <= 15)%Q.
Proof.
  unfold bandwidth_suitability.
  destruct (Company.bandwidth_clean c) as [bw ty]. cbv zeta. factor_bounds.
Qed.

Lemma industry_fit_bounds c p v :
  industry_fit c p = Ok v -> (5 <= v <= 15)%Q.
Proof.
  unfold industry_fit, name_contains. cbv zeta.
  destruct (Product.name p); simpl; split_ifs; simpl;
    first [discriminate | intros [= <-]];
    split; apply Qle_bool_imp_le; reflexivity.
Qed.

(** The industry factor returns on a product that has a name ... *)
Lemma industry_fit_returns c p name :
  Product.name p = Str name -> exists v, industry_fit c p = Ok v.
Proof.
  intros H. unfold industry_fit, name_contains. cbv zeta. rewrite H.
  simpl. split_ifs; simpl; eauto.
Qed.


Lemma arpu_affordability_bounds c p : (2 <= arpu_affordability c p <= 15)%Q.
Proof.
  unfold arpu_affordability.
  destruct (categorize_arpu_realistic (Company.revenue c)) as [cat lvl].
  cbv zeta. factor_bounds.
Qed.

Lemma tenure_strategy_bounds c p : (3 <= tenure_strategy c p <= 15)%Q.
Proof. unfold tenure_strategy. cbv zeta. factor_bounds. Qed.

(** Without the Retention tag the tenure factor stays within its 10 points. *)
Lemma tenure_strategy_untagged c p :
  in_list "Retention" (Product.tags p) = false ->
  (tenure_strategy c p <= 10)%Q.
Proof.
  intros H. unfold tenure_strategy. cbv zeta. rewrite H.
  split_ifs; apply Qle_bool_imp_le; reflexivity.
Qed.

Lemma confidence_nonneg (count total : nat) :
  (0 < total)%nat ->
  (0 <= inject_Z (Z.of_nat count) / inject_Z (Z.of_nat total))%Q.
Proof.
  intros H. apply Qle_shift_div_l.
  - unfold Qlt. simpl. lia.
  - unfold Qle. simpl. lia.
Qed.

Lemma boost_step_nonneg (count total : nat) boost :
  (0 < total)%nat -> (0 <= boost)%Q ->
  (0 <= boost
        + inject_Z (Z.of_nat count) / inject_Z (Z.of_nat total) * 20)%Q.
Proof.
  intros Ht Hb. pose proof (confidence_nonneg count total Ht) as Hc.
  set (conf := (inject_Z (Z.of_nat count) / inject_Z (Z.of_nat total))%Q) in *.
  rewrite <- (Qplus_0_r 0).
  apply Qplus_le_compat; [exact Hb|].
  rewrite <- (Qmult_0_l 20). apply Qmult_le_compat_r; [exact Hc|].
  apply Qle_bool_imp_le; reflexivity.
Qed.

(** With at least one company counted the loop returns. *)
Lemma boost_loop_returns products candidate co total :
  (0 < total)%nat ->
  forall boost, exists b, boost_loop products candidate co total boost = Ok b.
Proof.
  intros Ht. induction products as [|cur rest IH]; intros boost; simpl.
  - eauto.
  - destruct (co !! cur) as [inner|]; [|auto].
    destruct (candidate_count inner candidate) as [count|]; [|auto].
    destruct total as [|n]; [lia|]. apply IH.
Qed.

(** Whatever the loop returns is non-negative. *)
Lemma boost_loop_nonneg products candidate co total :
  forall boost b,
    boost_loop products candidate co total boost = Ok b ->
    (0 <= boost)%Q -> (0 <= b)%Q.
Proof.
  induction products as [|cur rest IH]; intros boost b; simpl.
  - intros [= <-]. exact id.
  - destruct (co !! cur) as [inner|]; [|apply IH].
    destruct (candidate_count inner candidate) as [count|]; [|apply IH].
    destruct total as [|n]; [discriminate|].
    intros H Hb. apply (IH _ _ H).
    apply boost_step_nonneg; [lia|exact Hb].
Qed.

Lemma cooccurrence_factor_returns c p co total :
  (0 < total)%nat -> exists f5, cooccurrence_factor c p co total = Ok f5.
Proof.
  intros Ht. unfold cooccurrence_factor, get_cooccurrence_boost.
  destruct (Company.current_products c) as [|x l]; [eauto|].
  destruct (boost_loop_returns (x :: l) (Product.name p) co total Ht 0%Q)
    as [b ->].
  simpl. eauto.
Qed.

Lemma cooccurrence_factor_bounds c p co total f5 :
  cooccurrence_factor c p co total = Ok f5 -> (0 <= f5 <= 10)%Q.
Proof.
  unfold cooccurrence_factor, get_cooccurrence_boost.
  destruct (Company.current_products c) as [|x l].
  - intros [= <-]. split; apply Qle_bool_imp_le; reflexivity.
  - destruct (boost_loop (x :: l) (Product.name p) co total 0) as [b|e] eqn:E;
      simpl; [|discriminate].
    intros [= <-].
    pose proof (boost_loop_nonneg _ _ _ _ _ _ E (Qle_refl 0)) as Hb.
    split; [|apply Q.le_min_r].
    apply Q.min_glb; [apply Q.min_glb|]; try exact Hb;
      apply Qle_bool_imp_le; reflexivity.
Qed.

Lemma nbo_score_returns c p co total name :
  Product.name p = Str name -> (0 < total)%nat ->
  exists s, calculate_nbo_score_v4_2 c p co total = Ok s.
Proof.
  intros Hn Ht. unfold calculate_nbo_score_v4_2.
  destruct (industry_fit_returns c p name Hn) as [f4 ->].
  destruct (cooccurrence_factor_returns c p co total Ht) as [f5 ->].
  simpl. eauto.
Qed.

Lemma nbo_score_bounds c p co total s :
  calculate_nbo_score_v4_2 c p co total = Ok s -> (25 <= s <= 100)%Q.
Proof.
  unfold calculate_nbo_score_v4_2.
  destruct (industry_fit c p) as [f4|e4] eqn:E4; simpl; [|discriminate].
  destruct (cooccurrence_factor c p co total) as [f5|e] eqn:E;
    simpl; [|discriminate].
  intros [= <-].
  pose proof (cooccurrence_factor_bounds c p co total f5 E).
  pose proof (tier_compatibility_bounds c p).
  pose proof (category_match_bounds c p).
  pose proof (bandwidth_suitability_bounds c p).
  pose proof (industry_fit_bounds c p f4 E4).
  pose proof (arpu_affordability_bounds c p).
  pose proof (tenure_strategy_bounds c p).
  unfold regional_availability.
  split; [apply Q.min_glb; lra|apply Q.le_min_r].
Qed.


(** Score range and factor weights of the scoring function on products
    that have a name.  With at least one company counted it returns, and
    every score it returns lies between 0 and 100.  The largest
    contributions of the factors are 15, 15, 15, 15, 10, 5, 15 and, for
    the tenure factor, 10 on a product without the Retention tag (the
    catalog of [process_data] sets no tags); these add up to 100. *)
Lemma nbo_score_range_and_factor_maxima :
  (forall company product co_occurrence total_companies name,
      Product.name product = Str name ->
      (0 < total_companies)%nat ->
      exists s,
        calculate_nbo_score_v4_2 company product co_occurrence
          total_companies = Ok s)
  /\ (forall company product co_occurrence total_companies s,
        calculate_nbo_score_v4_2 company product co_occurrence
          total_companies = Ok s ->
        (0 <= s <= 100)%Q)
  /\ factor_max tier_compatibility 15
  /\ factor_max category_match 15
  /\ factor_max bandwidth_suitability 15
  /\ returned_max industry_fit 15
  /\ ((forall company product co_occurrence total_companies f5,
         cooccurrence_factor company product co_occurrence
           total_companies = Ok f5 -> (f5 <= 10)%Q)
      /\ cooccurrence_factor renewal_company plain_bundle paired_once 1
         = Ok 10%Q)
  /\ regional_availability = 5%Q
  /\ factor_max arpu_affordability 15
  /\ ((forall company product,
         in_list "Retention" (Product.tags product) = false ->
         (tenure_strategy company product <= 10)%Q)
      /\ tenure_strategy renewal_company plain_bundle = 10%Q)
  /\ (15 + 15 + 15 + 15 + 10 + 5 + 15 + 10 == 100)%Q
  /\ calculate_nbo_score_v4_2 renewal_company plain_bundle paired_once 1
     = Ok 100%Q.
Proof.
  split; [intros c p co total name; exact (nbo_score_returns c p co total name)|].
  split.
  { intros c p co total s Hs.
    destruct (nbo_score_bounds c p co total s Hs) as [Hlo Hhi].
    split; [lra|exact Hhi]. }
  split; [split; [apply tier_compatibility_bounds
                 |exists renewal_company, plain_bundle; reflexivity]|].
  split; [split; [apply category_match_bounds
                 |exists renewal_company, plain_bundle; reflexivity]|].
  split; [split; [apply bandwidth_suitability_bounds
                 |exists renewal_company, plain_bundle; reflexivity]|].
  split; [split; [intros c p v Hv; apply (industry_fit_bounds c p v Hv)
                 |exists renewal_company, plain_bundle; reflexivity]|].
  split.
  { split; [|reflexivity]. intros c p co total f5 H.
    apply (cooccurrence_factor_bounds c p co total f5 H). }
  split; [reflexivity|].
  split; [split; [apply arpu_affordability_bounds
                 |exists renewal_company, plain_bundle; reflexivity]|].
  split; [split; [exact tenure_strategy_untagged|reflexivity]|].
  split; reflexivity.
Qed.

(** C1 (score range and factor weights).  The scoring function does not
    return for every company record and every catalog product: a catalog
    line whose Produk cell is blank gives a product whose name is NaN, and
    for a GOVERNMENT customer the test ['Security' in product['name']] of
    the industry factor raises [TypeError]. *)
Theorem nbo_score_raises_on_blank_name :
  Product.name (catalog_product blank_name_line) = NaN
  /\ calculate_nbo_score_v4_2 renewal_company
       (catalog_product blank_name_line) paired_once 1
     = Raise TypeError.
Proof. split; reflexivity. Qed.

(** C10 (score floor).  With at least one company counted the scoring
    function returns on every product that has a name, and every score it
    returns is at least 25: the smallest contributions of the factors are
    3, 5, 2, 5, 0 for co-occurrence, 5, 2 and 3, and [remote_suite] scores
    exactly 25 for [idle_company]. *)
Theorem nbo_score_at_least_25 :
  (forall company product co_occurrence total_companies name,
      Product.name product = Str name ->
      (0 < total_companies)%nat ->
      exists s,
        calculate_nbo_score_v4_2 company product co_occurrence
          total_companies = Ok s)
  /\ (forall company product co_occurrence total_companies s,
        calculate_nbo_score_v4_2 company product co_occurrence
          total_companies = Ok s ->
        (25 <= s)%Q)
  /\ factor_min tier_compatibility 3
  /\ factor_min category_match 5
  /\ factor_min bandwidth_suitability 2
  /\ returned_min industry_fit 5
  /\ ((forall company product co_occurrence total_companies f5,
         cooccurrence_factor company product co_occurrence
           total_companies = Ok f5 -> (0 <= f5)%Q)
      /\ cooccurrence_factor idle_company remote_suite paired_once 1
         = Ok 0%Q)
  /\ regional_availability = 5%Q
  /\ factor_min arpu_affordability 2
  /\ factor_min tenure_strategy 3
  /\ (3 + 5 + 2 + 5 + 0 + 5 + 2 + 3 == 25)%Q
  /\ calculate_nbo_score_v4_2 idle_company remote_suite paired_once 1
     = Ok 25%Q.
Proof.
  split; [intros c p co total name; exact (nbo_score_returns c p co total name)|].
  split.
  { intros c p co total s Hs.
    apply (nbo_score_bounds c p co total s Hs). }
  split; [split; [apply tier_compatibility_bounds
                 |exists idle_company, remote_suite; reflexivity]|].
  split; [split; [apply category_match_bounds
                 |exists idle_company, remote_suite; reflexivity]|].
  split; [split; [apply bandwidth_suitability_bounds
                 |exists idle_company, remote_suite; reflexivity]|].
  split; [split; [intros c p v Hv; apply (industry_fit_bounds c p v Hv)
                 |exists idle_company, remote_suite; reflexivity]|].
  split.
  { split; [|reflexivity]. intros c p co total f5 H.
    apply (cooccurrence_factor_bounds c p co total f5 H). }
  split; [reflexivity|].
  split; [split; [apply arpu_affordability_bounds
                 |exists idle_company, remote_suite; reflexivity]|].
  split; [split; [apply tenure_strategy_bounds
                 |exists idle_company, remote_suite; reflexivity]|].
  split; reflexivity.
Qed.

(** The floor of C10 at [idle_company] and [remote_suite]. *)
Lemma nbo_score_at_least_25_witness :
  exists s,
    calculate_nbo_score_v4_2 idle_company remote_suite paired_once 1 = Ok s
    /\ (25 <= s)%Q.
Proof.
  destruct nbo_score_at_least_25 as (Hret & Hfloor & _).
  destruct (Hret idle_company remote_suite paired_once 1%nat
              "Managed Platform Enterprise") as [s Hs];
    [reflexivity|lia|].
  exists s. split; [exact Hs|].
  exact (Hfloor idle_company remote_suite paired_once 1%nat s Hs).
Defined.

(** Without any company counted, a product seen together with a current
    product makes the division by the total fail. *)
Example nbo_score_zero_total :
  calculate_nbo_score_v4_2 renewal_company plain_bundle paired_once 0
  = Raise ZeroDivisionError.
Proof. reflexivity. Qed.

End NboScore.

(** ** Co-occurrence index *)

Section Cooccurrence.

Lemma cooccurrence_incr co p1 p2 a b :
  cooccurrence (incr co p1 p2) a b
  = (cooccurrence co a b + (if decide (p1 = a /\ p2 = b) then 1 else 0))%nat.
Proof.
  unfold cooccurrence, incr.
  destruct (decide (p1 = a)) as [->|Hne].
  - rewrite lookup_insert_eq.
    destruct (decide (p2 = b)) as [->|Hne2].
    + rewrite lookup_insert_eq. rewrite decide_True by done.
      destruct (co !! a) as [inner|]; simpl; [|rewrite lookup_empty; simpl; lia].
      destruct (inner !! b); simpl; lia.
    + rewrite lookup_insert_ne by done. rewrite decide_False by tauto.
      destruct (co !! a) as [inner|]; simpl; [lia|].
      rewrite lookup_empty. simpl. lia.
  - rewrite lookup_insert_ne by done. rewrite decide_False by tauto. lia.
Qed.

Lemma occurrences_cons x y l :
  occurrences x (y :: l)
  = ((if decide (y = x) then 1 else 0) + occurrences x l)%nat.
Proof.
  unfold occurrences. rewrite filter_cons.
  destruct (decide (y = x)); reflexivity.
Qed.

Lemma cooccurrence_inner_loop p1 rest : forall co a b,
  cooccurrence (foldl (fun co p2 => incr (incr co p1 p2) p2 p1) co rest) a b
  = (cooccurrence co a b
     + (if decide (p1 = a) then occurrences b rest else 0)
     + (if decide (p1 = b) then occurrences a rest else 0))%nat.
Proof.
  induction rest as [|p2 rest IH]; intros co a b; simpl.
  - destruct (decide (p1 = a)), (decide (p1 = b)); unfold occurrences; simpl; lia.
  - rewrite IH, !cooccurrence_incr, !occurrences_cons.
    repeat case_decide; first [lia | exfalso; tauto].
Qed.

Lemma cooccurrence_count_pairs products : forall co a b,
  cooccurrence (count_pairs products co) a b
  = (cooccurrence co a b + pair_hits a b products)%nat.
Proof.
  induction products as [|p1 rest IH]; intros co a b; simpl; [lia|].
  rewrite IH, cooccurrence_inner_loop. lia.
Qed.

Lemma pair_hits_sym a b products :
  pair_hits a b products = pair_hits b a products.
Proof. induction products as [|p1 rest IH]; simpl; [reflexivity|]. lia. Qed.

Lemma occurrences_absent x l : x ∉ l -> occurrences x l = O.
Proof.
  induction l as [|y l IH]; intros H; [reflexivity|].
  rewrite occurrences_cons. apply not_elem_of_cons in H as [Hxy Hl].
  rewrite decide_False by congruence. rewrite (IH Hl). reflexivity.
Qed.

Lemma occurrences_nodup x l :
  NoDup l -> occurrences x l = if decide (x ∈ l) then 1%nat else O.
Proof.
  induction 1 as [|y l Hy Hl IH]; [reflexivity|].
  rewrite occurrences_cons. destruct (decide (y = x)) as [->|Hne].
  - rewrite (occurrences_absent x l Hy).
    rewrite decide_True by (left). reflexivity.
  - rewrite IH. destruct (decide (x ∈ l)) as [Hin|Hnin].
    + rewrite decide_True by (right; exact Hin). reflexivity.
    + rewrite decide_False; [reflexivity|].
      intros [?|?]%elem_of_cons; congruence.
Qed.

Lemma pair_hits_absent a b l : a ∉ l -> pair_hits a b l = O.
Proof.
  induction l as [|y l IH]; intros H; [reflexivity|]. simpl.
  apply not_elem_of_cons in H as [Hay Hl].
  rewrite (decide_False (P := y = a)) by congruence.
  rewrite (occurrences_absent a l Hl), (IH Hl).
  destruct (decide (y = b)); reflexivity.
Qed.

Lemma pair_hits_nodup a b l :
  NoDup l -> a ≠ b ->
  pair_hits a b l = if decide (a ∈ l /\ b ∈ l) then 1%nat else O.
Proof.
  intros Hl Hab. induction Hl as [|y l Hy Hl IH].
  - cbn [pair_hits]. case_decide as H; [|reflexivity].
    destruct H as [H _]. inversion H.
  - cbn [pair_hits]. rewrite IH, !(occurrences_nodup _ l Hl).
    repeat case_decide; try lia; exfalso; subst;
      rewrite ?elem_of_cons in *; intuition congruence.
Qed.

Lemma pair_hits_nodup_same a l : NoDup l -> pair_hits a a l = O.
Proof.
  induction 1 as [|y l Hy Hl IH]; [reflexivity|]. simpl.
  destruct (decide (y = a)) as [->|Hne]; [|exact IH].
  rewrite (occurrences_absent a l Hy), IH. reflexivity.
Qed.

(** The table after all customers: the counter of (a, b) is the sum of the
    pair hits of the product lists. *)
Lemma cooccurrence_build_from company_products : forall acc a b,
  cooccurrence (fst (foldl build_step acc company_products)) a b
  = (cooccurrence (fst acc) a b
     + sum_list (map (fun row => pair_hits a b (snd row)) company_products))%nat.
Proof.
  induction company_products as [|row rows IH]; intros [co counts] a b; simpl;
    [lia|].
  rewrite IH. simpl. rewrite cooccurrence_count_pairs. lia.
Qed.

Lemma cooccurrence_build company_products a b :
  cooccurrence (fst (build_cooccurrence_matrix company_products)) a b
  = sum_list (map (fun row => pair_hits a b (snd row)) company_products).
Proof.
  unfold build_cooccurrence_matrix. rewrite cooccurrence_build_from.
  cbn [fst]. unfold cooccurrence. rewrite lookup_empty. reflexivity.
Qed.

Lemma customers_holding_both_cons a b row rows :
  customers_holding_both a b (row :: rows)
  = ((if decide (a ∈ snd row /\ b ∈ snd row) then 1 else 0)
     + customers_holding_both a b rows)%nat.
Proof.
  unfold customers_holding_both. rewrite filter_cons.
  destruct (decide (a ∈ snd row /\ b ∈ snd row)); reflexivity.
Qed.

(** X2.  The table is symmetric.  The counter of (a, b) is raised once for each
    pair of positions of a customer's product list that holds a and b, so
    when no list names a product twice it counts, for distinct a and b,
    the customers that hold both, and the counter of (a, a) stays 0. *)
Theorem cooccurrence_symmetric_pair_counts
    (company_products : list (string * list string)) :
  let co_occurrence := fst (build_cooccurrence_matrix company_products) in
  (forall a b, cooccurrence co_occurrence a b = cooccurrence co_occurrence b a)
  /\ (forall a b,
        cooccurrence co_occurrence a b
        = sum_list (map (fun row => pair_hits a b (snd row)) company_products))
  /\ (Forall (fun row => NoDup (snd row)) company_products ->
      forall a b,
        (a ≠ b ->
         cooccurrence co_occurrence a b
         = customers_holding_both a b company_products)
        /\ cooccurrence co_occurrence a a = O).
Proof.
  cbv zeta. split; [|split].
  - intros a b. rewrite !cooccurrence_build. f_equal.
    apply map_ext. intros row. apply pair_hits_sym.
  - apply cooccurrence_build.
  - intros Hnd a b. rewrite !cooccurrence_build. split.
    + intros Hab. induction Hnd as [|row rows Hrow Hrows IH]; [reflexivity|].
      rewrite customers_holding_both_cons. cbn [map sum_list sum_list_with].
      rewrite <- IH, (pair_hits_nodup a b _ Hrow Hab). reflexivity.
    + induction Hnd as [|row rows Hrow Hrows IH]; [reflexivity|].
      cbn [map sum_list sum_list_with].
      rewrite IH, (pair_hits_nodup_same a _ Hrow). reflexivity.
Qed.

(** Three customers with duplicate-free product lists: two of them hold
    both "Internet" and "IP VPN". *)
Lemma cooccurrence_distinct_product_rows :
  cooccurrence (fst (build_cooccurrence_matrix distinct_product_rows))
    "Internet" "IP VPN" = 2%nat
  /\ cooccurrence (fst (build_cooccurrence_matrix distinct_product_rows))
       "Internet" "Internet" = O.
Proof.
  destruct (cooccurrence_symmetric_pair_counts distinct_product_rows)
    as (_ & _ & H).
  assert (Hnd : Forall (fun row : string * list string => NoDup (snd row))
                  distinct_product_rows).
  { unfold distinct_product_rows.
    repeat first [apply Forall_cons; split | apply Forall_nil];
      cbn [snd]; compute_done. }
  destruct (H Hnd "Internet" "IP VPN") as [H1 H2].
  split; [|exact H2]. rewrite H1 by discriminate. reflexivity.
Defined.

(** C9 (co-occurrence index: symmetric, one increment per unordered pair
    of distinct products of a customer).  The loop pairs list positions
    and the grouped product lists keep repeated rows: for the single
    customer of [repeated_product_rows], whose list names "Internet"
    twice, the counter of ("Internet", "IP VPN") is raised twice although
    one customer holds both, and the counter of ("Internet", "Internet")
    is raised although the two products are not distinct.  The table
    stays symmetric. *)
Theorem cooccurrence_counts_repeated_products :
  let co_occurrence :=
    fst (build_cooccurrence_matrix repeated_product_rows) in
  cooccurrence co_occurrence "Internet" "IP VPN" = 2%nat
  /\ cooccurrence co_occurrence "IP VPN" "Internet" = 2%nat
  /\ customers_holding_both "Internet" "IP VPN" repeated_product_rows = 1%nat
  /\ cooccurrence co_occurrence "Internet" "Internet" = 2%nat.
Proof. cbv zeta. repeat split; vm_compute; reflexivity. Qed.

End Cooccurrence.

(** ** Exclusion rule *)

Lemma Qlt_bool_iff x y : Qlt_bool x y = true <-> (x < y)%Q.
Proof.
  unfold Qlt_bool. rewrite negb_true_iff. split.
  - intros H. apply Qnot_le_lt. intros Hle.
    apply Qle_bool_iff in Hle. congruence.
  - intros H. destruct (Qle_bool y x) eqn:E; [|reflexivity].
    apply Qle_bool_iff in E. exfalso. exact (Qlt_not_le _ _ H E).
Qed.

Section Exclusion.
Import V21.

Lemma segment_customers_excludes kategori_col df r :
  In r (segment_customers kategori_col df) ->
  mask_atm r || mask_backbone r = true -> exclude_upsell r = 1.
Proof.
  unfold segment_customers. rewrite !map_map.
  intros (r0 & <- & _)%in_map_iff.
  set (c := if kategori_col then _ else _).
  set (r1 := set_exclude 0 "" (set_cluster_bandwidth c r0)).
  destruct (mask_atm r1) eqn:Ea.
  - set (r2 := set_exclude 1 _ r1).
    destruct (mask_backbone r2); intros _; reflexivity.
  - destruct (mask_backbone r1) eqn:Eb; [intros _; reflexivity|].
    rewrite Ea, Eb. discriminate.
Qed.

Lemma create_strategic_matrices_keeps df r :
  In r (create_strategic_matrices df) ->
  exists r0, In r0 df
    /\ cluster_bandwidth r = cluster_bandwidth r0
    /\ bandwidth_mbps r = bandwidth_mbps r0
    /\ exclude_upsell r = exclude_upsell r0.
Proof.
  unfold create_strategic_matrices. intros (r0 & <- & Hin)%in_map_iff.
  exists r0. repeat split. exact Hin.
Qed.

Lemma generate_predictions_overrides um cm df r :
  In r (generate_predictions um cm df) ->
  exists r0, In r0 df
    /\ cluster_bandwidth r = cluster_bandwidth r0
    /\ bandwidth_mbps r = bandwidth_mbps r0
    /\ exclude_upsell r = exclude_upsell r0
    /\ (exclude_upsell r0 = 1 -> skor_peluang_upsell r = 0%Q).
Proof.
  unfold generate_predictions. rewrite !map_map.
  intros (r0 & <- & Hin)%in_map_iff. exists r0. cbn.
  destruct (exclude_upsell r0 =? 1) eqn:E; cbn; rewrite ?E; cbn;
    repeat split; try exact Hin; intros H; rewrite H in E; discriminate.
Qed.

Lemma lookup_map {A B : Type} (f : A -> B) (l : list A) (i : nat) :
  map f l !! i = f <$> l !! i.
Proof.
  revert i. induction l as [|x l IH]; intros [|i]; simpl; auto.
Qed.

(** What the pipeline makes of one input line: the cluster and the
    exclusion flag depend on that line alone. *)
(** One line through segmentation, matrices and predictions. *)
Lemma pipeline_lookup (kategori_col : bool) upsell_model crosssell_model df i r0 :
  df !! i = Some r0 ->
  exists table predicted_upsell predicted_crosssell,
    let c := if kategori_col then klasifikasi_produk (kategori r0)
             else klasifikasi_bandwidth (bandwidth_mbps r0) in
    let r1 := set_exclude 0 "" (set_cluster_bandwidth c r0) in
    let r2 := if mask_atm r1
              then set_exclude 1 "ATM/IoT - Tidak butuh upsell broadband" r1
              else r1 in
    let r3 := if mask_backbone r2
              then set_exclude 1 "Backbone/ISP - Sudah optimal" r2
              else r2 in
    let r4 := set_matriks_1 (klasifikasi_bw table r3) r3 in
    let r5 := set_skor predicted_upsell predicted_crosssell r4 in
    let r6 := if (exclude_upsell r5 =? 1)%Z
              then set_skor 0 (skor_peluang_crosssell r5) r5 else r5 in
    let r7 := if (exclude_upsell r6 =? 1)%Z
              then set_skor (skor_peluang_upsell r6)
                     (skor_peluang_crosssell r6 * 0.5) r6
              else r6 in
    pipeline kategori_col upsell_model crosssell_model df !! i = Some r7.
Proof.
  intros Hi. unfold pipeline, generate_predictions, create_strategic_matrices.
  set (table := per_cluster_thresholds _). clearbody table.
  unfold segment_customers. rewrite !map_map, lookup_map, Hi.
  eexists table, _, _. reflexivity.
Qed.

(** What the pipeline makes of one input line: the cluster and the
    exclusion flag depend on that line alone. *)
Lemma pipeline_line (kategori_col : bool) upsell_model crosssell_model df i r0 :
  df !! i = Some r0 ->
  exists r,
    pipeline kategori_col upsell_model crosssell_model df !! i = Some r
    /\ kategori r = kategori r0
    /\ pendapatan r = pendapatan r0
    /\ bandwidth_mbps r = bandwidth_mbps r0
    /\ cluster_bandwidth r
       = (if kategori_col then klasifikasi_produk (kategori r0)
          else klasifikasi_bandwidth (bandwidth_mbps r0))
    /\ exclude_upsell r
       = (if mask_atm r || mask_backbone r then 1 else 0)
    /\ (exclude_upsell r = 1 -> skor_peluang_upsell r = 0%Q).
Proof.
  intros Hi.
  destruct (pipeline_lookup kategori_col upsell_model crosssell_model
              df i r0 Hi) as (table & pu & pc & H).
  cbv zeta in H. eexists. split; [exact H|]. clear H.
  generalize (if kategori_col then klasifikasi_produk (kategori r0)
              else klasifikasi_bandwidth (bandwidth_mbps r0)).
  intros c.
  generalize (klasifikasi_bw table). intros kbw.
  unfold mask_atm, mask_backbone. destruct r0 as [k p b c0 e er q1 s1 su sc].
  cbn [set_exclude set_cluster_bandwidth cluster_bandwidth bandwidth_mbps
       kategori pendapatan exclude_upsell exclude_reason].
  destruct (String.eqb c "LOW_BANDWIDTH_GROUP" && Qlt_bool b 1) eqn:Ea;
    cbn [set_exclude set_cluster_bandwidth cluster_bandwidth bandwidth_mbps
         kategori pendapatan exclude_upsell exclude_reason];
    destruct (String.eqb c "HIGH_BANDWIDTH_GROUP" && Qlt_bool 5000 b) eqn:Eb;
    cbn -[Qmult]; rewrite ?Ea, ?Eb; cbn -[Qmult];
    repeat split; discriminate.
Qed.

Lemma pipeline_length kategori_col upsell_model crosssell_model df :
  length (pipeline kategori_col upsell_model crosssell_model df) = length df.
Proof.
  unfold pipeline, generate_predictions, create_strategic_matrices,
    segment_customers.
  rewrite !length_map. reflexivity.
Qed.

(** C3 (exclusion from upsell).  The pipeline keeps every customer, in
    order, with the revenue, the bandwidth and the category it came with
    and the cluster the segmentation gives it.  A customer of the lowest
    bandwidth cluster with less than 1 Mbps, and a customer of the highest
    cluster with more than 5000 Mbps, leaves the pipeline marked excluded
    and with an upsell score of 0, whatever the revenue and whatever the
    model predicted. *)
Theorem excluded_customers_have_zero_upsell
    (kategori_col : bool) (upsell_model crosssell_model : option (row -> Q))
    (df : list row) :
  length (pipeline kategori_col upsell_model crosssell_model df) = length df
  /\ forall (i : nat) (customer : row),
      df !! i = Some customer ->
      exists r,
        pipeline kategori_col upsell_model crosssell_model df !! i = Some r
        /\ kategori r = kategori customer
        /\ pendapatan r = pendapatan customer
        /\ bandwidth_mbps r = bandwidth_mbps customer
        /\ cluster_bandwidth r
           = (if kategori_col then klasifikasi_produk (kategori customer)
              else klasifikasi_bandwidth (bandwidth_mbps customer))
        /\ ((cluster_bandwidth r = "LOW_BANDWIDTH_GROUP"
             /\ (bandwidth_mbps customer < 1)%Q)
            \/ (cluster_bandwidth r = "HIGH_BANDWIDTH_GROUP"
                /\ (5000 < bandwidth_mbps customer)%Q) ->
            exclude_upsell r = 1 /\ skor_peluang_upsell r = 0%Q).
Proof.
  split; [apply pipeline_length|].
  intros i r0 Hi.
  destruct (pipeline_line kategori_col upsell_model crosssell_model df i r0 Hi)
    as (r & Hr & Hk & Hp & Hb & Hc & He & Hs).
  exists r. repeat (split; [assumption|]).
  intros Hcase.
  assert (Hx : exclude_upsell r = 1).
  { rewrite He. unfold mask_atm, mask_backbone. rewrite Hb.
    destruct Hcase as [[-> Hlt]|[-> Hgt]].
    - apply Qlt_bool_iff in Hlt. rewrite Hlt. reflexivity.
    - apply Qlt_bool_iff in Hgt. rewrite Hgt.
      rewrite orb_true_r. reflexivity. }
  split; [exact Hx|exact (Hs Hx)].
Qed.

(** C3 on a payment terminal with a large bill and on a backbone link,
    both scored 1 by the upsell model: the first and the second line of
    the result are these two customers, excluded and with score 0. *)
Lemma excluded_customers_have_zero_upsell_witness :
  (exists r,
      pipeline true eager_model eager_model [atm_row; backbone_row] !! 0%nat
      = Some r
      /\ pendapatan r = 900000000%Q
      /\ cluster_bandwidth r = "LOW_BANDWIDTH_GROUP"
      /\ exclude_upsell r = 1 /\ skor_peluang_upsell r = 0%Q)
  /\ (exists r,
        pipeline true eager_model eager_model [atm_row; backbone_row] !! 1%nat
        = Some r
        /\ pendapatan r = 100%Q
        /\ cluster_bandwidth r = "HIGH_BANDWIDTH_GROUP"
        /\ exclude_upsell r = 1 /\ skor_peluang_upsell r = 0%Q).
Proof.
  destruct (excluded_customers_have_zero_upsell true eager_model eager_model
              [atm_row; backbone_row]) as [_ H].
  split.
  - destruct (H 0%nat atm_row eq_refl) as (r & Hr & _ & Hp & _ & Hc & Hx).
    exists r. split; [exact Hr|]. split; [exact Hp|]. split; [exact Hc|].
    apply Hx. left. split; [exact Hc|reflexivity].
  - destruct (H 1%nat backbone_row eq_refl) as (r & Hr & _ & Hp & _ & Hc & Hx).
    exists r. split; [exact Hr|]. split; [exact Hp|]. split; [exact Hc|].
    apply Hx. right. split; [exact Hc|reflexivity].
Defined.

End Exclusion.

(** ** Per-cluster thresholds *)

Lemma elem_of_unique x l : x ∈ Series.unique l <-> x ∈ l.
Proof.
  induction l as [|y l IH]; simpl; [reflexivity|].
  rewrite !elem_of_cons, list_elem_of_filter, IH.
  destruct (decide (x = y)); tauto.
Qed.

(** A loop that inserts, for each key of a list, the entry of that key if
    it has one: afterwards a key of the list maps to its entry. *)
Section FoldInsert.
Context {V : Type}.
Variable entry : string -> option V.
Variable step : gmap string V -> string -> gmap string V.
Hypothesis step_lookup : forall m c k,
  step m c !! k
  = if decide (c = k) then from_option Some (m !! k) (entry k) else m !! k.

Lemma fold_insert_lookup (l : list string) : forall (m : gmap string V) k,
  foldl step m l !! k
  = if decide (k ∈ l) then from_option Some (m !! k) (entry k) else m !! k.
Proof.
  induction l as [|c l IH]; intros m k; cbn [foldl].
  - case_decide as H; [inversion H|reflexivity].
  - rewrite IH, step_lookup.
    destruct (decide (k ∈ l)) as [Hin|Hnin].
    + rewrite (decide_True (P := k ∈ c :: l)) by (right; exact Hin).
      destruct (entry k); simpl; [reflexivity|].
      destruct (decide (c = k)); reflexivity.
    + destruct (decide (c = k)) as [->|Hne].
      * rewrite (decide_True (P := k ∈ k :: l)) by left. reflexivity.
      * rewrite (decide_False (P := k ∈ c :: l)); [reflexivity|].
        intros [?|?]%elem_of_cons; congruence.
Qed.
End FoldInsert.

Lemma string_eqb_decide (a b : string) :
  String.eqb a b = bool_decide (a = b).
Proof.
  destruct (String.eqb_spec a b) as [->|Hne].
  - rewrite bool_decide_eq_true_2; reflexivity.
  - rewrite bool_decide_eq_false_2; [reflexivity|exact Hne].
Qed.

Section V21Thresholds.
Import V21.

Lemma v21_threshold_step_lookup df m c k :
  threshold_step df m c !! k
  = if decide (c = k)
    then from_option Some (m !! k) (v21_cluster_entry df k)
    else m !! k.
Proof.
  unfold threshold_step, v21_cluster_entry.
  destruct (decide (c = k)) as [->|Hne].
  - destruct (String.eqb k "TIDAK_DIKETAHUI"); [reflexivity|].
    destruct (cluster_rows k df); simpl; [reflexivity|].
    apply lookup_insert_eq.
  - destruct (String.eqb c "TIDAK_DIKETAHUI"); [reflexivity|].
    destruct (cluster_rows c df); [reflexivity|].
    apply lookup_insert_ne, Hne.
Qed.

Lemma v21_cluster_rows_absent k df :
  k ∉ map cluster_bandwidth df -> cluster_rows k df = [].
Proof.
  unfold cluster_rows. induction df as [|r df IH]; simpl; [reflexivity|].
  intros [Hne Hnin]%not_elem_of_cons. rewrite filter_cons.
  rewrite decide_False by congruence. exact (IH Hnin).
Qed.

(** The table holds, for each cluster, the bundle computed from the rows
    of that cluster. *)
Lemma v21_per_cluster_thresholds_lookup df k :
  per_cluster_thresholds df !! k = v21_cluster_entry df k.
Proof.
  unfold per_cluster_thresholds.
  rewrite (fold_insert_lookup (v21_cluster_entry df) (threshold_step df)
             (v21_threshold_step_lookup df)).
  rewrite lookup_empty.
  destruct (decide (k ∈ Series.unique (map cluster_bandwidth df)))
    as [Hin|Hnin]; [destruct (v21_cluster_entry df k); reflexivity|].
  rewrite elem_of_unique in Hnin. unfold v21_cluster_entry.
  rewrite (v21_cluster_rows_absent k df Hnin).
  destruct (String.eqb k "TIDAK_DIKETAHUI"); reflexivity.
Qed.

End V21Thresholds.

Section V30Thresholds.
Import V30.

Lemma v30_threshold_step_lookup df m c k :
  threshold_step df m c !! k
  = if decide (c = k)
    then from_option Some (m !! k) (v30_cluster_entry df k)
    else m !! k.
Proof.
  unfold threshold_step, v30_cluster_entry.
  destruct (decide (c = k)) as [->|Hne].
  - destruct (cluster_rows k df); simpl; [reflexivity|].
    apply lookup_insert_eq.
  - destruct (cluster_rows c df); [reflexivity|].
    apply lookup_insert_ne, Hne.
Qed.

Lemma v30_cluster_rows_absent k df :
  k ∉ map bandwidth_cluster df -> cluster_rows k df = [].
Proof.
  unfold cluster_rows. induction df as [|r df IH]; simpl; [reflexivity|].
  intros [Hne Hnin]%not_elem_of_cons. rewrite filter_cons.
  rewrite decide_False by congruence. exact (IH Hnin).
Qed.

Lemma v30_per_cluster_thresholds_lookup df k :
  per_cluster_thresholds df !! k = v30_cluster_entry df k.
Proof.
  unfold per_cluster_thresholds.
  rewrite (fold_insert_lookup (v30_cluster_entry df) (threshold_step df)
             (v30_threshold_step_lookup df)).
  rewrite lookup_empty.
  destruct (decide (k ∈ Series.unique (map bandwidth_cluster df)))
    as [Hin|Hnin]; [destruct (v30_cluster_entry df k); reflexivity|].
  rewrite elem_of_unique in Hnin. unfold v30_cluster_entry.
  rewrite (v30_cluster_rows_absent k df Hnin). reflexivity.
Qed.

End V30Thresholds.

Lemma median_nonempty (l : list Q) :
  l <> [] -> exists m, Series.median l = Some m.
Proof.
  destruct l as [|x l]; [congruence|]. intros _. unfold Series.median.
  destruct (Nat.even _); eauto.
Qed.

(** C4 (thresholds use the own cluster only), as the code has it.  In
    [cvo_ml_indonesia_v21] the entry of cluster A in the threshold table
    holds the median revenue, the median bandwidth, the 75th percentile
    of the bandwidth, the 25th percentile of the revenue and the mean
    revenue of the rows labelled A, in their order; in [cvo_nbo_v30] it
    holds the median revenue, the median bandwidth and the 75th and 25th
    percentiles of the revenue.  A cluster without rows has no entry, and
    neither has TIDAK_DIKETAHUI in the former.  Two frames that have the
    same rows of A, whatever rows of other clusters were added, removed,
    repeated or moved, give A the same thresholds; so does a frame with
    one more row of another cluster anywhere. *)
Theorem thresholds_depend_on_own_cluster_only :
  (forall df A,
      let members := filter (fun r => V21.cluster_bandwidth r = A) df in
      V21.per_cluster_thresholds df !! A
      = if String.eqb A "TIDAK_DIKETAHUI" then None
        else match members with
             | [] => None
             | _ =>
                 Some {| V21.median_pendapatan :=
                           Series.median (map V21.pendapatan members);
                         V21.median_bandwidth :=
                           Series.median (map V21.bandwidth_mbps members);
                         V21.q75_bandwidth :=
                           Series.quantile 0.75
                             (map V21.bandwidth_mbps members);
                         V21.q25_pendapatan :=
                           Series.quantile 0.25 (map V21.pendapatan members);
                         V21.avg_pendapatan :=
                           Series.mean (map V21.pendapatan members) |}
             end)
  /\ (forall df1 df2 A,
        filter (fun r => V21.cluster_bandwidth r = A) df1
        = filter (fun r => V21.cluster_bandwidth r = A) df2 ->
        V21.per_cluster_thresholds df1 !! A
        = V21.per_cluster_thresholds df2 !! A)
  /\ (forall df1 df2 b A,
        V21.cluster_bandwidth b <> A ->
        V21.per_cluster_thresholds (df1 ++ b :: df2) !! A
        = V21.per_cluster_thresholds (df1 ++ df2) !! A)
  /\ (forall df A,
        let members := filter (fun r => V30.bandwidth_cluster r = A) df in
        V30.per_cluster_thresholds df !! A
        = match members with
          | [] => None
          | _ =>
              Some {| V30.median_pendapatan :=
                        Series.median (map V30.pendapatan members);
                      V30.median_bandwidth :=
                        Series.median (map V30.bandwidth_mbps members);
                      V30.q75_pendapatan :=
                        Series.quantile 0.75 (map V30.pendapatan members);
                      V30.q25_pendapatan :=
                        Series.quantile 0.25 (map V30.pendapatan members) |}
          end)
  /\ (forall df1 df2 A,
        filter (fun r => V30.bandwidth_cluster r = A) df1
        = filter (fun r => V30.bandwidth_cluster r = A) df2 ->
        V30.per_cluster_thresholds df1 !! A
        = V30.per_cluster_thresholds df2 !! A)
  /\ (forall df1 df2 b A,
        V30.bandwidth_cluster b <> A ->
        V30.per_cluster_thresholds (df1 ++ b :: df2) !! A
        = V30.per_cluster_thresholds (df1 ++ df2) !! A).
Proof.
  assert (H21 : forall df1 df2 A,
             V21.cluster_rows A df1 = V21.cluster_rows A df2 ->
             V21.per_cluster_thresholds df1 !! A
             = V21.per_cluster_thresholds df2 !! A).
  { intros df1 df2 A H. rewrite !v21_per_cluster_thresholds_lookup.
    unfold v21_cluster_entry. rewrite H. reflexivity. }
  assert (H30 : forall df1 df2 A,
             V30.cluster_rows A df1 = V30.cluster_rows A df2 ->
             V30.per_cluster_thresholds df1 !! A
             = V30.per_cluster_thresholds df2 !! A).
  { intros df1 df2 A H. rewrite !v30_per_cluster_thresholds_lookup.
    unfold v30_cluster_entry. rewrite H. reflexivity. }
  split.
  { intros df A. cbv zeta. rewrite v21_per_cluster_thresholds_lookup.
    unfold v21_cluster_entry, V21.cluster_rows.
    destruct (String.eqb A "TIDAK_DIKETAHUI"); [reflexivity|].
    destruct (filter _ df); reflexivity. }
  split; [exact H21|].
  split.
  { intros df1 df2 b A Hb. apply H21. unfold V21.cluster_rows.
    rewrite !filter_app, filter_cons, decide_False by exact Hb.
    reflexivity. }
  split.
  { intros df A. cbv zeta. rewrite v30_per_cluster_thresholds_lookup.
    unfold v30_cluster_entry, V30.cluster_rows.
    destruct (filter _ df); reflexivity. }
  split; [exact H30|].
  intros df1 df2 b A Hb. apply H30. unfold V30.cluster_rows.
  rewrite !filter_app, filter_cons, decide_False by exact Hb.
  reflexivity.
Qed.

(** C4 on two frames with the same mid-bandwidth customers (revenues 30,
    20, 10 and bandwidths 150, 200, 300) and different other customers,
    and on two frames with the same CORPORATE customers (revenues 40, 60
    and bandwidths 100, 50). *)
Lemma thresholds_depend_on_own_cluster_only_witness :
  V21.per_cluster_thresholds mixed_frame !! "MID_BANDWIDTH_GROUP"
  = Some {| V21.median_pendapatan := Some 20%Q;
            V21.median_bandwidth := Some 200%Q;
            V21.q75_bandwidth := Some 250.00%Q;
            V21.q25_pendapatan := Some 15.00%Q;
            V21.avg_pendapatan := Some (60 # 3) |}
  /\ V21.per_cluster_thresholds reshuffled_frame !! "MID_BANDWIDTH_GROUP"
     = V21.per_cluster_thresholds mixed_frame !! "MID_BANDWIDTH_GROUP"
  /\ V30.per_cluster_thresholds v30_frame !! "CORPORATE"
     = Some {| V30.median_pendapatan := Some (100 # 2);
               V30.median_bandwidth := Some (150 # 2);
               V30.q75_pendapatan := Some 55.00%Q;
               V30.q25_pendapatan := Some 45.00%Q |}
  /\ V30.per_cluster_thresholds v30_frame_more !! "CORPORATE"
     = V30.per_cluster_thresholds v30_frame !! "CORPORATE".
Proof.
  destruct thresholds_depend_on_own_cluster_only
    as (E21 & H21 & _ & E30 & H30 & _).
  split; [rewrite E21; reflexivity|].
  split; [apply H21; reflexivity|].
  split; [rewrite E30; reflexivity|].
  apply H30; reflexivity.
Defined.

(** C4 names the 75th percentile of the bandwidth among the thresholds of
    both calculators; that of [cvo_nbo_v30] holds the 75th percentile of
    the revenue in its place.  For the CORPORATE customers of [v30_frame]
    the 75th percentile of the bandwidth is 87.5, and the four
    thresholds are 50, 75, 55 and 45. *)
Lemma v30_thresholds_hold_no_bandwidth_quantile :
  exists t a b c d q,
    V30.per_cluster_thresholds v30_frame !! "CORPORATE" = Some t
    /\ Series.quantile 0.75
         (map V30.bandwidth_mbps
            (filter (fun r => V30.bandwidth_cluster r = "CORPORATE")
               v30_frame)) = Some q
    /\ (q == 87.5)%Q
    /\ V30.median_pendapatan t = Some a /\ (a == 50)%Q
    /\ V30.median_bandwidth t = Some b /\ (b == 75)%Q
    /\ V30.q75_pendapatan t = Some c /\ (c == 55)%Q
    /\ V30.q25_pendapatan t = Some d /\ (d == 45)%Q
    /\ ~ (a == q)%Q /\ ~ (b == q)%Q /\ ~ (c == q)%Q /\ ~ (d == q)%Q.
Proof.
  do 6 eexists.
  split; [vm_compute; reflexivity|].
  split; [vm_compute; reflexivity|].
  repeat (split; [reflexivity|]).
  repeat split; intros H; vm_compute in H; discriminate.
Qed.

(** ** Quadrant classifiers *)

Section Quadrants.

Lemma v21_entry_inv df c thresh :
  V21.per_cluster_thresholds df !! c = Some thresh ->
  String.eqb c "TIDAK_DIKETAHUI" = false
  /\ V21.cluster_rows c df <> []
  /\ thresh = V21.threshold_bundle (V21.cluster_rows c df).
Proof.
  rewrite v21_per_cluster_thresholds_lookup. unfold v21_cluster_entry.
  destruct (String.eqb c "TIDAK_DIKETAHUI"); [discriminate|].
  destruct (V21.cluster_rows c df) as [|x l]; [discriminate|].
  intros [= <-]. repeat split. discriminate.
Qed.

Lemma map_nonempty {A B} (f : A -> B) (l : list A) : l <> [] -> map f l <> [].
Proof. destruct l; [congruence|discriminate]. Qed.

Lemma four_way_tables :
  four_way sales_quadrant /\ four_way high_quadrant
  /\ four_way strategy_quadrant.
Proof.
  repeat split;
    destruct a, b, a', b'; simpl in *; first [reflexivity | discriminate].
Qed.

Lemma klasifikasi_bw_table df r thresh :
  V21.per_cluster_thresholds df !! V21.cluster_bandwidth r = Some thresh ->
  V21.exclude_upsell r <> 1 ->
  exists median_revenue median_bandwidth,
    let own := V21.cluster_rows (V21.cluster_bandwidth r) df in
    let high_revenue := Qle_bool median_revenue (V21.pendapatan r) in
    let high_bandwidth := Qle_bool median_bandwidth (V21.bandwidth_mbps r) in
    Series.median (map V21.pendapatan own) = Some median_revenue
    /\ Series.median (map V21.bandwidth_mbps own) = Some median_bandwidth
    /\ V21.klasifikasi_bw (V21.per_cluster_thresholds df) r
       = if String.eqb (V21.cluster_bandwidth r) "LOW_BANDWIDTH_GROUP"
         then low_quadrant high_revenue
         else if String.eqb (V21.cluster_bandwidth r) "HIGH_BANDWIDTH_GROUP"
         then high_quadrant high_revenue high_bandwidth
         else sales_quadrant high_revenue high_bandwidth.
Proof.
  intros Hth Hex.
  destruct (v21_entry_inv df _ thresh Hth) as (Hc & Hne & ->).
  destruct (median_nonempty _ (map_nonempty V21.pendapatan _ Hne)) as [mr Hmr].
  destruct (median_nonempty _ (map_nonempty V21.bandwidth_mbps _ Hne))
    as [mb Hmb].
  exists mr, mb. cbv zeta. split; [exact Hmr|]. split; [exact Hmb|].
  unfold V21.klasifikasi_bw. rewrite Hc, Hth. cbn.
  rewrite Hmr, Hmb. cbn.
  assert (He : (V21.exclude_upsell r =? 1) = false)
    by (apply Z.eqb_neq; exact Hex).
  rewrite He.
  destruct (String.eqb _ "LOW_BANDWIDTH_GROUP"); [reflexivity|].
  destruct (String.eqb _ "HIGH_BANDWIDTH_GROUP");
    destruct (Qle_bool mr _), (Qle_bool mb _); reflexivity.
Qed.

Lemma assign_strategy_table company :
  assign_strategy company
  = match Company.revenue company with
    | Some revenue =>
        strategy_quadrant (Qle_bool 3500000 revenue)
          (10 <=? fst (Company.bandwidth_clean company))
    | None => ("Incubator", "AUTOMATE")
    end.
Proof.
  unfold assign_strategy. cbv zeta.
  destruct (Company.revenue company) as [r|]; [|reflexivity].
  unfold Qlt_bool. rewrite (Z.ltb_antisym 10).
  destruct (Qle_bool 3500000 r), (10 <=? _); reflexivity.
Qed.

(** C2 (quadrant classifier), as the code has it.  For a non-excluded
    customer whose cluster has an entry in the threshold table,
    [klasifikasi_bw] compares revenue and bandwidth with the medians of the
    customer's own cluster (at or above the median is high).  In the
    generic (mid-bandwidth) branch the pair selects one of four distinct
    labels: PELANGGAN_BINTANG / PERTAHANKAN (star), AREA_RISIKO /
    CROSS-SELL (risk), ZONA_SNIPER / UPSELL (sniper), INKUBATOR / EDUKASI
    (incubator); the high-bandwidth cluster has four labels of its own and
    the low-bandwidth cluster two, chosen by revenue alone.
    [assign_strategy] selects Star / RETAIN, Risk / CROSS-SELL, Sniper /
    UPSELL, Incubator / AUTOMATE, against the fixed thresholds 3,500,000
    and 10 Mbps. *)
Theorem quadrant_classifier_tables :
  (forall df r thresh,
      V21.per_cluster_thresholds df !! V21.cluster_bandwidth r = Some thresh ->
      V21.exclude_upsell r <> 1 ->
      exists median_revenue median_bandwidth,
        let own := V21.cluster_rows (V21.cluster_bandwidth r) df in
        let high_revenue := Qle_bool median_revenue (V21.pendapatan r) in
        let high_bandwidth :=
          Qle_bool median_bandwidth (V21.bandwidth_mbps r) in
        Series.median (map V21.pendapatan own) = Some median_revenue
        /\ Series.median (map V21.bandwidth_mbps own) = Some median_bandwidth
        /\ V21.klasifikasi_bw (V21.per_cluster_thresholds df) r
           = if String.eqb (V21.cluster_bandwidth r) "LOW_BANDWIDTH_GROUP"
             then low_quadrant high_revenue
             else if String.eqb (V21.cluster_bandwidth r)
                       "HIGH_BANDWIDTH_GROUP"
             then high_quadrant high_revenue high_bandwidth
             else sales_quadrant high_revenue high_bandwidth)
  /\ four_way sales_quadrant
  /\ four_way high_quadrant
  /\ (forall company,
        assign_strategy company
        = match Company.revenue company with
          | Some revenue =>
              strategy_quadrant (Qle_bool 3500000 revenue)
                (10 <=? fst (Company.bandwidth_clean company))
          | None => ("Incubator", "AUTOMATE")
          end)
  /\ four_way strategy_quadrant.
Proof.
  destruct four_way_tables as (Hs & Hh & Ha).
  split; [exact klasifikasi_bw_table|].
  split; [exact Hs|]. split; [exact Hh|].
  split; [exact assign_strategy_table|exact Ha].
Qed.

(** C2 on the mid-bandwidth customer [corp_a] of [mixed_frame]: revenue 30
    against the cluster median 20, bandwidth 150 against 200. *)
Lemma quadrant_classifier_tables_witness :
  V21.klasifikasi_bw (V21.per_cluster_thresholds mixed_frame) corp_a
  = sales_quadrant true false.
Proof.
  destruct quadrant_classifier_tables as (H & _).
  destruct (H mixed_frame corp_a
              (V21.threshold_bundle [corp_a; corp_b; corp_c]))
    as (mr & mb & Hmr & Hmb & Hk).
  - vm_compute. reflexivity.
  - discriminate.
  - rewrite Hk. cbv zeta.
    assert (Emr : mr = 20%Q) by (vm_compute in Hmr; congruence).
    assert (Emb : mb = 200%Q) by (vm_compute in Hmb; congruence).
    rewrite Emr, Emb. reflexivity.
Defined.

(** C2 fails in the low-bandwidth cluster: [umkm_a] is high on both axes
    and [umkm_b] high on revenue only, both are non-excluded members of a
    cluster with thresholds, and both get the label UMKM_POTENSIAL. *)
Lemma low_cluster_label_ignores_bandwidth :
  let thresholds := V21.per_cluster_thresholds umkm_frame in
  (exists thresh,
      thresholds !! "LOW_BANDWIDTH_GROUP" = Some thresh
      /\ ge_float (V21.pendapatan umkm_a) (V21.median_pendapatan thresh) = true
      /\ ge_float (V21.bandwidth_mbps umkm_a) (V21.median_bandwidth thresh)
         = true
      /\ ge_float (V21.pendapatan umkm_b) (V21.median_pendapatan thresh) = true
      /\ ge_float (V21.bandwidth_mbps umkm_b) (V21.median_bandwidth thresh)
         = false)
  /\ V21.klasifikasi_bw thresholds umkm_a = low_quadrant true
  /\ V21.klasifikasi_bw thresholds umkm_b = low_quadrant true.
Proof.
  cbv zeta. split; [|split; vm_compute; reflexivity].
  eexists. split; [vm_compute; reflexivity|].
  repeat split; vm_compute; reflexivity.
Qed.

End Quadrants.

(** ** Customers without thresholds *)

Section MissingThresholds.

Lemma klasifikasi_bw_uncategorized th r :
  V21.cluster_bandwidth r = "TIDAK_DIKETAHUI"
  \/ th !! V21.cluster_bandwidth r = None ->
  V21.klasifikasi_bw th r
  = ("❓ BELUM_TERKATEGORI", "PERLU_ANALISIS - Data tidak lengkap").
Proof.
  unfold V21.klasifikasi_bw. intros [->| ->]; [reflexivity|].
  destruct (String.eqb _ _); reflexivity.
Qed.

Lemma v21_no_entry df A :
  A = "TIDAK_DIKETAHUI" \/ V21.cluster_rows A df = [] ->
  V21.per_cluster_thresholds df !! A = None.
Proof.
  rewrite v21_per_cluster_thresholds_lookup. unfold v21_cluster_entry.
  intros [->| ->]; [reflexivity|].
  destruct (String.eqb _ _); reflexivity.
Qed.

Lemma classify_customer_zero_default th r :
  th !! V30.bandwidth_cluster r = None ->
  V30.classify_customer th r
  = V30.classify_customer (<[V30.bandwidth_cluster r := zero_thresholds]> th) r.
Proof.
  intros H. unfold V30.classify_customer, V30.get_or_zero.
  rewrite H, lookup_insert_eq. reflexivity.
Qed.

Lemma v30_every_customer_has_entry df r :
  In r df -> is_Some (V30.per_cluster_thresholds df !! V30.bandwidth_cluster r).
Proof.
  intros Hin. rewrite v30_per_cluster_thresholds_lookup.
  unfold v30_cluster_entry.
  destruct (V30.cluster_rows (V30.bandwidth_cluster r) df) as [|x l] eqn:E;
    [|eauto].
  exfalso. apply list_elem_of_In in Hin.
  assert (Hr : r ∈ V30.cluster_rows (V30.bandwidth_cluster r) df)
    by (apply list_elem_of_filter; split; [reflexivity|exact Hin]).
  rewrite E in Hr. inversion Hr.
Qed.

Lemma v21_customer_entry df r :
  In r df ->
  (V21.per_cluster_thresholds df !! V21.cluster_bandwidth r = None
   <-> V21.cluster_bandwidth r = "TIDAK_DIKETAHUI")
  /\ (forall t,
        V21.per_cluster_thresholds df !! V21.cluster_bandwidth r = Some t ->
        is_Some (V21.median_pendapatan t)
        /\ is_Some (V21.median_bandwidth t)).
Proof.
  intros Hin. rewrite v21_per_cluster_thresholds_lookup.
  unfold v21_cluster_entry.
  destruct (String.eqb_spec (V21.cluster_bandwidth r) "TIDAK_DIKETAHUI")
    as [E|E]; [split; [tauto|discriminate]|].
  destruct (V21.cluster_rows (V21.cluster_bandwidth r) df) as [|x l] eqn:Er.
  - exfalso. apply list_elem_of_In in Hin.
    assert (Hr : r ∈ V21.cluster_rows (V21.cluster_bandwidth r) df)
      by (apply list_elem_of_filter; split; [reflexivity|exact Hin]).
    rewrite Er in Hr. inversion Hr.
  - split; [split; [discriminate|intros H; contradiction]|].
    intros t [= <-].
    split; apply median_nonempty; discriminate.
Qed.

Lemma v30_customer_entry df r :
  In r df ->
  exists t,
    V30.per_cluster_thresholds df !! V30.bandwidth_cluster r = Some t
    /\ (forall key,
          V30.get_or_zero (V30.per_cluster_thresholds df)
            (V30.bandwidth_cluster r) key = key t)
    /\ is_Some (V30.median_pendapatan t)
    /\ is_Some (V30.median_bandwidth t).
Proof.
  intros Hin. unfold V30.get_or_zero.
  rewrite v30_per_cluster_thresholds_lookup. unfold v30_cluster_entry.
  destruct (V30.cluster_rows (V30.bandwidth_cluster r) df) as [|x l] eqn:Er.
  - exfalso. apply list_elem_of_In in Hin.
    assert (Hr : r ∈ V30.cluster_rows (V30.bandwidth_cluster r) df)
      by (apply list_elem_of_filter; split; [reflexivity|exact Hin]).
    rewrite Er in Hr. inversion Hr.
  - eexists. split; [reflexivity|]. split; [reflexivity|].
    split; apply median_nonempty; discriminate.
Qed.

Lemma classify_customer_unknown th r :
  ~ In (V30.bandwidth_cluster r)
       ["NO_BANDWIDTH"; "ATM_IOT"; "UMKM_SMALL"; "CORPORATE"; "ENTERPRISE"] ->
  V30.classify_customer th r = (" UNKNOWN", "ANALYZE").
Proof.
  intros H. unfold V30.classify_customer. cbv zeta.
  repeat match goal with
         | |- context [String.eqb ?a ?b] =>
             destruct (String.eqb_spec a b) as [E|_];
             [exfalso; apply H; rewrite E; simpl; tauto|]
         end.
  reflexivity.
Qed.

Lemma lookup_In {A : Type} (l : list A) (i : nat) (x : A) :
  l !! i = Some x -> In x l.
Proof.
  revert i. induction l as [|y l IH]; intros [|i]; simpl;
    first [discriminate | intros [= ->]; auto | eauto].
Qed.

(** C5 (customers without thresholds).  In [cvo_ml_indonesia_v21] every
    customer of the frame is classified against the table built from that
    frame; the customers without an entry in it are those of the cluster
    TIDAK_DIKETAHUI, and they get the label BELUM_TERKATEGORI /
    PERLU_ANALISIS; an entry that is there holds medians that are numbers,
    not NaN.  Whatever the table, a customer of the unknown cluster or of
    a cluster without entry gets that label and no threshold is read; the
    unknown cluster and a cluster without rows never get an entry.  In
    [cvo_nbo_v30] every customer of the frame is classified against the
    table built from that frame and has an entry there, whose medians are
    numbers: the default of 0 of [.get(cluster, {}).get(key, 0)] is never
    taken; a customer of none of the five clusters is labelled UNKNOWN /
    ANALYZE. *)
Theorem missing_thresholds_fallback :
  (forall df i r,
      df !! i = Some r ->
      let table := V21.per_cluster_thresholds df in
      V21.create_strategic_matrices df !! i
      = Some (V21.set_matriks_1 (V21.klasifikasi_bw table r) r)
      /\ (table !! V21.cluster_bandwidth r = None
          <-> V21.cluster_bandwidth r = "TIDAK_DIKETAHUI")
      /\ (table !! V21.cluster_bandwidth r = None ->
          V21.klasifikasi_bw table r
          = ("❓ BELUM_TERKATEGORI", "PERLU_ANALISIS - Data tidak lengkap"))
      /\ (forall t,
            table !! V21.cluster_bandwidth r = Some t ->
            is_Some (V21.median_pendapatan t)
            /\ is_Some (V21.median_bandwidth t)))
  /\ (forall th r,
        V21.cluster_bandwidth r = "TIDAK_DIKETAHUI"
        \/ th !! V21.cluster_bandwidth r = None ->
        V21.klasifikasi_bw th r
        = ("❓ BELUM_TERKATEGORI", "PERLU_ANALISIS - Data tidak lengkap"))
  /\ (forall df A,
        A = "TIDAK_DIKETAHUI" \/ V21.cluster_rows A df = [] ->
        V21.per_cluster_thresholds df !! A = None)
  /\ (forall df i r,
        df !! i = Some r ->
        let table := V30.per_cluster_thresholds df in
        V30.create_strategic_matrices df !! i
        = Some (r, V30.classify_customer table r)
        /\ exists t,
            table !! V30.bandwidth_cluster r = Some t
            /\ (forall key,
                  V30.get_or_zero table (V30.bandwidth_cluster r) key
                  = key t)
            /\ is_Some (V30.median_pendapatan t)
            /\ is_Some (V30.median_bandwidth t))
  /\ (forall th r,
        ~ In (V30.bandwidth_cluster r)
             ["NO_BANDWIDTH"; "ATM_IOT"; "UMKM_SMALL"; "CORPORATE";
              "ENTERPRISE"] ->
        V30.classify_customer th r = (" UNKNOWN", "ANALYZE")).
Proof.
  split.
  { intros df i r Hi table.
    destruct (v21_customer_entry df r (lookup_In df i r Hi)) as [Hnone Hsome].
    split.
    { unfold V21.create_strategic_matrices. rewrite lookup_map, Hi.
      reflexivity. }
    split; [exact Hnone|].
    split; [|exact Hsome].
    intros H. apply klasifikasi_bw_uncategorized. right. exact H. }
  split; [exact klasifikasi_bw_uncategorized|].
  split; [exact v21_no_entry|].
  split; [|exact classify_customer_unknown].
  intros df i r Hi table. split.
  { unfold V30.create_strategic_matrices. rewrite lookup_map, Hi.
    reflexivity. }
  exact (v30_customer_entry df r (lookup_In df i r Hi)).
Qed.

(** C5 on the customer of unknown bandwidth in [mixed_frame] (its fourth
    line), on a low-bandwidth customer classified against the table of
    [mixed_frame] (which has no low-bandwidth rows), and on the first
    customer of [v30_frame], whose cluster has an entry. *)
Lemma missing_thresholds_fallback_witness :
  (exists r,
      V21.create_strategic_matrices mixed_frame !! 3%nat = Some r
      /\ V21.kuadran_matriks_1 r = "❓ BELUM_TERKATEGORI"
      /\ V21.strategi_matriks_1 r = "PERLU_ANALISIS - Data tidak lengkap")
  /\ V21.klasifikasi_bw (V21.per_cluster_thresholds mixed_frame) umkm_a
     = ("❓ BELUM_TERKATEGORI", "PERLU_ANALISIS - Data tidak lengkap")
  /\ is_Some (V30.per_cluster_thresholds v30_frame !! "CORPORATE").
Proof.
  destruct missing_thresholds_fallback as (H1 & H2 & H3 & H4 & _).
  split.
  { destruct (H1 mixed_frame 3%nat unknown_a eq_refl) as (Hr & Hn & Hl & _).
    eexists. split; [exact Hr|].
    rewrite (Hl (proj2 Hn eq_refl)). split; reflexivity. }
  split; [apply H2; right; apply H3; right; reflexivity|].
  destruct (H4 v30_frame 0%nat _ eq_refl) as (_ & t & Ht & _).
  exists t. exact Ht.
Defined.

End MissingThresholds.

(** ** Scenarios *)

Example parse_20_mbps :
  parse_bandwidth_smart (Str "20 MBPS") = Ok (20, "Connectivity").
Proof. reflexivity. Qed.

Example parse_1_gbps :
  parse_bandwidth_smart (Str " 1gbps ") = Ok (1000, "Connectivity").
Proof. reflexivity. Qed.

Example parse_5_ip : parse_bandwidth_smart (Str "5 IP") = Ok (0, "IP-Only").
Proof. reflexivity. Qed.

Example parse_e1 : parse_bandwidth_smart (Str "E1") = Ok (2, "Connectivity").
Proof. reflexivity. Qed.

Example parse_bare_number :
  parse_bandwidth_smart (Str "512") = Ok (512, "Connectivity").
Proof. reflexivity. Qed.

Example parse_garbage :
  parse_bandwidth_smart (Str "n/a") = Ok (0, "Unknown").
Proof. reflexivity. Qed.

Example parse_second_number_is_the_rate :
  parse_bandwidth_smart (Str "12 34MBPS") = Ok (34, "Connectivity").
Proof. reflexivity. Qed.

Example tenure_plain : clean_tenure_smart (Str "3") = Ok 3.
Proof. reflexivity. Qed.

Example tenure_quoted : clean_tenure_smart (Str "'31'") = Ok 26.
Proof. reflexivity. Qed.

Example tenure_missing : clean_tenure_smart NaN = Ok 3.
Proof. reflexivity. Qed.

Example tenure_superscript :
  clean_tenure_smart (Str superscript_two) = Raise ValueError.
Proof. reflexivity. Qed.

(** An IP-only customer gets full bandwidth credit for a connectivity
    product, whatever bandwidth the product asks for. *)
Lemma ip_only_full_credit company product bw :
  Company.bandwidth_clean company = (bw, "IP-Only") ->
  Product.category product = "Connectivity" ->
  bandwidth_suitability company product = 15%Q.
Proof.
  intros Hc Hp. unfold bandwidth_suitability. rewrite Hc, Hp. reflexivity.
Qed.

(** At tenure 0 an untagged product gets the full tenure credit only if
    it is simple. *)
Lemma renewal_steers_to_simple company product :
  Company.tenure_clean company = 0 ->
  in_list "Retention" (Product.tags product) = false ->
  tenure_strategy company product
  = if String.eqb (Product.complexity product) "Simple" then 10%Q else 3%Q.
Proof.
  intros Ht Hr. unfold tenure_strategy. rewrite Ht, Hr. cbn.
  destruct (String.eqb _ _); reflexivity.
Qed.

(** A cluster of one customer: the customer sits on both medians and
    counts as high on both axes. *)
Example single_customer_cluster :
  V21.klasifikasi_bw (V21.per_cluster_thresholds [corp_b]) corp_b
  = sales_quadrant true true.
Proof. vm_compute. reflexivity. Qed.

(* ===================================================================== *)
(** * Further properties of the pipelines *)
(* ===================================================================== *)

(** ** Numbers in bandwidth and tenure texts *)

Section NumberTexts.
Import Py PyFacts.

Lemma app_assoc_str (s t u : string) :
  ((s ++ t) ++ u)%string = (s ++ t ++ u)%string.
Proof.
  induction s as [|c s IH]; [reflexivity|].
  rewrite !app_cons, IH. reflexivity.
Qed.

Lemma app_nil_r_str (s : string) : (s ++ EmptyString)%string = s.
Proof.
  induction s as [|c s IH]; [reflexivity|]. rewrite app_cons, IH. reflexivity.
Qed.

Lemma rev_append_app s acc :
  rev_append s acc = (rev s ++ acc)%string.
Proof.
  unfold rev. revert acc.
  induction s as [|c s IH]; intros acc; simpl; [reflexivity|].
  rewrite (IH (String c acc)), (IH (String c EmptyString)).
  rewrite app_assoc_str. reflexivity.
Qed.

Lemma rev_cons c s : rev (String c s) = (rev s ++ String c EmptyString)%string.
Proof. unfold rev at 1. simpl. apply rev_append_app. Qed.

Lemma rev_app s t : rev (s ++ t)%string = (rev t ++ rev s)%string.
Proof.
  induction s as [|c s IH].
  - rewrite app_nil. change (rev EmptyString) with EmptyString.
    rewrite app_nil_r_str. reflexivity.
  - rewrite app_cons, !rev_cons, IH, app_assoc_str. reflexivity.
Qed.

Lemma rev_involutive s : rev (rev s) = s.
Proof.
  induction s as [|c s IH]; [reflexivity|].
  rewrite rev_cons, rev_app, IH. reflexivity.
Qed.

Lemma rev_nonempty s : s <> EmptyString -> rev s <> EmptyString.
Proof.
  intros Hne Hr. apply Hne. rewrite <- (rev_involutive s), Hr. reflexivity.
Qed.

Lemma upper_app s t : upper (s ++ t)%string = (upper s ++ upper t)%string.
Proof.
  induction s as [|c s IH]; [reflexivity|].
  rewrite app_cons. simpl. rewrite IH, app_assoc_str. reflexivity.
Qed.

Lemma upper_fixed (p : ascii -> bool) s :
  (forall c, p c = true -> upper_char c = String c EmptyString) ->
  forallb_str p s = true -> upper s = s.
Proof.
  intros Hp. induction s as [|c s IH]; simpl; [reflexivity|].
  intros [Hc Hs]%andb_true_iff. rewrite (Hp c Hc), (IH Hs). reflexivity.
Qed.

Lemma upper_char_decimal_or_space c :
  decimal_or_space c = true -> upper_char c = String c EmptyString.
Proof.
  destruct c as [[] [] [] [] [] [] [] []]; vm_compute;
    first [reflexivity | discriminate].
Qed.

Lemma decimal_not_space c : isdecimal_char c = true -> isspace_char c = false.
Proof.
  destruct c as [[] [] [] [] [] [] [] []]; vm_compute;
    first [reflexivity | discriminate].
Qed.

Lemma decimal_is_digit c : isdecimal_char c = true -> isdigit_char c = true.
Proof. unfold isdigit_char. intros ->. reflexivity. Qed.

Lemma space_not_decimal c : isspace_char c = true -> isdecimal_char c = false.
Proof.
  intros H. destruct (isdecimal_char c) eqn:E; [|reflexivity].
  rewrite (decimal_not_space c E) in H. discriminate.
Qed.

Lemma take_while_app p s t :
  forallb_str p s = true ->
  take_while p (s ++ t)%string = (s ++ take_while p t)%string.
Proof.
  induction s as [|c s IH]; [reflexivity|]. rewrite !app_cons. simpl.
  intros [Hc Hs]%andb_true_iff. rewrite Hc, (IH Hs). reflexivity.
Qed.

Lemma drop_while_app p s t :
  forallb_str p s = true ->
  drop_while p (s ++ t)%string = drop_while p t.
Proof.
  induction s as [|c s IH]; [reflexivity|]. rewrite !app_cons. simpl.
  intros [Hc Hs]%andb_true_iff. rewrite Hc. exact (IH Hs).
Qed.

Lemma drop_while_head p c s :
  p c = false -> drop_while p (String c s) = String c s.
Proof. intros H. simpl. rewrite H. reflexivity. Qed.

(** A text that neither starts nor ends with a blank is its own strip. *)
Lemma strip_fixed s :
  drop_while isspace_char s = s ->
  drop_while isspace_char (rev s) = rev s ->
  strip s = s.
Proof.
  intros H1 H2. unfold strip. rewrite H1, H2. apply rev_involutive.
Qed.

Lemma decimal_run_strip ds :
  ds <> EmptyString -> forallb_str isdecimal_char ds = true ->
  drop_while isspace_char ds = ds.
Proof.
  destruct ds as [|d ds]; [congruence|]. simpl.
  intros _ [Hd _]%andb_true_iff. rewrite (decimal_not_space d Hd). reflexivity.
Qed.

Lemma search_bw_here s r : match_bw_here s = Some r -> search_bw s = Some r.
Proof. intros H. destruct s; cbn [search_bw]; rewrite H; reflexivity. Qed.

Lemma startswith_head_absent a p c s :
  Ascii.eqb a c = false -> startswith (String a p) (String c s) = false.
Proof. intros H. simpl. rewrite H. reflexivity. Qed.

(** A text of decimal digits alone holds no rate. *)
Lemma search_bw_decimal_run ds :
  forallb_str isdecimal_char ds = true -> search_bw ds = None.
Proof.
  induction ds as [|d ds IH]; [reflexivity|].
  intros H. pose proof H as H'. simpl in H'.
  apply andb_true_iff in H' as [_ Hds].
  assert (Hm : match_bw_here (String d ds) = None).
  { unfold match_bw_here.
    rewrite <- (app_nil_r_str (String d ds)), (drop_while_app _ _ _ H).
    simpl. destruct (String.eqb _ _); reflexivity. }
  cbn [search_bw]. rewrite Hm. exact (IH Hds).
Qed.

Lemma not_tidak_ada ds rest :
  ds <> EmptyString -> forallb_str isdecimal_char ds = true ->
  String.eqb (ds ++ rest) "Tidak Ada" = false.
Proof.
  destruct ds as [|d ds]; [congruence|]. intros _ H.
  simpl in H. apply andb_true_iff in H as [Hd _]. rewrite app_cons.
  apply String.eqb_neq. intros [= -> _]. discriminate Hd.
Qed.

Lemma rate_text_parse ds ws unit rate :
  ds <> EmptyString -> forallb_str isdecimal_char ds = true ->
  forallb_str isspace_char ws = true ->
  rate = "MBPS" \/ rate = "GBPS" ->
  upper unit = rate ->
  parse_bandwidth_smart (Str (ds ++ ws ++ unit))
  = (let? number := int ds in
     Ok (if String.eqb rate "GBPS" then number * 1000 else number,
         "Connectivity")).
Proof.
  intros Hne Hds Hws Hrate Hunit. unfold parse_bandwidth_smart.
  rewrite (not_tidak_ada ds _ Hne Hds).
  assert (Hup : upper (ds ++ ws ++ unit) = (ds ++ ws ++ rate)%string).
  { rewrite !upper_app, Hunit.
    rewrite (upper_fixed decimal_or_space ds upper_char_decimal_or_space),
      (upper_fixed decimal_or_space ws upper_char_decimal_or_space);
      [reflexivity| |].
    - apply (forallb_str_weaken isspace_char); [|exact Hws].
      intros c Hc. unfold decimal_or_space. rewrite Hc. apply orb_true_r.
    - apply (forallb_str_weaken isdecimal_char); [|exact Hds].
      intros c Hc. unfold decimal_or_space. rewrite Hc. reflexivity. }
  rewrite Hup.
  assert (Hstrip : strip (ds ++ ws ++ rate) = (ds ++ ws ++ rate)%string).
  { apply strip_fixed.
    - destruct ds as [|d ds']; [congruence|]. rewrite app_cons.
      simpl in Hds. apply andb_true_iff in Hds as [Hd _].
      apply drop_while_head, decimal_not_space, Hd.
    - rewrite !rev_app.
      destruct Hrate as [-> | ->]; reflexivity. }
  rewrite Hstrip.
  assert (Hchars : forallb_str
                     (fun c => decimal_or_space c
                               || Ascii.eqb c "M" || Ascii.eqb c "G"
                               || Ascii.eqb c "B" || Ascii.eqb c "P"
                               || Ascii.eqb c "S")
                     (ds ++ ws ++ rate) = true).
  { rewrite !forallb_str_app. repeat (apply andb_true_iff; split).
    - apply (forallb_str_weaken isdecimal_char); [|exact Hds].
      intros c Hc. unfold decimal_or_space. rewrite Hc. reflexivity.
    - apply (forallb_str_weaken isspace_char); [|exact Hws].
      intros c Hc. unfold decimal_or_space. rewrite Hc, orb_true_r.
      reflexivity.
    - destruct Hrate as [-> | ->]; reflexivity. }
  rewrite (contains_head_absent _ "I" "P" _ Hchars eq_refl). cbn [andb].
  assert (Hm : match_bw_here (ds ++ ws ++ rate) = Some (ds, rate)).
  { unfold match_bw_here.
    rewrite (take_while_app _ ds _ Hds), (drop_while_app _ ds _ Hds).
    assert (Hws' : forallb_str (fun c => negb (isdecimal_char c)) ws = true).
    { apply (forallb_str_weaken isspace_char); [|exact Hws].
      intros c Hc. rewrite (space_not_decimal c Hc). reflexivity. }
    assert (Ht : take_while isdecimal_char (ws ++ rate) = EmptyString).
    { clear -Hws Hrate. induction ws as [|w ws IH].
      - destruct Hrate as [-> | ->]; reflexivity.
      - simpl in Hws. apply andb_true_iff in Hws as [Hw Hws].
        rewrite app_cons. simpl. rewrite (space_not_decimal w Hw).
        reflexivity. }
    assert (Hd : drop_while isdecimal_char (ws ++ rate) = (ws ++ rate)%string).
    { rewrite <- (take_drop_while isdecimal_char (ws ++ rate)) at 2.
      rewrite Ht. reflexivity. }
    rewrite Ht, Hd, app_nil_r_str, (drop_while_app _ ws _ Hws).
    destruct ds as [|d ds']; [congruence|].
    destruct Hrate as [-> | ->]; reflexivity. }
  rewrite (search_bw_here _ _ Hm).
  destruct (int ds); destruct Hrate as [-> | ->]; reflexivity.
Qed.

Lemma bare_number_parse ds :
  ds <> EmptyString -> forallb_str isdecimal_char ds = true ->
  parse_bandwidth_smart (Str ds)
  = (let? n := int ds in Ok (n, "Connectivity")).
Proof.
  intros Hne Hds. unfold parse_bandwidth_smart.
  rewrite <- (app_nil_r_str ds) at 1.
  rewrite (not_tidak_ada ds _ Hne Hds).
  rewrite (upper_fixed decimal_or_space ds upper_char_decimal_or_space).
  2:{ apply (forallb_str_weaken isdecimal_char); [|exact Hds].
      intros c Hc. unfold decimal_or_space. rewrite Hc. reflexivity. }
  assert (Hstrip : strip ds = ds).
  { apply strip_fixed; apply decimal_run_strip;
      [exact Hne|exact Hds|apply rev_nonempty, Hne|].
    rewrite forallb_rev. exact Hds. }
  rewrite Hstrip.
  rewrite (contains_head_absent isdecimal_char "I" "P" ds Hds eq_refl).
  cbn [andb]. rewrite (search_bw_decimal_run ds Hds).
  rewrite (contains_head_absent isdecimal_char "E" "1" ds Hds eq_refl).
  assert (Hdig : isdigit ds = true).
  { destruct ds; [congruence|]. unfold isdigit.
    apply (forallb_str_weaken isdecimal_char); [|exact Hds].
    exact decimal_is_digit. }
  rewrite Hdig. reflexivity.
Qed.

(** X3.  A run of at most 4300 decimal digits, blanks (possibly none)
    and the unit MBPS or GBPS in any letter case parses to the number in
    Mbps, a thousandfold for GBPS; a run of at most 4300 decimal digits
    alone parses to that number.  On a longer run of digits the parser
    raises [ValueError] in all three cases. *)
Theorem parse_bandwidth_smart_numbers ds ws unit :
  ds <> EmptyString -> forallb_str isdecimal_char ds = true ->
  forallb_str isspace_char ws = true ->
  (Z.of_nat (String.length ds) <= int_max_str_digits ->
   (upper unit = "MBPS" ->
    parse_bandwidth_smart (Str (ds ++ ws ++ unit))
    = Ok (digits_value_from 0 ds, "Connectivity"))
   /\ (upper unit = "GBPS" ->
       parse_bandwidth_smart (Str (ds ++ ws ++ unit))
       = Ok (digits_value_from 0 ds * 1000, "Connectivity"))
   /\ parse_bandwidth_smart (Str ds)
      = Ok (digits_value_from 0 ds, "Connectivity"))
  /\ (int_max_str_digits < Z.of_nat (String.length ds) ->
      (upper unit = "MBPS" \/ upper unit = "GBPS" ->
       parse_bandwidth_smart (Str (ds ++ ws ++ unit)) = Raise ValueError)
      /\ parse_bandwidth_smart (Str ds) = Raise ValueError).
Proof.
  intros Hne Hds Hws. split.
  - intros Hlen. split; [|split].
    + intros Hu.
      rewrite (rate_text_parse ds ws unit "MBPS" Hne Hds Hws
                 (or_introl eq_refl) Hu), (int_decimal ds Hne Hds Hlen).
      reflexivity.
    + intros Hu.
      rewrite (rate_text_parse ds ws unit "GBPS" Hne Hds Hws
                 (or_intror eq_refl) Hu), (int_decimal ds Hne Hds Hlen).
      reflexivity.
    + rewrite (bare_number_parse ds Hne Hds), (int_decimal ds Hne Hds Hlen).
      reflexivity.
  - intros Hlen. split.
    + intros Hu.
      rewrite (rate_text_parse ds ws unit (upper unit) Hne Hds Hws Hu eq_refl),
        (int_too_long ds Hlen).
      reflexivity.
    + rewrite (bare_number_parse ds Hne Hds), (int_too_long ds Hlen).
      reflexivity.
Qed.

Lemma parse_bandwidth_smart_numbers_witness :
  parse_bandwidth_smart (Str "150  Mbps") = Ok (150, "Connectivity")
  /\ parse_bandwidth_smart (Str "2gbps") = Ok (2000, "Connectivity")
  /\ parse_bandwidth_smart (Str "64") = Ok (64, "Connectivity")
  /\ parse_bandwidth_smart
       (Str (string_of_list_ascii (repeat "7"%char 4301) ++ " " ++ "MBPS"))
     = Raise ValueError.
Proof.
  destruct (parse_bandwidth_smart_numbers "150" "  " "Mbps")
    as ((H1 & _ & _) & _);
    try first [reflexivity | discriminate | vm_compute; discriminate].
  destruct (parse_bandwidth_smart_numbers "2" "" "gbps")
    as ((_ & H2 & _) & _);
    try first [reflexivity | discriminate | vm_compute; discriminate].
  destruct (parse_bandwidth_smart_numbers "64" "" "")
    as ((_ & _ & H3) & _);
    try first [reflexivity | discriminate | vm_compute; discriminate].
  destruct (parse_bandwidth_smart_numbers
              (string_of_list_ascii (repeat "7"%char 4301)) " " "MBPS")
    as (_ & H4);
    try first [vm_compute; reflexivity | vm_compute; discriminate].
  split; [exact (H1 eq_refl)|]. split; [exact (H2 eq_refl)|].
  split; [exact H3|].
  destruct H4 as [H4 _]; [vm_compute; reflexivity|].
  apply H4. left. reflexivity.
Defined.

(** The ASCII witness of [parse_bandwidth_smart_ascii_total]. *)
Lemma parse_bandwidth_smart_ascii_total_witness :
  exists v tag, parse_bandwidth_smart (Str "100 Mbps / 2 IP") = Ok (v, tag).
Proof.
  apply (parse_bandwidth_smart_ascii_total "100 Mbps / 2 IP");
    [reflexivity | vm_compute; discriminate].
Defined.

End NumberTexts.

Section TenureNumbers.
Import Py PyFacts.

Lemma decimal_not_quote c :
  isdecimal_char c = true -> Ascii.eqb c "'"%char = false.
Proof.
  destruct c as [[] [] [] [] [] [] [] []]; vm_compute;
    first [reflexivity | discriminate].
Qed.

Lemma drop_quote_decimal_run ds rest :
  ds <> EmptyString -> forallb_str isdecimal_char ds = true ->
  drop_while (fun c => Ascii.eqb c "'"%char) (ds ++ rest)
  = (ds ++ rest)%string.
Proof.
  destruct ds as [|d ds]; [congruence|]. intros _ H. simpl in H.
  apply andb_true_iff in H as [Hd _]. rewrite app_cons.
  apply drop_while_head, decimal_not_quote, Hd.
Qed.

Lemma strip_quote_quoted ds :
  ds <> EmptyString -> forallb_str isdecimal_char ds = true ->
  strip_quote (String "'" (ds ++ "'")) = ds.
Proof.
  intros Hne Hds. unfold strip_quote.
  change (drop_while _ (String "'" (ds ++ "'")))
    with (drop_while (fun c => Ascii.eqb c "'"%char) (ds ++ "'")).
  rewrite (drop_quote_decimal_run ds _ Hne Hds), rev_app.
  change (rev "'") with "'". rewrite app_cons, app_nil.
  change (drop_while _ (String "'" (rev ds)))
    with (drop_while (fun c => Ascii.eqb c "'"%char) (rev ds)).
  rewrite <- (app_nil_r_str (rev ds)).
  rewrite (drop_quote_decimal_run (rev ds) EmptyString).
  - rewrite app_nil_r_str. apply rev_involutive.
  - apply rev_nonempty, Hne.
  - rewrite forallb_rev. exact Hds.
Qed.

(** The shape of a text accepted as a quoted number. *)
Lemma match_quoted_number_shape t :
  match_quoted_number t = true ->
  exists ds, ds <> EmptyString /\ forallb_str isdecimal_char ds = true
             /\ t = String "'" (ds ++ "'").
Proof.
  destruct t as [|q tl]; [discriminate|]. simpl.
  intros [[Hq Hne]%andb_true_iff Hd]%andb_true_iff.
  apply Ascii.eqb_eq in Hq. subst q.
  apply negb_true_iff, eqb_empty_false in Hne.
  apply String.eqb_eq in Hd.
  exists (take_while isdecimal_char tl).
  split; [exact Hne|]. split; [apply forallb_take_while|].
  rewrite <- Hd, take_drop_while. reflexivity.
Qed.

Lemma clean_tenure_smart_bare ds :
  ds <> EmptyString -> forallb_str isdecimal_char ds = true ->
  clean_tenure_smart (Str ds)
  = (let? years := int ds in Ok (Z.min years 26)).
Proof.
  intros Hne Hds. unfold clean_tenure_smart.
  assert (Hstrip : strip ds = ds).
  { apply strip_fixed; apply decimal_run_strip;
      [exact Hne|exact Hds|apply rev_nonempty, Hne|].
    rewrite forallb_rev. exact Hds. }
  rewrite Hstrip.
  assert (Hdig : isdigit ds = true).
  { destruct ds; [congruence|]. unfold isdigit.
    apply (forallb_str_weaken isdecimal_char); [|exact Hds].
    exact decimal_is_digit. }
  rewrite Hdig. reflexivity.
Qed.

Lemma clean_tenure_smart_quoted ds :
  ds <> EmptyString -> forallb_str isdecimal_char ds = true ->
  clean_tenure_smart (Str (String "'" (ds ++ "'")))
  = (let? years := int ds in Ok (Z.min years 26)).
Proof.
  intros Hne Hds. unfold clean_tenure_smart.
  assert (Hstrip : strip (String "'" (ds ++ "'")) = String "'" (ds ++ "'")).
  { apply strip_fixed; [reflexivity|].
    rewrite rev_cons, rev_app. reflexivity. }
  rewrite Hstrip.
  change (isdigit (String "'" (ds ++ "'"))) with false. cbn match.
  assert (Hq : match_quoted_number (String "'" (ds ++ "'")) = true).
  { unfold match_quoted_number.
    rewrite (take_while_app _ ds _ Hds), (drop_while_app _ ds _ Hds).
    cbn. rewrite app_nil_r_str.
    destruct ds; [congruence|reflexivity]. }
  rewrite Hq, (strip_quote_quoted ds Hne Hds).
  reflexivity.
Qed.

(** X4.  A bare number of at most 4300 digits and the same number
    between quotes clean to that number, capped at 26; with more digits
    both raise [ValueError]. *)
Theorem clean_tenure_smart_numbers ds :
  ds <> EmptyString -> forallb_str isdecimal_char ds = true ->
  (Z.of_nat (String.length ds) <= int_max_str_digits ->
   clean_tenure_smart (Str ds) = Ok (Z.min (digits_value_from 0 ds) 26)
   /\ clean_tenure_smart (Str (String "'" (ds ++ "'")))
      = Ok (Z.min (digits_value_from 0 ds) 26))
  /\ (int_max_str_digits < Z.of_nat (String.length ds) ->
      clean_tenure_smart (Str ds) = Raise ValueError
      /\ clean_tenure_smart (Str (String "'" (ds ++ "'")))
         = Raise ValueError).
Proof.
  intros Hne Hds.
  rewrite (clean_tenure_smart_bare ds Hne Hds),
    (clean_tenure_smart_quoted ds Hne Hds).
  split; intros Hlen.
  - rewrite (int_decimal ds Hne Hds Hlen). split; reflexivity.
  - rewrite (int_too_long ds Hlen). split; reflexivity.
Qed.

Lemma clean_tenure_smart_numbers_witness :
  clean_tenure_smart (Str "7") = Ok 7
  /\ clean_tenure_smart (Str "'2024'") = Ok 26
  /\ clean_tenure_smart
       (Str (String "'" (string_of_list_ascii (repeat "9"%char 4301) ++ "'")))
     = Raise ValueError.
Proof.
  split; [|split].
  - apply (clean_tenure_smart_numbers "7");
      [discriminate|reflexivity|vm_compute; discriminate].
  - apply (clean_tenure_smart_numbers "2024");
      [discriminate|reflexivity|vm_compute; discriminate].
  - apply (clean_tenure_smart_numbers
             (string_of_list_ascii (repeat "9"%char 4301)));
      [vm_compute; discriminate|vm_compute; reflexivity
      |vm_compute; reflexivity].
Defined.

(** X5.  The tenure cleaner raises nothing but [ValueError], and only on
    a stripped text that [isdigit] accepts and that is not all decimal
    digits, or on a text of more than 4300 characters (where a number may
    be too long for [int]); in particular it returns on every ASCII text
    of at most 4300 characters. *)
Theorem clean_tenure_smart_raises_only_on_odd_digits :
  (forall s e,
      clean_tenure_smart (Str s) = Raise e ->
      e = ValueError
      /\ ((isdigit (strip s) = true
           /\ forallb_str isdecimal_char (strip s) = false)
          \/ int_max_str_digits < Z.of_nat (String.length s)))
  /\ (forall s, isascii s = true ->
                Z.of_nat (String.length s) <= int_max_str_digits ->
                exists v, clean_tenure_smart (Str s) = Ok v).
Proof.
  assert (Hraise : forall s e,
             clean_tenure_smart (Str s) = Raise e ->
             e = ValueError
             /\ ((isdigit (strip s) = true
                  /\ forallb_str isdecimal_char (strip s) = false)
                 \/ int_max_str_digits < Z.of_nat (String.length s))).
  { intros s e. unfold clean_tenure_smart.
    pose proof (length_strip s) as Hlen. set (t := strip s) in *.
    destruct (isdigit t) eqn:Ed.
    { destruct (int t) as [n|e'] eqn:Ei; [discriminate|].
      apply int_raises in Ei as (-> & [->|[Hn|Hl]]);
        [discriminate Ed| |]; intros [= <-]; (split; [reflexivity|]);
        [left; auto|right; lia]. }
    destruct (match_quoted_number t) eqn:Eq.
    { destruct (match_quoted_number_shape t Eq) as (ds & Hne & Hds & Ht).
      rewrite Ht, (strip_quote_quoted ds Hne Hds).
      destruct (int ds) as [n|e'] eqn:Ei; [discriminate|].
      apply int_raises in Ei as (-> & [->|[Hn|Hl]]);
        [congruence|congruence|].
      intros [= <-]. split; [reflexivity|]. right.
      rewrite Ht in Hlen. cbn [String.length] in Hlen.
      rewrite length_app in Hlen. lia. }
    destruct (contains "Berkontrak" t); [discriminate|].
    destruct (_ || _); [discriminate|].
    destruct (search_digits t) as [g|] eqn:Es; [|discriminate].
    pose proof (search_digits_length t g Es) as Hgl.
    apply search_digits_group in Es as [Hne Hg].
    destruct (int g) as [n|e'] eqn:Ei; [discriminate|].
    apply int_raises in Ei as (-> & [->|[Hn|Hl]]);
      [congruence|congruence|].
    intros [= <-]. split; [reflexivity|]. right. lia. }
  split; [exact Hraise|].
  intros s Hs Hlen.
  destruct (clean_tenure_smart (Str s)) as [v|e] eqn:E; [eauto|].
  destruct (Hraise s e E) as (_ & [[Hd Hn]|Hl]); [|lia].
  rewrite (ascii_isdigit_decimal (strip s)) in Hn; [discriminate| |].
  - apply forallb_strip. exact Hs.
  - apply isdigit_chars, Hd.
Qed.

Lemma clean_tenure_smart_raises_only_on_odd_digits_witness :
  exists v, clean_tenure_smart (Str "kontrak 12 bulan") = Ok v.
Proof.
  destruct clean_tenure_smart_raises_only_on_odd_digits as (_ & H).
  apply (H "kontrak 12 bulan"); [reflexivity|vm_compute; discriminate].
Defined.

End TenureNumbers.

(** ** Catalog products and priorities *)

Section CatalogProducts.

Lemma estimate_cost_tier_range nomenklatur :
  1 <= estimate_cost_tier nomenklatur <= 3.
Proof.
  unfold estimate_cost_tier.
  repeat match goal with
         | |- context [if ?b then _ else _] => destruct b
         end; lia.
Qed.

Lemma infer_product_complexity_range product_name :
  In (infer_product_complexity product_name) ["Simple"; "Medium"; "Complex"].
Proof.
  unfold infer_product_complexity, COMPLEXITY_KEYWORDS, first_complexity.
  repeat match goal with
         | |- context [if ?b then _ else _] => destruct b
         end; simpl; tauto.
Qed.

(** A name with a Simple keyword is Simple whatever else it holds. *)
Lemma infer_product_complexity_simple_first product_name :
  any_keyword ["basic"; "starter"; "light"; "essential"; "entry"; "bronze"]
    (lower (str product_name)) = true ->
  infer_product_complexity product_name = "Simple".
Proof.
  intros H. unfold infer_product_complexity, COMPLEXITY_KEYWORDS.
  cbn [first_complexity]. rewrite H. reflexivity.
Qed.

Lemma catalog_bandwidth_suitability company row :
  bandwidth_suitability company (catalog_product row) = 15%Q.
Proof.
  unfold bandwidth_suitability.
  destruct (Company.bandwidth_clean company) as [bw ty]. cbn.
  destruct (String.eqb ty "IP-Only"); [|reflexivity].
  destruct (String.eqb _ _); reflexivity.
Qed.

Lemma catalog_industry_fit company row f4 :
  industry_fit company (catalog_product row) = Ok f4 -> (5 <= f4 <= 12)%Q.
Proof.
  unfold industry_fit, name_contains. cbn.
  destruct (Catalog.Produk row); simpl;
    repeat match goal with
           | |- context [if ?b then _ else _] => destruct b
           end; simpl;
    first [discriminate | intros [= <-]];
    split; apply Qle_bool_imp_le; reflexivity.
Qed.

Lemma catalog_tenure_strategy company row :
  (tenure_strategy company (catalog_product row) <= 10)%Q.
Proof. apply tenure_strategy_untagged. reflexivity. Qed.

(** X6.  No catalog product built by [process_data] is ever capped: its score
    is the plain sum of the eight factors, the bandwidth factor always
    gives its 15 points (no product asks for bandwidth), the industry
    factor at most 12 (no product lists target industries), and the score
    lies between 38 and 97. *)
Theorem catalog_score_is_uncapped_sum company row co_occurrence
    total_companies s :
  calculate_nbo_score_v4_2 company (catalog_product row) co_occurrence
    total_companies = Ok s ->
  exists f4 f5,
    industry_fit company (catalog_product row) = Ok f4
    /\ cooccurrence_factor company (catalog_product row) co_occurrence
         total_companies = Ok f5
    /\ bandwidth_suitability company (catalog_product row) = 15%Q
    /\ (f4 <= 12)%Q
    /\ (s == tier_compatibility company (catalog_product row)
            + category_match company (catalog_product row)
            + 15
            + f4
            + f5
            + 5
            + arpu_affordability company (catalog_product row)
            + tenure_strategy company (catalog_product row))%Q
    /\ (38 <= s <= 97)%Q.
Proof.
  unfold calculate_nbo_score_v4_2.
  destruct (industry_fit company (catalog_product row)) as [f4|e4] eqn:E4;
    simpl; [|discriminate].
  destruct (cooccurrence_factor company (catalog_product row) co_occurrence
              total_companies) as [f5|e] eqn:E; simpl; [|discriminate].
  intros [= <-]. exists f4, f5.
  pose proof (cooccurrence_factor_bounds _ _ _ _ _ E) as H5.
  pose proof (tier_compatibility_bounds company (catalog_product row)) as H1.
  pose proof (category_match_bounds company (catalog_product row)) as H2.
  pose proof (catalog_industry_fit company row f4 E4) as H4.
  pose proof (arpu_affordability_bounds company (catalog_product row)) as H7.
  pose proof (catalog_tenure_strategy company row) as H8.
  pose proof (tenure_strategy_bounds company (catalog_product row)) as H8'.
  rewrite (catalog_bandwidth_suitability company row).
  unfold regional_availability.
  set (f1 := tier_compatibility _ _) in *.
  set (f2 := category_match _ _) in *.
  set (f7 := arpu_affordability _ _) in *.
  set (f8 := tenure_strategy _ _) in *.
  assert (Hcap : (0 + f1 + f2 + 15 + f4 + f5 + 5 + f7 + f8 <= 100)%Q) by lra.
  rewrite (Q.min_l _ _ Hcap).
  split; [reflexivity|]. split; [reflexivity|]. split; [reflexivity|].
  split; [lra|]. split; [lra|]. split; lra.
Qed.

Lemma catalog_score_is_uncapped_sum_witness :
  exists f5,
    cooccurrence_factor renewal_company
      (catalog_product {| Catalog.Produk := Str "Internet Basic";
                          Catalog.Kategori_Produk := "Connectivity";
                          Catalog.Nomenklatur_Baru := "DI-TS" |})
      paired_once 1 = Ok f5.
Proof.
  destruct (catalog_score_is_uncapped_sum renewal_company
              {| Catalog.Produk := Str "Internet Basic";
                 Catalog.Kategori_Produk := "Connectivity";
                 Catalog.Nomenklatur_Baru := "DI-TS" |}
              paired_once 1%nat 90%Q)
    as (f4 & f5 & _ & H & _); [reflexivity|].
  exists f5. exact H.
Defined.

(** X7.  The cost estimate of a catalog product stops at level 3: a customer
    on the tier ALL NOMENKLATUR (level 4) gets the smallest tier credit,
    3, for every catalog product, and a customer with Enterprise revenue
    (15 million or more, level 4) the smallest affordability credit, 2. *)
Theorem top_level_customers_get_least_credit company row :
  (Company.tier company = "ALL NOMENKLATUR" ->
   tier_compatibility company (catalog_product row) = 3%Q)
  /\ (forall revenue,
        Company.revenue company = Some revenue ->
        (15000000 <= revenue)%Q ->
        arpu_affordability company (catalog_product row) = 2%Q).
Proof.
  pose proof (estimate_cost_tier_range (Catalog.Nomenklatur_Baru row)) as Hr.
  split.
  - intros Ht. unfold tier_compatibility. rewrite Ht. cbn.
    set (lvl := estimate_cost_tier _) in *.
    destruct (lvl - 4 =? 0) eqn:E0; [apply Z.eqb_eq in E0; lia|].
    destruct (lvl - 4 =? 1) eqn:E1; [apply Z.eqb_eq in E1; lia|].
    destruct (lvl - 4 =? 2) eqn:E2; [apply Z.eqb_eq in E2; lia|].
    reflexivity.
  - intros r Hrev Hbig. unfold arpu_affordability, categorize_arpu_realistic.
    rewrite Hrev.
    assert (H0 : Qeq_bool r 0 = false).
    { destruct (Qeq_bool r 0) eqn:E; [|reflexivity].
      apply Qeq_bool_iff in E. lra. }
    assert (H1 : Qlt_bool r 1000000 = false).
    { destruct (Qlt_bool r 1000000) eqn:E; [|reflexivity].
      apply Qlt_bool_iff in E. lra. }
    assert (H2 : Qlt_bool r 3500000 = false).
    { destruct (Qlt_bool r 3500000) eqn:E; [|reflexivity].
      apply Qlt_bool_iff in E. lra. }
    assert (H3 : Qlt_bool r 15000000 = false).
    { destruct (Qlt_bool r 15000000) eqn:E; [|reflexivity].
      apply Qlt_bool_iff in E. lra. }
    rewrite H0, H1, H2, H3. cbn.
    set (lvl := estimate_cost_tier _) in *.
    destruct (lvl - 4 =? 0) eqn:E0; [apply Z.eqb_eq in E0; lia|].
    destruct (lvl - 4 =? 1) eqn:E1; [apply Z.eqb_eq in E1; lia|].
    destruct (lvl - 4 =? 2) eqn:E2; [apply Z.eqb_eq in E2; lia|].
    reflexivity.
Qed.

Lemma top_level_customers_get_least_credit_witness :
  tier_compatibility idle_company
    (catalog_product {| Catalog.Produk := Str "Managed Cloud Premium";
                        Catalog.Kategori_Produk := "Technology Services";
                        Catalog.Nomenklatur_Baru := "DI-SDS-SDS" |}) = 3%Q.
Proof.
  apply (top_level_customers_get_least_credit idle_company). reflexivity.
Defined.

End CatalogProducts.

Section Priority.

Lemma Qle_bool_trans_true a x y :
  (x <= y)%Q -> Qle_bool a x = true -> Qle_bool a y = true.
Proof.
  intros Hxy H. apply Qle_bool_iff. apply Qle_bool_iff in H.
  exact (Qle_trans _ _ _ H Hxy).
Qed.

(** X8.  For one company a higher score never lowers the priority, a score of
    80 or more gives High, and so does revenue of 15 million or more
    whatever the score. *)
Theorem assign_priority_monotone company s1 s2 :
  (s1 <= s2)%Q ->
  priority_rank (fst (assign_priority company s1))
  <= priority_rank (fst (assign_priority company s2))
  /\ ((80 <= s2)%Q -> fst (assign_priority company s2) = "High")
  /\ (forall revenue,
        Company.revenue company = Some revenue ->
        (15000000 <= revenue)%Q ->
        fst (assign_priority company s1) = "High").
Proof.
  intros Hle. unfold assign_priority. cbv zeta.
  set (rev_rule := (_ || _)).
  split; [|split].
  - destruct (Qle_bool 80 s1) eqn:E1.
    { rewrite (Qle_bool_trans_true 80 s1 s2 Hle E1). reflexivity. }
    destruct (Qle_bool 80 s2); [destruct rev_rule, (Qle_bool 60 s1); cbn; lia|].
    destruct rev_rule; [reflexivity|].
    destruct (Qle_bool 60 s1) eqn:E2.
    { rewrite (Qle_bool_trans_true 60 s1 s2 Hle E2). reflexivity. }
    destruct (Qle_bool 60 s2); cbn; lia.
  - intros H. apply Qle_bool_iff in H. rewrite H. reflexivity.
  - intros r Hr Hbig. subst rev_rule. rewrite Hr.
    apply Qle_bool_iff in Hbig. rewrite Hbig. cbn.
    destruct (Qle_bool 80 s1); reflexivity.
Qed.

Lemma assign_priority_monotone_witness :
  priority_rank (fst (assign_priority idle_company 55))
  <= priority_rank (fst (assign_priority idle_company 72))
  /\ fst (assign_priority enterprise_company 38) = "High".
Proof.
  split.
  - apply (assign_priority_monotone idle_company 55 72).
    apply Qle_bool_iff. reflexivity.
  - destruct (assign_priority_monotone enterprise_company 38 38)
      as (_ & _ & H); [apply Qle_refl|].
    apply (H 20000000%Q); [reflexivity|apply Qle_bool_iff; reflexivity].
Defined.

End Priority.

(** ** The three best offers *)

Section TopThree.
Context {A : Type}.
Variable key : A -> Q.

Lemma insert_desc_perm x l : Permutation (insert_desc key x l) (x :: l).
Proof.
  induction l as [|y t IH]; simpl; [reflexivity|].
  destruct (Qle_bool (key y) (key x)); [reflexivity|].
  rewrite IH. apply perm_swap.
Qed.

Lemma sort_desc_perm l : Permutation (sort_desc key l) l.
Proof.
  induction l as [|x l IH]; simpl; [reflexivity|].
  rewrite insert_desc_perm. apply perm_skip, IH.
Qed.

Lemma insert_desc_descending x l :
  descending key l -> descending key (insert_desc key x l).
Proof.
  unfold descending. induction 1 as [|y t Ht IH Hy]; simpl.
  - repeat constructor.
  - destruct (Qle_bool (key y) (key x)) eqn:E.
    + apply Qle_bool_iff in E. constructor; [constructor; assumption|].
      constructor; [exact E|].
      apply List.Forall_forall. intros z Hz.
      rewrite List.Forall_forall in Hy.
      exact (Qle_trans _ _ _ (Hy z Hz) E).
    + constructor; [exact IH|].
      assert (Hxy : (key x <= key y)%Q).
      { apply Qlt_le_weak, Qnot_le_lt. intros Hle.
        apply Qle_bool_iff in Hle. congruence. }
      apply List.Forall_forall. intros z Hz.
      apply (Permutation_in _ (insert_desc_perm x t)) in Hz.
      destruct Hz as [<-|Hz]; [exact Hxy|].
      rewrite List.Forall_forall in Hy. exact (Hy z Hz).
Qed.

Lemma sort_desc_descending l : descending key (sort_desc key l).
Proof.
  induction l as [|x l IH]; simpl; [constructor|].
  apply insert_desc_descending, IH.
Qed.

Lemma insert_desc_with_key k x l :
  with_key key k (insert_desc key x l) = with_key key k (x :: l).
Proof.
  unfold with_key. induction l as [|y t IH]; simpl; [reflexivity|].
  destruct (Qle_bool (key y) (key x)) eqn:E; [reflexivity|].
  simpl. rewrite IH. simpl.
  destruct (Qeq_bool (key x) k) eqn:Ex; [|reflexivity].
  destruct (Qeq_bool (key y) k) eqn:Ey; [|reflexivity].
  exfalso. apply Qeq_bool_iff in Ex, Ey.
  assert (Hle : (key y <= key x)%Q) by (rewrite Ex, Ey; apply Qle_refl).
  apply Qle_bool_iff in Hle. congruence.
Qed.

Lemma sort_desc_stable k l :
  with_key key k (sort_desc key l) = with_key key k l.
Proof.
  induction l as [|x l IH]; simpl; [reflexivity|].
  rewrite insert_desc_with_key. unfold with_key in *. simpl.
  rewrite IH. reflexivity.
Qed.

Lemma descending_app_le (l1 l2 : list A) x y :
  descending key (l1 ++ l2) -> In x l1 -> In y l2 -> (key y <= key x)%Q.
Proof.
  unfold descending. induction l1 as [|a l1 IH]; simpl; [tauto|].
  intros Hs [<-|Hx] Hy.
  - inversion Hs as [|? ? _ Hall]; subst.
    rewrite List.Forall_forall in Hall. apply Hall, in_or_app. right. exact Hy.
  - inversion Hs; subst. apply IH; assumption.
Qed.

Lemma descending_app_l (l1 l2 : list A) :
  descending key (l1 ++ l2) -> descending key l1.
Proof.
  unfold descending. induction l1 as [|a l1 IH]; simpl; [constructor|].
  intros Hs. inversion Hs as [|? ? Ht Hall]; subst.
  constructor; [apply IH, Ht|].
  rewrite List.Forall_forall in *. intros z Hz. apply Hall, in_or_app. left.
  exact Hz.
Qed.

End TopThree.

Section TopThreeOffers.

Lemma score_products_inv company products co total scored :
  score_products company products co total = Ok scored ->
  map fst scored = products
  /\ Forall (fun x => calculate_nbo_score_v4_2 company (fst x) co total
                      = Ok (snd x)) scored.
Proof.
  revert scored. induction products as [|p rest IH]; intros scored; simpl.
  - intros [= <-]. split; [reflexivity|constructor].
  - destruct (calculate_nbo_score_v4_2 company p co total) as [s|e] eqn:Es;
      simpl; [|discriminate].
    destruct (score_products company rest co total) as [tl|e] eqn:Et;
      simpl; [|discriminate].
    intros [= <-]. destruct (IH tl eq_refl) as [Hm Hf].
    split; [simpl; rewrite Hm; reflexivity|].
    constructor; [exact Es|exact Hf].
Qed.

Lemma score_products_returns company products co total :
  (0 < total)%nat ->
  Forall (fun product => Product.name product <> NaN) products ->
  exists scored, score_products company products co total = Ok scored.
Proof.
  intros Ht Hnamed. induction Hnamed as [|p rest Hp _ [tl IH]]; simpl;
    [eauto|].
  destruct (Product.name p) as [|name] eqn:En; [congruence|].
  destruct (nbo_score_returns company p co total name En Ht) as [s ->].
  rewrite IH. simpl. eauto.
Qed.


Lemma with_key_firstn {A : Type} (key : A -> Q) k n (l : list A) :
  exists rest, with_key key k l = (with_key key k (firstn n l) ++ rest)%list.
Proof.
  exists (with_key key k (skipn n l)). unfold with_key.
  rewrite <- List.filter_app, firstn_skipn. reflexivity.
Qed.

(** X9.  The three offers of a company are the three best-scored catalog
    products: as many as there are products up to three, in descending
    order of score, each one a scored product, no product left out scores
    higher than a chosen one, and products of equal score are taken in
    catalog order. *)
Theorem top3_selects_best company products co_occurrence total_companies top :
  top3 company products co_occurrence total_companies = Ok top ->
  exists scored,
    score_products company products co_occurrence total_companies = Ok scored
    /\ map fst scored = products
    /\ Forall (fun x =>
                 calculate_nbo_score_v4_2 company (fst x) co_occurrence
                   total_companies = Ok (snd x)) scored
    /\ length top = Nat.min 3 (length products)
    /\ descending snd top
    /\ (forall x, In x top -> In x scored)
    /\ (forall x, In x scored ->
                  In x top \/ forall y, In y top -> (snd x <= snd y)%Q)
    /\ (forall k, exists rest,
           with_key snd k scored = (with_key snd k top ++ rest)%list).
Proof.
  unfold top3.
  destruct (score_products company products co_occurrence total_companies)
    as [scored|e] eqn:Es; simpl; [|discriminate].
  intros [= <-]. exists scored.
  destruct (score_products_inv _ _ _ _ _ Es) as [Hm Hf].
  pose proof (sort_desc_perm snd scored) as Hperm.
  pose proof (sort_desc_descending snd scored) as Hdesc.
  rewrite <- (firstn_skipn 3 (sort_desc snd scored)) in Hdesc.
  split; [reflexivity|]. split; [exact Hm|]. split; [exact Hf|].
  split.
  { rewrite length_firstn, (Permutation_length Hperm), <- Hm, length_map.
    reflexivity. }
  split; [exact (descending_app_l snd _ _ Hdesc)|].
  split.
  { intros x Hx. apply (Permutation_in _ Hperm).
    rewrite <- (firstn_skipn 3). apply in_or_app. left. exact Hx. }
  split.
  { intros x Hx. apply (Permutation_in _ (Permutation_sym Hperm)) in Hx.
    rewrite <- (firstn_skipn 3 (sort_desc snd scored)) in Hx.
    apply in_app_or in Hx as [Hx|Hx]; [left; exact Hx|right].
    intros y Hy. exact (descending_app_le snd _ _ y x Hdesc Hy Hx). }
  intros k. destruct (with_key_firstn snd k 3 (sort_desc snd scored))
    as [rest Hrest].
  exists rest. rewrite <- Hrest. symmetry. apply sort_desc_stable.
Qed.

Lemma top3_selects_best_witness :
  exists top,
    top3 idle_company (map catalog_product sample_catalog) paired_once 1
    = Ok top
    /\ length top = 3%nat /\ descending snd top.
Proof.
  destruct (score_products_returns idle_company
              (map catalog_product sample_catalog) paired_once 1%nat)
    as [scored Hs];
    [lia|repeat (constructor; [discriminate|]); constructor|].
  exists (firstn 3 (sort_desc snd scored)).
  assert (Ht : top3 idle_company (map catalog_product sample_catalog)
                 paired_once 1 = Ok (firstn 3 (sort_desc snd scored)))
    by (unfold top3; rewrite Hs; reflexivity).
  destruct (top3_selects_best _ _ _ _ _ Ht)
    as (scored' & _ & _ & _ & Hlen & Hdesc & _).
  split; [exact Ht|]. split; [exact Hlen|exact Hdesc].
Defined.



End TopThreeOffers.

(** ** Co-occurrence boost and product counts *)

Section BoostAndCounts.

(** No table entry for the pair: what [get_cooccurrence_boost] tests with
    [in]. *)
Lemma boost_loop_no_entry products candidate co total boost :
  Forall (fun current =>
            match co !! current with
            | Some inner => candidate_count inner candidate = None
            | None => True
            end) products ->
  boost_loop products candidate co total boost = Ok boost.
Proof.
  induction 1 as [|cur rest Hcur _ IH]; simpl; [reflexivity|].
  destruct (co !! cur) as [inner|]; [|exact IH].
  rewrite Hcur. exact IH.
Qed.

(** X11.  The boost lies between 0 and 20 whenever it is returned, and it is
    returned when a company is counted.  A company whose products never
    appeared together with the candidate gets a co-occurrence factor of 0,
    even with no company counted, while a company without any product
    gets 5. *)
Theorem cooccurrence_factor_without_evidence company product co_occurrence
    total_companies :
  (forall boost,
      get_cooccurrence_boost (Company.current_products company)
        (Product.name product) co_occurrence total_companies = Ok boost ->
      (0 <= boost <= 20)%Q)
  /\ ((0 < total_companies)%nat ->
      exists boost,
        get_cooccurrence_boost (Company.current_products company)
          (Product.name product) co_occurrence total_companies = Ok boost)
  /\ (Company.current_products company = [] ->
      cooccurrence_factor company product co_occurrence total_companies
      = Ok 5%Q)
  /\ (Company.current_products company <> [] ->
      Forall (fun current =>
                match co_occurrence !! current with
                | Some inner =>
                    candidate_count inner (Product.name product) = None
                | None => True
                end) (Company.current_products company) ->
      cooccurrence_factor company product co_occurrence total_companies
      = Ok 0%Q).
Proof.
  split; [|split; [|split]].
  - unfold get_cooccurrence_boost. intros boost.
    destruct (boost_loop _ _ _ _ _) as [b|e] eqn:E; simpl; [|discriminate].
    intros [= <-].
    pose proof (boost_loop_nonneg _ _ _ _ _ _ E (Qle_refl 0)) as Hb.
    split; [|apply Q.le_min_r].
    apply Q.min_glb; [exact Hb|apply Qle_bool_imp_le; reflexivity].
  - intros Ht. unfold get_cooccurrence_boost.
    destruct (boost_loop_returns (Company.current_products company)
                (Product.name product) co_occurrence total_companies Ht 0%Q)
      as [b ->].
    simpl. eauto.
  - intros H. unfold cooccurrence_factor. rewrite H. reflexivity.
  - intros Hne Hall. unfold cooccurrence_factor, get_cooccurrence_boost.
    destruct (Company.current_products company) as [|x l]; [congruence|].
    rewrite (boost_loop_no_entry (x :: l) _ _ _ 0%Q Hall). reflexivity.
Qed.

Lemma cooccurrence_factor_without_evidence_witness :
  cooccurrence_factor idle_company remote_suite paired_once 0 = Ok 0%Q
  /\ cooccurrence_factor enterprise_company remote_suite paired_once 0
     = Ok 5%Q.
Proof.
  split.
  - apply (cooccurrence_factor_without_evidence idle_company remote_suite
             paired_once 0%nat); [discriminate|].
    repeat constructor.
  - apply (cooccurrence_factor_without_evidence enterprise_company
             remote_suite paired_once 0%nat). reflexivity.
Defined.

Lemma counter_update_lookup products : forall counts p,
  default O (counter_update counts products !! p)
  = (default O (counts !! p) + occurrences p products)%nat.
Proof.
  unfold counter_update.
  induction products as [|x rest IH]; intros counts p; simpl.
  - unfold occurrences. simpl. lia.
  - rewrite IH, occurrences_cons.
    destruct (decide (x = p)) as [->|Hne].
    + rewrite lookup_insert_eq. simpl. lia.
    + rewrite lookup_insert_ne by exact Hne. lia.
Qed.

Lemma counter_update_positive products : forall counts p,
  (forall q n, counts !! q = Some n -> (0 < n)%nat) ->
  forall n, counter_update counts products !! p = Some n -> (0 < n)%nat.
Proof.
  unfold counter_update.
  induction products as [|x rest IH]; intros counts p Hpos n; simpl.
  - apply Hpos.
  - apply IH. intros q m.
    destruct (decide (x = q)) as [->|Hne].
    + rewrite lookup_insert_eq. intros [= <-]. lia.
    + rewrite lookup_insert_ne by exact Hne. apply Hpos.
Qed.

Lemma build_counts_from company_products : forall acc p,
  default O (snd (foldl build_step acc company_products) !! p)
  = (default O (snd acc !! p) + total_occurrences p company_products)%nat.
Proof.
  unfold total_occurrences.
  induction company_products as [|row rows IH]; intros [co counts] p; simpl;
    [lia|].
  rewrite IH. simpl. rewrite counter_update_lookup. lia.
Qed.

Lemma build_counts_positive company_products : forall acc p n,
  (forall q m, snd acc !! q = Some m -> (0 < m)%nat) ->
  snd (foldl build_step acc company_products) !! p = Some n -> (0 < n)%nat.
Proof.
  induction company_products as [|row rows IH]; intros [co counts] p n Hpos;
    simpl; [apply Hpos|].
  apply IH. intros q m. simpl. apply counter_update_positive. exact Hpos.
Qed.

(** X12.  The product counter returned with the table holds, for each product,
    the number of rows naming it, and holds no product with count 0: its
    size is the number of distinct products seen. *)
Theorem product_counts_are_row_counts company_products p :
  let product_counts := snd (build_cooccurrence_matrix company_products) in
  product_counts !! p
  = match total_occurrences p company_products with
    | O => None
    | n => Some n
    end.
Proof.
  cbv zeta. unfold build_cooccurrence_matrix.
  pose proof (build_counts_from company_products (∅, ∅) p) as Hsum.
  pose proof (build_counts_positive company_products (∅, ∅) p) as Hpos.
  cbn [snd] in Hsum, Hpos. rewrite lookup_empty in Hsum. cbn in Hsum.
  destruct (snd (foldl build_step (∅, ∅) company_products) !! p) as [n|].
  - cbn in Hsum. subst n.
    assert (0 < total_occurrences p company_products)%nat.
    { apply (Hpos _ ); [|reflexivity]. intros q m. rewrite lookup_empty.
      discriminate. }
    destruct (total_occurrences p company_products); [lia|reflexivity].
  - cbn in Hsum. rewrite <- Hsum. reflexivity.
Qed.

Lemma pair_hits_nodup_le a b products :
  NoDup products -> (pair_hits a b products <= 1)%nat.
Proof.
  intros Hnd. destruct (decide (a = b)) as [->|Hne].
  - rewrite (pair_hits_nodup_same b products Hnd). lia.
  - rewrite (pair_hits_nodup a b products Hnd Hne). case_decide; lia.
Qed.

(** X13.  When no product list names a product twice, no counter of the table
    exceeds the number of customers, so each count divided by that number
    (the confidence of [get_cooccurrence_boost]) is at most 1. *)
Theorem cooccurrence_at_most_customers company_products a b :
  Forall (fun row => NoDup (snd row)) company_products ->
  (cooccurrence (fst (build_cooccurrence_matrix company_products)) a b
   <= length company_products)%nat.
Proof.
  intros Hnd. rewrite cooccurrence_build.
  induction Hnd as [|row rows Hrow _ IH]; [reflexivity|].
  pose proof (pair_hits_nodup_le a b (snd row) Hrow).
  simpl in *. lia.
Qed.

Lemma cooccurrence_at_most_customers_witness :
  (cooccurrence (fst (build_cooccurrence_matrix distinct_product_rows))
     "IP VPN" "Internet" <= 3)%nat.
Proof.
  apply (cooccurrence_at_most_customers distinct_product_rows).
  unfold distinct_product_rows.
  repeat first [apply Forall_cons; split | apply Forall_nil];
    cbn [snd]; compute_done.
Defined.

End BoostAndCounts.

(** ** ARPU levels *)

Section ArpuLevels.

Lemma Qlt_bool_false_iff x y : Qlt_bool x y = false <-> (y <= x)%Q.
Proof.
  unfold Qlt_bool. rewrite negb_false_iff. apply Qle_bool_iff.
Qed.

Lemma Qeq_bool_false x y : Qeq_bool x y = false -> ~ (x == y)%Q.
Proof. intros H E. apply Qeq_bool_iff in E. congruence. Qed.

Lemma categorize_arpu_realistic_cases r :
  ((r == 0)%Q /\ categorize_arpu_realistic (Some r) = ("Bundled/Free", 0))
  \/ (~ (r == 0)%Q /\ (r < 1000000)%Q
      /\ categorize_arpu_realistic (Some r) = ("Entry", 1))
  \/ ((1000000 <= r)%Q /\ (r < 3500000)%Q
      /\ categorize_arpu_realistic (Some r) = ("Mid", 2))
  \/ ((3500000 <= r)%Q /\ (r < 15000000)%Q
      /\ categorize_arpu_realistic (Some r) = ("High", 3))
  \/ ((15000000 <= r)%Q
      /\ categorize_arpu_realistic (Some r) = ("Enterprise", 4)).
Proof.
  unfold categorize_arpu_realistic.
  destruct (Qeq_bool r 0) eqn:E0.
  { apply Qeq_bool_iff in E0. left. auto. }
  apply Qeq_bool_false in E0.
  destruct (Qlt_bool r 1000000) eqn:E1.
  { apply Qlt_bool_iff in E1. right; left. auto. }
  apply Qlt_bool_false_iff in E1.
  destruct (Qlt_bool r 3500000) eqn:E2.
  { apply Qlt_bool_iff in E2. right; right; left. auto. }
  apply Qlt_bool_false_iff in E2.
  destruct (Qlt_bool r 15000000) eqn:E3.
  { apply Qlt_bool_iff in E3. right; right; right; left. auto. }
  apply Qlt_bool_false_iff in E3. right; right; right; right. auto.
Qed.

(** X14.  The ARPU level runs from 0 to 4 and, on revenue that is not negative,
    never falls when revenue grows; level 0 is kept for a revenue of
    exactly 0 (or a missing one), and a negative revenue counts as Entry,
    level 1. *)
Theorem categorize_arpu_realistic_monotone r1 r2 :
  (0 <= r1)%Q -> (r1 <= r2)%Q ->
  snd (categorize_arpu_realistic (Some r1))
  <= snd (categorize_arpu_realistic (Some r2))
  /\ 0 <= snd (categorize_arpu_realistic (Some r1)) <= 4
  /\ (snd (categorize_arpu_realistic (Some r1)) = 0 <-> (r1 == 0)%Q)
  /\ (forall r, (r < 0)%Q ->
                categorize_arpu_realistic (Some r) = ("Entry", 1)).
Proof.
  intros H0 Hle.
  pose proof (categorize_arpu_realistic_cases r1) as C1.
  pose proof (categorize_arpu_realistic_cases r2) as C2.
  split; [|split; [|split]].
  - destruct C1 as [(?&->)|[(?&?&->)|[(?&?&->)|[(?&?&->)|(?&->)]]]];
      destruct C2 as [(?&->)|[(?&?&->)|[(?&?&->)|[(?&?&->)|(?&->)]]]];
      cbn; try lia; exfalso; lra.
  - destruct C1 as [(?&->)|[(?&?&->)|[(?&?&->)|[(?&?&->)|(?&->)]]]];
      cbn; lia.
  - destruct C1 as [(?&->)|[(?&?&->)|[(?&?&->)|[(?&?&->)|(?&->)]]]];
      cbn; split; intros ?; try lia; try assumption; exfalso; lra.
  - intros r Hr.
    destruct (categorize_arpu_realistic_cases r)
      as [(?&?)|[(?&?&?)|[(?&?&?)|[(?&?&?)|(?&?)]]]];
      try assumption; exfalso; lra.
Qed.

Lemma categorize_arpu_realistic_monotone_witness :
  snd (categorize_arpu_realistic (Some 900000%Q))
  <= snd (categorize_arpu_realistic (Some 4000000%Q)).
Proof.
  apply (categorize_arpu_realistic_monotone 900000 4000000);
    apply Qle_bool_iff; reflexivity.
Defined.

End ArpuLevels.

(** ** Segmentation and strategic matrix of the v21 pipeline *)

Section Segmentation.
Import V21.

Lemma segment_customers_row kategori_col df r :
  In r (segment_customers kategori_col df) ->
  exists r0,
    In r0 df
    /\ cluster_bandwidth r
       = (if kategori_col then klasifikasi_produk (kategori r0)
          else klasifikasi_bandwidth (bandwidth_mbps r0))
    /\ bandwidth_mbps r = bandwidth_mbps r0
    /\ pendapatan r = pendapatan r0
    /\ (exclude_upsell r, exclude_reason r)
       = (if mask_backbone r then (1, "Backbone/ISP - Sudah optimal")
          else if mask_atm r
               then (1, "ATM/IoT - Tidak butuh upsell broadband")
               else (0, "")).
Proof.
  unfold segment_customers. rewrite !map_map.
  intros (r0 & <- & Hin)%in_map_iff. exists r0.
  split; [exact Hin|].
  set (c := if kategori_col then _ else _).
  set (r1 := set_exclude 0 "" (set_cluster_bandwidth c r0)).
  destruct (mask_atm r1) eqn:Ea.
  - set (r2 := set_exclude 1 _ r1).
    assert (Eb : mask_backbone r2 = false).
    { unfold mask_atm in Ea. unfold mask_backbone. cbn in *.
      apply andb_true_iff in Ea as [Ec _]. apply String.eqb_eq in Ec.
      rewrite Ec. reflexivity. }
    rewrite Eb. repeat split. cbn.
    change (mask_backbone r2) with (mask_backbone r1) in Eb.
    fold r1. unfold r2. 
    change (mask_backbone (set_exclude 1 _ r1)) with (mask_backbone r1).
    change (mask_atm (set_exclude 1 _ r1)) with (mask_atm r1).
    rewrite Eb, Ea. reflexivity.
  - destruct (mask_backbone r1) eqn:Eb.
    + repeat split. cbn.
      change (mask_backbone (set_exclude 1 _ r1)) with (mask_backbone r1).
      rewrite Eb. reflexivity.
    + repeat split. rewrite Eb, Ea. reflexivity.
Qed.

Lemma klasifikasi_bandwidth_low bw :
  (bw < 1)%Q ->
  klasifikasi_bandwidth bw
  = if Qeq_bool bw 0 then "TIDAK_DIKETAHUI" else "LOW_BANDWIDTH_GROUP".
Proof.
  intros H. unfold klasifikasi_bandwidth.
  destruct (Qeq_bool bw 0); [reflexivity|].
  assert (E : Qlt_bool bw 10 = true) by (apply Qlt_bool_iff; lra).
  rewrite E. reflexivity.
Qed.

Lemma klasifikasi_bandwidth_high bw :
  (500 < bw)%Q -> klasifikasi_bandwidth bw = "HIGH_BANDWIDTH_GROUP".
Proof.
  intros H. unfold klasifikasi_bandwidth.
  assert (E0 : Qeq_bool bw 0 = false).
  { destruct (Qeq_bool bw 0) eqn:E; [|reflexivity].
    apply Qeq_bool_iff in E. lra. }
  assert (E1 : Qlt_bool bw 10 = false) by (apply Qlt_bool_false_iff; lra).
  assert (E2 : Qle_bool bw 100 = false).
  { destruct (Qle_bool bw 100) eqn:E; [|reflexivity].
    apply Qle_bool_iff in E. lra. }
  assert (E3 : Qle_bool bw 500 = false).
  { destruct (Qle_bool bw 500) eqn:E; [|reflexivity].
    apply Qle_bool_iff in E. lra. }
  rewrite E0, E1, E2, E3. reflexivity.
Qed.

Lemma mask_atm_iff r :
  mask_atm r = true
  <-> cluster_bandwidth r = "LOW_BANDWIDTH_GROUP" /\ (bandwidth_mbps r < 1)%Q.
Proof.
  unfold mask_atm. rewrite andb_true_iff, String.eqb_eq, Qlt_bool_iff.
  reflexivity.
Qed.

Lemma mask_backbone_iff r :
  mask_backbone r = true
  <-> cluster_bandwidth r = "HIGH_BANDWIDTH_GROUP"
      /\ (5000 < bandwidth_mbps r)%Q.
Proof.
  unfold mask_backbone. rewrite andb_true_iff, String.eqb_eq, Qlt_bool_iff.
  reflexivity.
Qed.

Lemma segment_customers_excluded_iff kategori_col df r :
  In r (segment_customers kategori_col df) ->
  exclude_upsell r = 1
  <-> (cluster_bandwidth r = "LOW_BANDWIDTH_GROUP"
       /\ (bandwidth_mbps r < 1)%Q)
      \/ (cluster_bandwidth r = "HIGH_BANDWIDTH_GROUP"
          /\ (5000 < bandwidth_mbps r)%Q).
Proof.
  intros Hin.
  destruct (segment_customers_row kategori_col df r Hin)
    as (r0 & _ & Hc & Hb & _ & Hx).
  rewrite <- mask_atm_iff, <- mask_backbone_iff.
  destruct (mask_backbone r), (mask_atm r); injection Hx as -> _;
    split; intros H; auto; try discriminate;
    destruct H as [H|H]; discriminate.
Qed.

(** X15.  After segmentation the exclusion flag is 0 or 1, and it is 1 exactly
    for the customers of the lowest cluster below 1 Mbps and of the
    highest cluster above 5000 Mbps; a customer that is not excluded has
    no exclusion reason.  When the clusters come from the bandwidth itself
    (no product category column), the excluded customers are exactly those
    with a bandwidth below 1 Mbps other than 0, or above 5000 Mbps. *)
Theorem segment_customers_exclusion kategori_col df r :
  In r (segment_customers kategori_col df) ->
  (exclude_upsell r = 1
   <-> (cluster_bandwidth r = "LOW_BANDWIDTH_GROUP"
        /\ (bandwidth_mbps r < 1)%Q)
       \/ (cluster_bandwidth r = "HIGH_BANDWIDTH_GROUP"
           /\ (5000 < bandwidth_mbps r)%Q))
  /\ (exclude_upsell r = 0 \/ exclude_upsell r = 1)
  /\ (exclude_upsell r = 0 -> exclude_reason r = "")
  /\ (kategori_col = false ->
      (exclude_upsell r = 1
       <-> (~ (bandwidth_mbps r == 0)%Q /\ (bandwidth_mbps r < 1)%Q)
           \/ (5000 < bandwidth_mbps r)%Q)).
Proof.
  intros Hin.
  destruct (segment_customers_row kategori_col df r Hin)
    as (r0 & _ & Hc & Hb & _ & Hx).
  pose proof (segment_customers_excluded_iff kategori_col df r Hin) as Hiff.
  split; [exact Hiff|]. split; [|split].
  - destruct (mask_backbone r), (mask_atm r); injection Hx as -> _; auto.
  - destruct (mask_backbone r), (mask_atm r); injection Hx as -> ->;
      intros; first [reflexivity | discriminate].
  - intros ->. rewrite Hiff, Hc, Hb. split.
    + intros [[Hlow Hlt]|[Hhigh Hgt]]; [left|right; exact Hgt].
      split; [|exact Hlt]. intros Hz.
      rewrite (klasifikasi_bandwidth_low _ Hlt) in Hlow.
      apply Qeq_bool_iff in Hz. rewrite Hz in Hlow. discriminate.
    + intros [[Hnz Hlt]|Hgt].
      * left. split; [|exact Hlt].
        rewrite (klasifikasi_bandwidth_low _ Hlt).
        destruct (Qeq_bool (bandwidth_mbps r0) 0) eqn:E; [|reflexivity].
        apply Qeq_bool_iff in E. contradiction.
      * right. split; [|exact Hgt]. apply klasifikasi_bandwidth_high. lra.
Qed.

Lemma segment_customers_exclusion_witness :
  Forall (fun r => exclude_upsell r = 1) (segment_customers false [atm_row]).
Proof.
  apply List.Forall_forall. intros r Hin.
  destruct (segment_customers_exclusion false [atm_row] r Hin)
    as (_ & _ & _ & H).
  apply (H eq_refl). destruct Hin as [<-|[]].
  left. split; [intros E; apply Qeq_bool_iff in E; discriminate E|].
  apply Qlt_bool_iff. reflexivity.
Defined.

End Segmentation.

Section StrategicMatrix.
Import V21.

Lemma create_strategic_matrices_row df r :
  In r (create_strategic_matrices df) ->
  exists r0,
    In r0 df
    /\ r = set_matriks_1 (klasifikasi_bw (per_cluster_thresholds df) r0) r0.
Proof.
  unfold create_strategic_matrices. intros (r0 & <- & Hin)%in_map_iff.
  exists r0. split; [exact Hin|reflexivity].
Qed.

(** A customer of the frame whose cluster is known has an entry in the
    threshold table. *)
Lemma v21_member_has_entry df r0 :
  In r0 df -> cluster_bandwidth r0 <> "TIDAK_DIKETAHUI" ->
  is_Some (per_cluster_thresholds df !! cluster_bandwidth r0).
Proof.
  intros Hin Hne. rewrite v21_per_cluster_thresholds_lookup.
  unfold v21_cluster_entry.
  destruct (String.eqb_spec (cluster_bandwidth r0) "TIDAK_DIKETAHUI");
    [contradiction|].
  destruct (cluster_rows (cluster_bandwidth r0) df) as [|x l] eqn:E; [|eauto].
  exfalso. apply list_elem_of_In in Hin.
  assert (Hr : r0 ∈ cluster_rows (cluster_bandwidth r0) df)
    by (apply list_elem_of_filter; split; [reflexivity|exact Hin]).
  rewrite E in Hr. inversion Hr.
Qed.

Lemma klasifikasi_bw_labels th r :
  (fst (klasifikasi_bw th r) = "🚫 DIKECUALIKAN"
   <-> cluster_bandwidth r <> "TIDAK_DIKETAHUI"
       /\ is_Some (th !! cluster_bandwidth r)
       /\ exclude_upsell r = 1)
  /\ (fst (klasifikasi_bw th r) = "❓ BELUM_TERKATEGORI"
      <-> cluster_bandwidth r = "TIDAK_DIKETAHUI"
          \/ th !! cluster_bandwidth r = None)
  /\ (exclude_upsell r = 1 ->
      fst (klasifikasi_bw th r) = "🚫 DIKECUALIKAN" ->
      snd (klasifikasi_bw th r) = exclude_reason r).
Proof.
  pose proof (@is_Some_None thresholds) as Hnone.
  assert (Hsome : forall x : thresholds, is_Some (Some x)) by eauto.
  unfold klasifikasi_bw.
  destruct (String.eqb_spec (cluster_bandwidth r) "TIDAK_DIKETAHUI")
    as [Ht|Ht].
  { cbn. intuition (try discriminate; try congruence; eauto). }
  destruct (th !! cluster_bandwidth r) as [thresh|] eqn:Eth.
  2:{ cbn. intuition (try discriminate; try congruence; eauto). }
  destruct (Z.eqb_spec (exclude_upsell r) 1) as [Hx|Hx].
  { cbn. intuition (try discriminate; try congruence; eauto). }
  destruct (String.eqb _ "LOW_BANDWIDTH_GROUP");
    [|destruct (String.eqb _ "HIGH_BANDWIDTH_GROUP")];
    repeat match goal with
           | |- context [if ?b then _ else _] => destruct b
           end;
    cbn; intuition (try discriminate; try congruence; eauto).
Qed.

Lemma klasifikasi_produk_known tipe :
  klasifikasi_produk tipe <> "TIDAK_DIKETAHUI".
Proof.
  unfold klasifikasi_produk.
  destruct (any_in _ _); [discriminate|].
  destruct (any_in _ _); discriminate.
Qed.

Lemma klasifikasi_bandwidth_unknown bw :
  klasifikasi_bandwidth bw = "TIDAK_DIKETAHUI" <-> (bw == 0)%Q.
Proof.
  unfold klasifikasi_bandwidth.
  destruct (Qeq_bool bw 0) eqn:E.
  - apply Qeq_bool_iff in E. tauto.
  - apply Qeq_bool_false in E.
    destruct (Qlt_bool bw 10); [split; [discriminate|contradiction]|].
    destruct (Qle_bool bw 100); [split; [discriminate|contradiction]|].
    destruct (Qle_bool bw 500); split; first [discriminate|contradiction].
Qed.

(** X16.  In the strategic matrix built after segmentation, a customer carries
    the label DIKECUALIKAN exactly when it is excluded from upsell, and
    then the strategy text is the exclusion reason. *)
Theorem excluded_customers_are_labelled kategori_col df r :
  In r (create_strategic_matrices (segment_customers kategori_col df)) ->
  (kuadran_matriks_1 r = "🚫 DIKECUALIKAN" <-> exclude_upsell r = 1)
  /\ (exclude_upsell r = 1 -> strategi_matriks_1 r = exclude_reason r).
Proof.
  intros Hin.
  apply create_strategic_matrices_row in Hin as (r0 & Hin & ->).
  set (df' := segment_customers kategori_col df) in *.
  destruct (klasifikasi_bw_labels (per_cluster_thresholds df') r0)
    as (Hex & _ & Hreason).
  cbn [kuadran_matriks_1 strategi_matriks_1 exclude_upsell exclude_reason
       set_matriks_1].
  assert (Hx : exclude_upsell r0 = 1 ->
               cluster_bandwidth r0 <> "TIDAK_DIKETAHUI").
  { intros H1.
    apply (segment_customers_excluded_iff kategori_col df r0 Hin) in H1 as [[-> _]|[-> _]]; discriminate. }
  split.
  - rewrite Hex. split; [tauto|]. intros H1.
    split; [exact (Hx H1)|]. split; [|exact H1].
    exact (v21_member_has_entry df' r0 Hin (Hx H1)).
  - intros H1. apply Hreason; [exact H1|]. apply Hex.
    split; [exact (Hx H1)|]. split; [|exact H1].
    exact (v21_member_has_entry df' r0 Hin (Hx H1)).
Qed.

Lemma excluded_customers_are_labelled_witness :
  Forall (fun r => kuadran_matriks_1 r = "🚫 DIKECUALIKAN")
    (create_strategic_matrices (segment_customers true [atm_row])).
Proof.
  apply List.Forall_forall. intros r Hin.
  destruct (excluded_customers_are_labelled true [atm_row] r Hin) as (H & _).
  apply H. destruct Hin as [<-|[]]. reflexivity.
Defined.

(** X17.  With a product category column every customer gets a cluster with
    thresholds, so nobody is left uncategorised (BELUM_TERKATEGORI);
    without it, the uncategorised customers are exactly those with a
    bandwidth of 0. *)
Theorem uncategorised_customers kategori_col df r :
  In r (create_strategic_matrices (segment_customers kategori_col df)) ->
  (kuadran_matriks_1 r = "❓ BELUM_TERKATEGORI"
   <-> cluster_bandwidth r = "TIDAK_DIKETAHUI")
  /\ (kategori_col = true -> kuadran_matriks_1 r <> "❓ BELUM_TERKATEGORI")
  /\ (kategori_col = false ->
      (kuadran_matriks_1 r = "❓ BELUM_TERKATEGORI"
       <-> (bandwidth_mbps r == 0)%Q)).
Proof.
  intros Hin.
  apply create_strategic_matrices_row in Hin as (r0 & Hin & ->).
  set (df' := segment_customers kategori_col df) in *.
  destruct (klasifikasi_bw_labels (per_cluster_thresholds df') r0)
    as (_ & Hun & _).
  cbn [kuadran_matriks_1 cluster_bandwidth bandwidth_mbps set_matriks_1].
  assert (Hiff : fst (klasifikasi_bw (per_cluster_thresholds df') r0)
                 = "❓ BELUM_TERKATEGORI"
                 <-> cluster_bandwidth r0 = "TIDAK_DIKETAHUI").
  { rewrite Hun. split; [|tauto]. intros [H|H]; [exact H|].
    destruct (String.eqb_spec (cluster_bandwidth r0) "TIDAK_DIKETAHUI")
      as [E|E]; [exact E|].
    destruct (v21_member_has_entry df' r0 Hin E) as [x Hx]. congruence. }
  destruct (segment_customers_row kategori_col df r0 Hin)
    as (r00 & _ & Hc & Hb & _).
  split; [exact Hiff|]. split.
  - intros ->. rewrite Hiff, Hc. apply klasifikasi_produk_known.
  - intros ->. rewrite Hiff, Hc, Hb. apply klasifikasi_bandwidth_unknown.
Qed.

Lemma uncategorised_customers_witness :
  Forall (fun r => kuadran_matriks_1 r <> "❓ BELUM_TERKATEGORI")
    (create_strategic_matrices (segment_customers true [unknown_a])).
Proof.
  apply List.Forall_forall. intros r Hin.
  destruct (uncategorised_customers true [unknown_a] r Hin) as (_ & H & _).
  exact (H eq_refl).
Defined.

End StrategicMatrix.

(** ** Medians and cluster members *)

Section MedianMembers.

Lemma insert_sorted_in x y l :
  In y (Series.insert_sorted x l) <-> y = x \/ In y l.
Proof.
  induction l as [|z t IH]; simpl; [intuition|].
  destruct (Qle_bool x z); simpl; [intuition|].
  rewrite IH. intuition.
Qed.

Lemma sort_in y l : In y (Series.sort l) <-> In y l.
Proof.
  unfold Series.sort. induction l as [|x t IH]; simpl; [reflexivity|].
  rewrite insert_sorted_in, IH. intuition.
Qed.

Lemma insert_sorted_length x l :
  length (Series.insert_sorted x l) = S (length l).
Proof.
  induction l as [|z t IH]; simpl; [reflexivity|].
  destruct (Qle_bool x z); simpl; [reflexivity|]. rewrite IH. reflexivity.
Qed.

Lemma sort_length l : length (Series.sort l) = length l.
Proof.
  unfold Series.sort. induction l as [|x t IH]; simpl; [reflexivity|].
  rewrite insert_sorted_length, IH. reflexivity.
Qed.

Lemma sort_nth_in l i d :
  (i < length l)%nat -> In (nth i (Series.sort l) d) l.
Proof.
  intros H. apply sort_in, nth_In. rewrite sort_length. exact H.
Qed.

(** The median of a non-empty column is one of its values or the mean of
    two of them. *)
Lemma median_members l :
  l <> [] ->
  exists a b,
    In a l /\ In b l
    /\ (Series.median l = Some a \/ Series.median l = Some ((a + b) / 2)%Q).
Proof.
  intros Hne. unfold Series.median.
  destruct l as [|x0 l0] eqn:El; [congruence|]. rewrite <- El in *.
  assert (Hlen : (0 < length l)%nat) by (rewrite El; simpl; lia).
  assert (Hh : (Nat.div (length l) 2 < length l)%nat)
    by (apply Nat.div_lt; lia).
  pose proof (sort_nth_in l (Nat.div (length l) 2) 0%Q Hh) as Hin1.
  assert (Hin2 : In (nth (Nat.div (length l) 2 - 1) (Series.sort l) 0%Q) l)
    by (apply sort_nth_in; lia).
  destruct (Nat.even (length l)).
  - exists (nth (Nat.div (length l) 2 - 1) (Series.sort l) 0%Q),
           (nth (Nat.div (length l) 2) (Series.sort l) 0%Q).
    split; [exact Hin2|]. split; [exact Hin1|]. right. reflexivity.
  - exists (nth (Nat.div (length l) 2) (Series.sort l) 0%Q),
           (nth (Nat.div (length l) 2) (Series.sort l) 0%Q).
    split; [exact Hin1|]. split; [exact Hin1|]. left. reflexivity.
Qed.

Lemma median_le_upper l hi :
  l <> [] -> (forall x, In x l -> (x <= hi)%Q) ->
  exists m, Series.median l = Some m /\ (m <= hi)%Q.
Proof.
  intros Hne Hhi.
  destruct (median_members l Hne) as (a & b & Ha & Hb & [-> | ->]);
    eexists; (split; [reflexivity|]).
  - exact (Hhi a Ha).
  - pose proof (Hhi a Ha). pose proof (Hhi b Hb).
    apply Qle_shift_div_r; lra.
Qed.

Lemma median_ge_lower l lo :
  l <> [] -> (forall x, In x l -> (lo <= x)%Q) ->
  exists m, Series.median l = Some m /\ (lo <= m)%Q.
Proof.
  intros Hne Hlo.
  destruct (median_members l Hne) as (a & b & Ha & Hb & [-> | ->]);
    eexists; (split; [reflexivity|]).
  - exact (Hlo a Ha).
  - pose proof (Hlo a Ha). pose proof (Hlo b Hb).
    apply Qle_shift_div_l; lra.
Qed.

Lemma max_member {A : Type} (f : A -> Q) (l : list A) :
  l <> [] ->
  exists r, In r l /\ forall r', In r' l -> (f r' <= f r)%Q.
Proof.
  induction l as [|a t IH]; [congruence|]. intros _.
  destruct t as [|b t'].
  - exists a. split; [left; reflexivity|].
    intros r' [<-|[]]. apply Qle_refl.
  - destruct IH as (r & Hin & Hmax); [discriminate|].
    destruct (Qlt_le_dec (f r) (f a)) as [Hlt|Hle].
    + exists a. split; [left; reflexivity|].
      intros r' [<-|Hr']; [apply Qle_refl|].
      apply Qle_trans with (f r); [apply Hmax, Hr'|apply Qlt_le_weak, Hlt].
    + exists r. split; [right; exact Hin|].
      intros r' [<-|Hr']; [exact Hle|apply Hmax, Hr'].
Qed.

Lemma min_member {A : Type} (f : A -> Q) (l : list A) :
  l <> [] ->
  exists r, In r l /\ forall r', In r' l -> (f r <= f r')%Q.
Proof.
  intros Hne.
  destruct (max_member (fun z => (- f z)%Q) l Hne) as (r & Hin & Hmax).
  exists r. split; [exact Hin|]. intros r' Hr'.
  pose proof (Hmax r' Hr'). lra.
Qed.

(** Some row reaches the median of a column of a non-empty frame, and some
    row does not exceed it. *)
Lemma median_has_members {A : Type} (f : A -> Q) (rows : list A) :
  rows <> [] ->
  exists m hi lo,
    Series.median (map f rows) = Some m
    /\ In hi rows /\ (m <= f hi)%Q
    /\ In lo rows /\ (f lo <= m)%Q.
Proof.
  intros Hne.
  destruct (max_member f rows Hne) as (hi & Hhi & Hmax).
  destruct (min_member f rows Hne) as (lo & Hlo & Hmin).
  assert (Hne' : map f rows <> []) by (destruct rows; [congruence|discriminate]).
  destruct (median_le_upper (map f rows) (f hi) Hne') as (m & Hm & Hle).
  { intros x (r' & <- & Hr')%in_map_iff. exact (Hmax r' Hr'). }
  destruct (median_ge_lower (map f rows) (f lo) Hne') as (m' & Hm' & Hge).
  { intros x (r' & <- & Hr')%in_map_iff. exact (Hmin r' Hr'). }
  exists m, hi, lo. rewrite Hm in Hm'. injection Hm' as <-.
  repeat split; assumption.
Qed.

(** X18.  Every cluster with thresholds has a customer at or above its median
    revenue and a customer at or above its median bandwidth, so in no
    cluster are all customers rated low on revenue or all low on
    bandwidth; it also has a customer that does not exceed the median
    revenue.  A cluster with a single customer rates that customer high on
    both axes. *)
Theorem every_cluster_has_a_high_customer df cluster thresh :
  V21.per_cluster_thresholds df !! cluster = Some thresh ->
  (exists r, In r df /\ V21.cluster_bandwidth r = cluster
             /\ ge_float (V21.pendapatan r) (V21.median_pendapatan thresh)
                = true)
  /\ (exists r, In r df /\ V21.cluster_bandwidth r = cluster
                /\ ge_float (V21.bandwidth_mbps r)
                     (V21.median_bandwidth thresh) = true)
  /\ (exists r m, In r df /\ V21.cluster_bandwidth r = cluster
                  /\ V21.median_pendapatan thresh = Some m
                  /\ (V21.pendapatan r <= m)%Q)
  /\ (forall r, V21.cluster_rows cluster df = [r] ->
                ge_float (V21.pendapatan r) (V21.median_pendapatan thresh)
                = true
                /\ ge_float (V21.bandwidth_mbps r)
                     (V21.median_bandwidth thresh) = true).
Proof.
  intros Hth.
  destruct (v21_entry_inv df cluster thresh Hth) as (_ & Hne & ->).
  assert (Hmem : forall r, In r (V21.cluster_rows cluster df) ->
                           In r df /\ V21.cluster_bandwidth r = cluster).
  { intros r Hr. apply list_elem_of_In in Hr.
    apply list_elem_of_filter in Hr as [Hc Hr].
    split; [apply list_elem_of_In, Hr|exact Hc]. }
  destruct (median_has_members V21.pendapatan _ Hne)
    as (mp & hp & lp & Hmp & Hhp & Hlep & Hlp & Hgep).
  destruct (median_has_members V21.bandwidth_mbps _ Hne)
    as (mb & hb & lb & Hmb & Hhb & Hleb & _ & _).
  cbn [V21.median_pendapatan V21.median_bandwidth V21.threshold_bundle].
  split; [|split; [|split]].
  - exists hp. destruct (Hmem hp Hhp) as [H1 H2].
    split; [exact H1|]. split; [exact H2|].
    rewrite Hmp. apply Qle_bool_iff, Hlep.
  - exists hb. destruct (Hmem hb Hhb) as [H1 H2].
    split; [exact H1|]. split; [exact H2|].
    rewrite Hmb. apply Qle_bool_iff, Hleb.
  - exists lp, mp. destruct (Hmem lp Hlp) as [H1 H2].
    repeat split; assumption.
  - intros r Hr. rewrite Hr. cbn.
    split; apply Qle_bool_iff, Qle_refl.
Qed.

Lemma every_cluster_has_a_high_customer_witness :
  exists r,
    In r mixed_frame
    /\ V21.cluster_bandwidth r = "MID_BANDWIDTH_GROUP"
    /\ ge_float (V21.pendapatan r)
         (V21.median_pendapatan
            (V21.threshold_bundle [corp_a; corp_b; corp_c])) = true.
Proof.
  destruct (every_cluster_has_a_high_customer mixed_frame
              "MID_BANDWIDTH_GROUP"
              (V21.threshold_bundle [corp_a; corp_b; corp_c])) as (H & _).
  - vm_compute. reflexivity.
  - exact H.
Defined.

End MedianMembers.

(** ** Scores, priorities and potentials of excluded customers *)

Section Potentials.
Import V21.

Lemma generate_predictions_row um cm df r :
  In r (generate_predictions um cm df) ->
  exists r0,
    In r0 df
    /\ exclude_upsell r = exclude_upsell r0
    /\ (let predict (model : option (row -> Q)) :=
          match model with
          | Some predict_proba => predict_proba r0
          | None => 0%Q
          end in
        if exclude_upsell r0 =? 1
        then skor_peluang_upsell r = 0%Q
             /\ skor_peluang_crosssell r = (predict cm * 0.5)%Q
        else skor_peluang_upsell r = predict um
             /\ skor_peluang_crosssell r = predict cm).
Proof.
  unfold generate_predictions. rewrite !map_map.
  intros (r0 & <- & Hin)%in_map_iff. exists r0. cbn.
  destruct (exclude_upsell r0 =? 1) eqn:E; cbn; rewrite ?E; cbn;
    repeat split; exact Hin.
Qed.

Lemma pd_cut_zero : pd_cut_prioritas 0 = None.
Proof. reflexivity. Qed.

(** X19.  After the pipeline an excluded customer has no upsell priority (the
    score 0 lies in no bin of the cut, so the label is missing, not
    Rendah) and no upsell potential whatever its predicted value; with a
    cross-sell model that predicts probabilities its cross-sell score is
    at most 0.5, so it is never of priority Tinggi and its cross-sell
    potential is 0 as well.  Without a trained upsell model no customer
    at all has an upsell priority. *)
Theorem excluded_customers_carry_no_potential kategori_col upsell_model
    crosssell_model df r clv :
  In r (pipeline kategori_col upsell_model crosssell_model df) ->
  (exclude_upsell r = 1 ->
   pd_cut_prioritas (skor_peluang_upsell r) = None
   /\ potensi_upsell clv r = 0%Q
   /\ (probability_model crosssell_model ->
       (0 <= skor_peluang_crosssell r <= 0.5)%Q
       /\ pd_cut_prioritas (skor_peluang_crosssell r) <> Some "Tinggi"
       /\ potensi_crosssell clv r = 0%Q))
  /\ (upsell_model = None ->
      skor_peluang_upsell r = 0%Q
      /\ pd_cut_prioritas (skor_peluang_upsell r) = None).
Proof.
  unfold pipeline. intros Hin.
  apply generate_predictions_row in Hin as (r0 & _ & Hex & Hs).
  cbv zeta in Hs. split.
  - intros H1. rewrite Hex in H1. rewrite H1 in Hs. cbn in Hs.
    destruct Hs as [Hu Hc].
    split; [rewrite Hu; reflexivity|].
    split; [unfold potensi_upsell; rewrite Hu; reflexivity|].
    intros Hprob.
    assert (Hrange : (0 <= skor_peluang_crosssell r <= 0.5)%Q).
    { rewrite Hc. destruct crosssell_model as [f|].
      - pose proof (Hprob f r0 eq_refl). lra.
      - lra. }
    split; [exact Hrange|].
    assert (H5 : Qlt_bool 0.5 (skor_peluang_crosssell r) = false)
      by (apply Qlt_bool_false_iff; lra).
    assert (H6 : Qlt_bool 0.6 (skor_peluang_crosssell r) = false)
      by (apply Qlt_bool_false_iff; lra).
    split.
    + unfold pd_cut_prioritas. rewrite H6. cbn.
      destruct (_ && _); [discriminate|].
      destruct (_ && _); discriminate.
    + unfold potensi_crosssell. rewrite H5. reflexivity.
  - intros ->.
    assert (Hu : skor_peluang_upsell r = 0%Q)
      by (destruct (exclude_upsell r0 =? 1); destruct Hs as [Hu _]; exact Hu).
    rewrite Hu. split; reflexivity.
Qed.

Lemma excluded_customers_carry_no_potential_witness :
  Forall (fun r => pd_cut_prioritas (skor_peluang_upsell r) = None
                   /\ potensi_crosssell 1000000 r = 0%Q)
    (pipeline true eager_model eager_model [atm_row]).
Proof.
  apply List.Forall_forall. intros r Hin.
  destruct (excluded_customers_carry_no_potential true eager_model
              eager_model [atm_row] r 1000000%Q Hin) as (H & _).
  assert (Hx : exclude_upsell r = 1) by (destruct Hin as [<-|[]]; reflexivity).
  destruct (H Hx) as (Hp & _ & Hc). split; [exact Hp|].
  apply Hc. intros f r' [= <-]. split; apply Qle_bool_iff; reflexivity.
Defined.

End Potentials.


(** ** Value score and percentile flags *)

Section ValueScore.

Lemma foldl_Qmax_ge_init (l : list Q) : forall x, (x <= foldl Qmax x l)%Q.
Proof.
  induction l as [|y t IH]; intros x; simpl; [apply Qle_refl|].
  apply Qle_trans with (Qmax x y); [apply Q.le_max_l|apply IH].
Qed.

Lemma foldl_Qmax_ge (l : list Q) : forall x y,
  In y l -> (y <= foldl Qmax x l)%Q.
Proof.
  induction l as [|z t IH]; intros x y; simpl; [tauto|].
  intros [<-|Hy]; [|apply IH, Hy].
  apply Qle_trans with (Qmax x z); [apply Q.le_max_r|apply foldl_Qmax_ge_init].
Qed.

Lemma series_max_ge (l : list Q) m y :
  series_max l = Some m -> In y l -> (y <= m)%Q.
Proof.
  destruct l as [|x t]; [discriminate|]. simpl. intros [= <-] [<-|Hy].
  - apply foldl_Qmax_ge_init.
  - apply foldl_Qmax_ge, Hy.
Qed.

Lemma foldl_Qmax_member (l : list Q) : forall x,
  foldl Qmax x l = x \/ In (foldl Qmax x l) l.
Proof.
  induction l as [|y t IH]; intros x; simpl; [left; reflexivity|].
  destruct (IH (Qmax x y)) as [E|Hin]; [|right; right; exact Hin].
  rewrite E. unfold Qmax, GenericMinMax.gmax.
  destruct (x ?= y)%Q; [left; reflexivity|right; left; reflexivity
                       |left; reflexivity].
Qed.

Lemma series_max_member (l : list Q) m : series_max l = Some m -> In m l.
Proof.
  destruct l as [|x t]; [discriminate|]. simpl. intros [= <-].
  destruct (foldl_Qmax_member t x) as [->|Hin]; [left; reflexivity|].
  right. exact Hin.
Qed.

Lemma all_in_scale (P P' : Q -> Prop) n value k :
  (forall x, P x -> P' (x * k)%Q) ->
  all_in P n value -> all_in P' n (scale value k).
Proof.
  intros HP. destruct value as [q|l]; simpl; [apply HP|].
  intros [Hl Hall]. split; [rewrite length_map; exact Hl|].
  apply List.Forall_forall. intros v (x & <- & Hx)%in_map_iff.
  rewrite List.Forall_forall in Hall. apply HP, Hall, Hx.
Qed.

Lemma Forall_zip_with_plus (P P' P'' : Q -> Prop) (l l' : list Q) :
  (forall x y, P x -> P' y -> P'' (x + y)%Q) ->
  Forall P l -> Forall P' l' -> Forall P'' (zip_with Qplus l l').
Proof.
  intros HP Hl. revert l'. induction Hl as [|x l Hx Hl IH]; intros l' Hl'.
  - constructor.
  - destruct Hl' as [|y l' Hy Hl']; simpl; constructor; auto.
Qed.

Lemma all_in_add (P P' P'' : Q -> Prop) n a b :
  (forall x y, P x -> P' y -> P'' (x + y)%Q) ->
  all_in P n a -> all_in P' n b -> all_in P'' n (add a b).
Proof.
  intros HP. destruct a as [x|l], b as [y|l']; simpl.
  - apply HP.
  - intros Hx [Hl Hall]. split; [rewrite length_map; exact Hl|].
    apply List.Forall_forall. intros v (y & <- & Hy)%in_map_iff.
    rewrite List.Forall_forall in Hall. apply HP; auto.
  - intros [Hl Hall] Hy. split; [rewrite length_map; exact Hl|].
    apply List.Forall_forall. intros v (x & <- & Hx)%in_map_iff.
    rewrite List.Forall_forall in Hall. apply HP; auto.
  - intros [Hl Hall] [Hl' Hall']. split.
    + rewrite length_zip_with. lia.
    + eapply Forall_zip_with_plus; eauto.
Qed.

Lemma is_column_scale value k : is_column (scale value k) = is_column value.
Proof. destruct value; reflexivity. Qed.

Lemma is_column_add a b : is_column (add a b) = is_column a || is_column b.
Proof. destruct a, b; reflexivity. Qed.

Lemma normalise_upper column :
  all_in (fun v => (v <= 1)%Q) (length column) (normalise column).
Proof.
  unfold normalise. destruct (series_max column) as [m|] eqn:Em; simpl;
    [|lra].
  destruct (Qlt_bool 0 m) eqn:Epos; simpl; [|lra].
  apply Qlt_bool_iff in Epos. split; [apply length_map|].
  apply List.Forall_forall. intros v (x & <- & Hx)%in_map_iff.
  apply Qle_shift_div_r; [exact Epos|].
  pose proof (series_max_ge column m x Em Hx). lra.
Qed.

Lemma normalise_lower column :
  Forall (fun x => (0 <= x)%Q) column ->
  all_in (fun v => (0 <= v)%Q) (length column) (normalise column).
Proof.
  intros Hnn. unfold normalise.
  destruct (series_max column) as [m|] eqn:Em; simpl; [|lra].
  destruct (Qlt_bool 0 m) eqn:Epos; simpl; [|lra].
  apply Qlt_bool_iff in Epos. split; [apply length_map|].
  apply List.Forall_forall. intros v (x & <- & Hx)%in_map_iff.
  rewrite List.Forall_forall in Hnn.
  apply Qle_shift_div_l; [exact Epos|].
  pose proof (Hnn x Hx). lra.
Qed.

Lemma normalise_scalar column :
  is_column (normalise column) = false ->
  normalise column = Scalar 0 /\ Forall (fun x => (x <= 0)%Q) column.
Proof.
  unfold normalise. destruct (series_max column) as [m|] eqn:Em.
  - destruct (Qlt_bool 0 m) eqn:Epos; [discriminate|]. intros _.
    split; [reflexivity|]. apply Qlt_bool_false_iff in Epos.
    apply List.Forall_forall. intros x Hx.
    pose proof (series_max_ge column m x Em Hx). lra.
  - intros _. split; [reflexivity|].
    destruct column; [constructor|discriminate].
Qed.

(** A column without positive entry normalises to the bare number 0. *)
Lemma normalise_degenerate column :
  column <> [] -> Forall (fun x => (x <= 0)%Q) column ->
  normalise column = Scalar 0.
Proof.
  intros Hne Hall. unfold normalise.
  destruct (series_max column) as [m|] eqn:Em;
    [|destruct column; [congruence|discriminate]].
  rewrite List.Forall_forall in Hall.
  pose proof (Hall m (series_max_member column m Em)) as Hm.
  apply Qlt_bool_false_iff in Hm. rewrite Hm. reflexivity.
Qed.

Lemma calc_value_score_degenerate group :
  group <> [] ->
  Forall (fun r => (v_pendapatan r <= 0)%Q
                   /\ (v_masa_berlangganan r <= 0)%Q
                   /\ (v_bandwidth_mbps r <= 0)%Q) group ->
  calc_value_score group = Scalar (0 * 0.4 + 0 * 0.3 + 0 * 0.3).
Proof.
  intros Hne Hall. unfold calc_value_score.
  destruct group as [|g0 rest] eqn:E; [congruence|]. rewrite <- E in *.
  rewrite List.Forall_forall in Hall.
  assert (Hcol : forall f : value_row -> Q,
             (forall r, In r group -> (f r <= 0)%Q) ->
             normalise (map f group) = Scalar 0).
  { intros f Hf. apply normalise_degenerate.
    - rewrite E. discriminate.
    - apply List.Forall_forall. intros x (r & <- & Hr)%in_map_iff.
      apply Hf, Hr. }
  rewrite (Hcol v_pendapatan), (Hcol v_masa_berlangganan),
    (Hcol v_bandwidth_mbps); [reflexivity|..];
    intros r Hr; apply (Hall r Hr).
Qed.

Lemma calc_value_score_shape group :
  match calc_value_score group with
  | Column scores =>
      length scores = length group
      /\ Forall (fun v => (v <= 1)%Q) scores
      /\ (Forall (fun r => (0 <= v_pendapatan r)%Q
                           /\ (0 <= v_masa_berlangganan r)%Q
                           /\ (0 <= v_bandwidth_mbps r)%Q) group ->
          Forall (fun v => (0 <= v)%Q) scores)
  | Scalar q =>
      (q == 0)%Q /\ group <> []
      /\ Forall (fun r => (v_pendapatan r <= 0)%Q
                          /\ (v_masa_berlangganan r <= 0)%Q
                          /\ (v_bandwidth_mbps r <= 0)%Q) group
  end.
Proof.
  unfold calc_value_score. destruct group as [|g0 rest] eqn:E.
  { repeat split; constructor. }
  rewrite <- E. assert (Hne : group <> []) by (rewrite E; discriminate).
  clear E g0 rest.
  set (p := normalise (map v_pendapatan group)).
  set (t := normalise (map v_masa_berlangganan group)).
  set (b := normalise (map v_bandwidth_mbps group)).
  set (n := length group).
  assert (Hup : all_in (fun v => (v <= 1)%Q) n
                  (add (add (scale p 0.4) (scale t 0.3)) (scale b 0.3))).
  { apply all_in_add
      with (P := fun v => (v <= 0.7)%Q) (P' := fun v => (v <= 0.3)%Q);
      [intros; lra| |].
    - apply all_in_add
        with (P := fun v => (v <= 0.4)%Q) (P' := fun v => (v <= 0.3)%Q);
        [intros; lra| |].
      + apply all_in_scale with (P := fun v => (v <= 1)%Q); [intros; lra|].
        unfold n. rewrite <- (length_map v_pendapatan).
        apply normalise_upper.
      + apply all_in_scale with (P := fun v => (v <= 1)%Q); [intros; lra|].
        unfold n. rewrite <- (length_map v_masa_berlangganan).
        apply normalise_upper.
    - apply all_in_scale with (P := fun v => (v <= 1)%Q); [intros; lra|].
      unfold n. rewrite <- (length_map v_bandwidth_mbps).
      apply normalise_upper. }
  assert (Hlow : Forall (fun r => (0 <= v_pendapatan r)%Q
                           /\ (0 <= v_masa_berlangganan r)%Q
                           /\ (0 <= v_bandwidth_mbps r)%Q) group ->
                 all_in (fun v => (0 <= v)%Q) n
                   (add (add (scale p 0.4) (scale t 0.3)) (scale b 0.3))).
  { intros Hnn. rewrite List.Forall_forall in Hnn.
    assert (Hcol : forall f : value_row -> Q,
               (forall r, In r group -> (0 <= f r)%Q) ->
               all_in (fun v => (0 <= v)%Q) n (normalise (map f group))).
    { intros f Hf. unfold n. rewrite <- (length_map f).
      apply normalise_lower, List.Forall_forall.
      intros x (r & <- & Hr)%in_map_iff. apply Hf, Hr. }
    apply all_in_add
      with (P := fun v => (0 <= v)%Q) (P' := fun v => (0 <= v)%Q);
      [intros; lra| |].
    - apply all_in_add
        with (P := fun v => (0 <= v)%Q) (P' := fun v => (0 <= v)%Q);
        [intros; lra| |];
        apply all_in_scale with (P := fun v => (0 <= v)%Q);
        try (intros; lra); apply Hcol; intros r Hr; apply (Hnn r Hr).
    - apply all_in_scale with (P := fun v => (0 <= v)%Q); [intros; lra|].
      apply Hcol; intros r Hr; apply (Hnn r Hr). }
  destruct (add (add (scale p 0.4) (scale t 0.3)) (scale b 0.3))
    as [q|scores] eqn:Eres.
  - assert (Hcol : is_column
                     (add (add (scale p 0.4) (scale t 0.3)) (scale b 0.3))
                   = false) by (rewrite Eres; reflexivity).
    rewrite !is_column_add, !is_column_scale in Hcol.
    apply orb_false_iff in Hcol as [[Hp Ht]%orb_false_iff Hb].
    apply normalise_scalar in Hp as [Hp Hp'].
    apply normalise_scalar in Ht as [Ht Ht'].
    apply normalise_scalar in Hb as [Hb Hb'].
    fold p in Hp. fold t in Ht. fold b in Hb.
    rewrite Hp, Ht, Hb in Eres. simpl in Eres. injection Eres as <-.
    split; [reflexivity|]. split; [exact Hne|].
    rewrite List.Forall_forall in Hp', Ht', Hb'.
    apply List.Forall_forall. intros r Hr.
    repeat split; [apply Hp'|apply Ht'|apply Hb']; apply in_map, Hr.
  - destruct Hup as [Hl Hup]. split; [exact Hl|]. split; [exact Hup|].
    intros Hnn. apply (Hlow Hnn).
Qed.

(** X20.  [calc_value_score] gives every customer of a cluster one
    score, which never exceeds 1 and is not negative when revenue, tenure
    and bandwidth are not negative; unless the cluster has customers and
    none of them has a positive revenue, tenure or bandwidth: then, and
    only then, the result is the bare number 0 and not a column of
    scores. *)
Theorem calc_value_score_range group :
  match calc_value_score group with
  | Column scores =>
      length scores = length group
      /\ Forall (fun v => (v <= 1)%Q) scores
      /\ (Forall (fun r => (0 <= v_pendapatan r)%Q
                           /\ (0 <= v_masa_berlangganan r)%Q
                           /\ (0 <= v_bandwidth_mbps r)%Q) group ->
          Forall (fun v => (0 <= v)%Q) scores)
  | Scalar q =>
      (q == 0)%Q /\ group <> []
      /\ Forall (fun r => (v_pendapatan r <= 0)%Q
                          /\ (v_masa_berlangganan r <= 0)%Q
                          /\ (v_bandwidth_mbps r <= 0)%Q) group
  end
  /\ (group <> [] ->
      Forall (fun r => (v_pendapatan r <= 0)%Q
                       /\ (v_masa_berlangganan r <= 0)%Q
                       /\ (v_bandwidth_mbps r <= 0)%Q) group ->
      exists q, calc_value_score group = Scalar q /\ (q == 0)%Q)
  /\ (Exists (fun r => (0 < v_pendapatan r)%Q
                       \/ (0 < v_masa_berlangganan r)%Q
                       \/ (0 < v_bandwidth_mbps r)%Q) group ->
      exists scores, calc_value_score group = Column scores)
  /\ calc_value_score [] = Column [].
Proof.
  split; [apply calc_value_score_shape|].
  split.
  { intros Hne Hall. eexists.
    split; [exact (calc_value_score_degenerate group Hne Hall)|reflexivity]. }
  split; [|reflexivity].
  intros Hex. pose proof (calc_value_score_shape group) as H.
  destruct (calc_value_score group) as [q|scores]; [|eauto].
  exfalso. destruct H as (_ & _ & Hall).
  apply List.Exists_exists in Hex as (r & Hr & Hpos).
  rewrite List.Forall_forall in Hall.
  destruct (Hall r Hr) as (H1 & H2 & H3).
  destruct Hpos as [Hp|[Hp|Hp]]; lra.
Qed.

Lemma calc_value_score_range_witness :
  (exists q,
      calc_value_score
        [ {| v_pendapatan := 0; v_masa_berlangganan := 0;
             v_bandwidth_mbps := 0 |};
          {| v_pendapatan := 0; v_masa_berlangganan := 0;
             v_bandwidth_mbps := 0 |} ] = Scalar q
      /\ (q == 0)%Q)
  /\ (exists scores,
        calc_value_score
          [ {| v_pendapatan := 500; v_masa_berlangganan := 12;
               v_bandwidth_mbps := 20 |};
            {| v_pendapatan := 100; v_masa_berlangganan := 36;
               v_bandwidth_mbps := 0 |} ] = Column scores).
Proof.
  split.
  - apply (calc_value_score_range
             [ {| v_pendapatan := 0; v_masa_berlangganan := 0;
                  v_bandwidth_mbps := 0 |};
               {| v_pendapatan := 0; v_masa_berlangganan := 0;
                  v_bandwidth_mbps := 0 |} ]); [discriminate|].
    repeat (constructor; [repeat split; apply Qle_refl|]). constructor.
  - apply (calc_value_score_range
             [ {| v_pendapatan := 500; v_masa_berlangganan := 12;
                  v_bandwidth_mbps := 20 |};
               {| v_pendapatan := 100; v_masa_berlangganan := 36;
                  v_bandwidth_mbps := 0 |} ]).
    apply List.Exists_exists. eexists. split; [left; reflexivity|].
    left. reflexivity.
Defined.

Lemma quantile_le_upper q l hi :
  (0 <= q <= 1)%Q -> l <> [] ->
  (forall x, In x l -> (x <= hi)%Q) ->
  exists v, Series.quantile q l = Some v /\ (v <= hi)%Q.
Proof.
  intros Hq Hne Hb. unfold Series.quantile.
  destruct l as [|x0 l0] eqn:El; [congruence|]. rewrite <- El in *.
  assert (Hlen : (0 < length l)%nat) by (rewrite El; simpl; lia).
  cbv zeta.
  set (pos := (q * inject_Z (Z.of_nat (length l) - 1))%Q).
  set (k := Qfloor pos).
  eexists. split; [reflexivity|].
  assert (Hn1 : (0 <= inject_Z (Z.of_nat (length l) - 1))%Q).
  { change 0%Q with (inject_Z 0). rewrite <- Zle_Qle. lia. }
  assert (Hpos0 : (0 <= pos)%Q) by (unfold pos; nra).
  assert (Hpos1 : (pos <= inject_Z (Z.of_nat (length l) - 1))%Q)
    by (unfold pos; nra).
  assert (Hk0 : (0 <= k)%Z).
  { unfold k. change 0%Z with (Qfloor 0). apply Qfloor_resp_le, Hpos0. }
  assert (Hk1 : (k <= Z.of_nat (length l) - 1)%Z).
  { unfold k. rewrite <- (Qfloor_Z (Z.of_nat (length l) - 1)).
    apply Qfloor_resp_le, Hpos1. }
  assert (Hf0 : (0 <= pos - inject_Z k)%Q).
  { pose proof (Qfloor_le pos) as H. fold k in H. lra. }
  assert (Hf1 : (pos - inject_Z k <= 1)%Q).
  { pose proof (Qlt_floor pos) as H. fold k in H.
    rewrite inject_Z_plus in H. change (inject_Z 1) with 1%Q in H. lra. }
  assert (Ha : In (nth (Z.to_nat k) (Series.sort l) 0%Q) l)
    by (apply sort_nth_in; lia).
  set (a := nth (Z.to_nat k) (Series.sort l) 0%Q) in *.
  assert (Hbb : (nth (Z.to_nat (k + 1)) (Series.sort l) a <= hi)%Q).
  { destruct (Nat.lt_ge_cases (Z.to_nat (k + 1)) (length l)) as [Hin|Hout].
    - apply Hb, sort_in, nth_In. rewrite sort_length. exact Hin.
    - rewrite nth_overflow by (rewrite sort_length; exact Hout).
      apply Hb, Ha. }
  pose proof (Hb a Ha) as Haa.
  set (b := nth (Z.to_nat (k + 1)) (Series.sort l) a) in *.
  set (f := (pos - inject_Z k)%Q) in *.
  nra.
Qed.

(** X21.  Within a cluster the customer with the largest revenue is always
    flagged high value and never flagged low revenue, so every cluster
    has a high-value customer; where all customers of the cluster have
    the same revenue, each of them is high value and none is low
    revenue. *)
Theorem percentile_flags column x :
  In x column ->
  (forall y, In y column -> (y <= x)%Q) ->
  high_value_flag column x = 1
  /\ low_revenue_flag column x = 0
  /\ In 1 (high_value_flags column)
  /\ ((forall y, In y column -> (y == x)%Q) ->
      Forall (fun flag => flag = 1) (high_value_flags column)
      /\ Forall (fun flag => flag = 0) (low_revenue_flags column)).
Proof.
  intros Hx Hmax.
  assert (Hne : column <> []) by (intros ->; inversion Hx).
  destruct (quantile_le_upper 0.75 column x) as (q75 & E75 & H75);
    [lra|exact Hne|exact Hmax|].
  destruct (quantile_le_upper 0.25 column x) as (q25 & E25 & H25);
    [lra|exact Hne|exact Hmax|].
  assert (Hhigh : forall y, (x <= y)%Q -> high_value_flag column y = 1).
  { intros y Hy. unfold high_value_flag. rewrite E75. simpl.
    replace (Qle_bool q75 y) with true; [reflexivity|].
    symmetry. apply Qle_bool_iff. lra. }
  assert (Hlow : forall y, (x <= y)%Q -> low_revenue_flag column y = 0).
  { intros y Hy. unfold low_revenue_flag. rewrite E25.
    replace (Qlt_bool y q25) with false; [reflexivity|].
    symmetry. apply Qlt_bool_false_iff. lra. }
  split; [apply Hhigh; lra|]. split; [apply Hlow; lra|]. split.
  - unfold high_value_flags. apply in_map_iff. exists x.
    split; [apply Hhigh; lra|exact Hx].
  - intros Hsame. split; apply List.Forall_forall;
      intros flag (y & <- & Hy)%in_map_iff;
      [apply Hhigh|apply Hlow]; rewrite (Hsame y Hy); lra.
Qed.

Lemma percentile_flags_witness :
  high_value_flags [100; 400; 250; 400]%Q = [0; 1; 0; 1]
  /\ high_value_flag [100; 400; 250; 400]%Q 400 = 1.
Proof.
  split; [reflexivity|].
  apply (percentile_flags [100; 400; 250; 400]%Q 400).
  - simpl. tauto.
  - intros y Hy. simpl in Hy.
    destruct Hy as [<-|[<-|[<-|[<-|[]]]]]; apply Qle_bool_iff; reflexivity.
Defined.

End ValueScore.

(** ** The NBO engine v3.0 *)

Section FallbackScores.
Import V30 NBO.

Lemma classify_customer_sniper cluster_thresholds r :
  fst (classify_customer cluster_thresholds r) = " CORPORATE SNIPER"
  <-> bandwidth_cluster r = "CORPORATE"
      /\ ge_float (pendapatan r)
           (get_or_zero cluster_thresholds "CORPORATE" median_pendapatan)
         = false
      /\ ge_float (bandwidth_mbps r)
           (get_or_zero cluster_thresholds "CORPORATE" median_bandwidth)
         = true.
Proof.
  unfold classify_customer.
  destruct (String.eqb_spec (bandwidth_cluster r) "NO_BANDWIDTH") as [E|_].
  { rewrite E. destruct (ge_float _ _); simpl;
      split; [discriminate|intros [? _]; discriminate
             |discriminate|intros [? _]; discriminate]. }
  destruct (String.eqb_spec (bandwidth_cluster r) "ATM_IOT") as [E|_].
  { rewrite E. simpl. split; [discriminate|intros [? _]; discriminate]. }
  destruct (String.eqb_spec (bandwidth_cluster r) "UMKM_SMALL") as [E|_].
  { rewrite E. destruct (ge_float _ _); simpl;
      split; [discriminate|intros [? _]; discriminate
             |discriminate|intros [? _]; discriminate]. }
  destruct (String.eqb_spec (bandwidth_cluster r) "CORPORATE") as [E|NE].
  { rewrite E. cbv zeta.
    destruct (ge_float (pendapatan r) _), (ge_float (bandwidth_mbps r) _);
      simpl; split; try discriminate; try (intros (_ & ? & ?); discriminate);
      auto. }
  destruct (String.eqb_spec (bandwidth_cluster r) "ENTERPRISE") as [E|_].
  { rewrite E. destruct (ge_float _ _); simpl;
      split; [discriminate|intros [? _]; discriminate
             |discriminate|intros [? _]; discriminate]. }
  simpl. split; [discriminate|intros [? _]; contradiction].
Qed.

Lemma fallback_skor_upsell_classified cluster_thresholds r :
  let kuadran := fst (classify_customer cluster_thresholds r) in
  (kuadran = " CORPORATE SNIPER" /\ fallback_skor_upsell kuadran = 0.8%Q)
  \/ (kuadran = "[TARGET] CORPORATE RISIKO"
      /\ fallback_skor_upsell kuadran = 0.3%Q)
  \/ (kuadran <> " CORPORATE SNIPER"
      /\ kuadran <> "[TARGET] CORPORATE RISIKO"
      /\ fallback_skor_upsell kuadran = 0.1%Q).
Proof.
  cbv zeta. unfold classify_customer.
  repeat match goal with
         | |- context [if ?b then _ else _] => destruct b
         end; cbn [fst];
    first [ left; split; reflexivity
          | right; left; split; reflexivity
          | right; right;
            split; [discriminate|split; [discriminate|reflexivity]] ].
Qed.

(** X22.  Without a trained upsell model the priority of a customer depends on
    the quadrant alone: it is Tinggi for the quadrant CORPORATE SNIPER
    (a corporate customer below the cluster's median revenue and at or
    above its median bandwidth) and Rendah for every other customer, also
    for CORPORATE RISIKO, whose score 0.3 is the upper end of the lowest
    bin; no customer has priority Sedang or none.  Only CORPORATE SNIPER
    customers have a revenue potential, 30 % of the predicted value. *)
Theorem fallback_priority_is_sniper_only clv df r p :
  In (r, p) (generate_predictions None clv df) ->
  (p_prioritas p = Some "Tinggi" <-> p_kuadran p = " CORPORATE SNIPER")
  /\ (p_prioritas p <> Some "Tinggi" -> p_prioritas p = Some "Rendah")
  /\ (p_kuadran p = "[TARGET] CORPORATE RISIKO" ->
      p_skor_upsell p = 0.3%Q /\ p_prioritas p = Some "Rendah")
  /\ p_potensi_revenue p
     = (if String.eqb (p_kuadran p) " CORPORATE SNIPER"
        then (clv r * 0.3)%Q else 0%Q)
  /\ (p_kuadran p = " CORPORATE SNIPER"
      <-> bandwidth_cluster r = "CORPORATE"
          /\ ge_float (pendapatan r)
               (get_or_zero (per_cluster_thresholds df) "CORPORATE"
                  median_pendapatan) = false
          /\ ge_float (bandwidth_mbps r)
               (get_or_zero (per_cluster_thresholds df) "CORPORATE"
                  median_bandwidth) = true).
Proof.
  unfold generate_predictions, create_strategic_matrices.
  rewrite map_map. intros (r0 & E & Hin)%in_map_iff.
  pose proof (classify_customer_sniper (per_cluster_thresholds df) r0)
    as Hsniper.
  pose proof (fallback_skor_upsell_classified (per_cluster_thresholds df) r0)
    as Hscore.
  cbv zeta in Hscore.
  destruct (classify_customer (per_cluster_thresholds df) r0)
    as [kuadran strategi].
  cbn [fst] in Hsniper, Hscore. injection E as <- <-.
  cbn [p_kuadran p_skor_upsell p_prioritas p_potensi_revenue skor_upsell].
  split; [|split; [|split; [|split; [|exact Hsniper]]]];
    destruct Hscore as [[-> ->]|[[-> ->]|(Hn1 & Hn2 & ->)]];
    try (split; intros H; first [reflexivity | discriminate | tauto
                                | exfalso; revert H; vm_compute; congruence]);
    try (intros H; first [reflexivity | discriminate | tauto
                         | exfalso; apply H; reflexivity
                         | exfalso; revert H; vm_compute; congruence]);
    try reflexivity.
  destruct (String.eqb_spec kuadran " CORPORATE SNIPER");
    [contradiction|reflexivity].
Qed.

Lemma fallback_priority_is_sniper_only_witness :
  Forall (fun rp => p_prioritas (snd rp) <> Some "Sedang")
    (generate_predictions None (fun r => pendapatan r) v30_frame).
Proof.
  apply List.Forall_forall. intros [r p] Hin. cbn [snd].
  destruct (fallback_priority_is_sniper_only _ _ _ _ Hin) as (_ & H & _).
  intros E. rewrite H in E; [discriminate|]. rewrite E. discriminate.
Defined.

End FallbackScores.

Section ClusterScores.

(** X23.  [calc_value_score] of the NBO engine always gives one score per
    customer of the cluster.  When no revenue is negative the scores do
    not exceed 1, and they are not negative when tenure and bandwidth are
    not negative either; in a cluster whose largest revenue is 0 every
    score is 0, whatever the tenure and the bandwidth. *)
Theorem nbo_calc_value_score_range group :
  exists scores,
    NBO.calc_value_score group = Column scores
    /\ length scores = length group
    /\ (Forall (fun r => (0 <= v_pendapatan r)%Q) group ->
        Forall (fun v => (v <= 1)%Q) scores
        /\ (Forall (fun r => (0 <= v_masa_berlangganan r)%Q
                             /\ (0 <= v_bandwidth_mbps r)%Q) group ->
            Forall (fun v => (0 <= v)%Q) scores))
    /\ (forall m, series_max (map v_pendapatan group) = Some m ->
        (m == 0)%Q -> scores = map (fun _ => 0%Q) group).
Proof.
  unfold NBO.calc_value_score. destruct group as [|g0 rest] eqn:E.
  { exists []. repeat split; constructor. }
  rewrite <- E. assert (Hne : group <> []) by (rewrite E; discriminate).
  clear E g0 rest.
  destruct (series_max (map v_pendapatan group)) as [m|] eqn:Em.
  2:{ exists (map (fun _ => 0%Q) group). split; [reflexivity|].
      split; [apply length_map|]. split; [|reflexivity].
      intros _. split; [|intros _]; apply List.Forall_forall;
        intros v (r & <- & _)%in_map_iff; lra. }
  destruct (Qeq_bool m 0) eqn:Ez.
  { exists (map (fun _ => 0%Q) group). split; [reflexivity|].
    split; [apply length_map|]. split; [|reflexivity].
    intros _. split; [|intros _]; apply List.Forall_forall;
      intros v (r & <- & _)%in_map_iff; lra. }
  apply Qeq_bool_false in Ez.
  set (p := Column (map (fun x => (x / m)%Q) (map v_pendapatan group))).
  set (t := normalise (map v_masa_berlangganan group)).
  set (b := normalise (map v_bandwidth_mbps group)).
  set (n := length group).
  assert (Hcol : is_column
                   (add (add (scale p 0.5) (scale t 0.3)) (scale b 0.2))
                 = true) by (rewrite !is_column_add; reflexivity).
  assert (Hup : Forall (fun r => (0 <= v_pendapatan r)%Q) group ->
                all_in (fun v => (v <= 1)%Q) n
                  (add (add (scale p 0.5) (scale t 0.3)) (scale b 0.2))).
  { intros Hnn. rewrite List.Forall_forall in Hnn.
    assert (Hm : (0 < m)%Q).
    { pose proof (series_max_member _ _ Em) as (r & <- & Hr)%in_map_iff.
      pose proof (Hnn r Hr). lra. }
    apply all_in_add
      with (P := fun v => (v <= 0.8)%Q) (P' := fun v => (v <= 0.2)%Q);
      [intros; lra| |].
    - apply all_in_add
        with (P := fun v => (v <= 0.5)%Q) (P' := fun v => (v <= 0.3)%Q);
        [intros; lra| |].
      + apply all_in_scale with (P := fun v => (v <= 1)%Q); [intros; lra|].
        unfold p. simpl. split; [rewrite !length_map; reflexivity|].
        apply List.Forall_forall. intros v (x & <- & Hx)%in_map_iff.
        apply Qle_shift_div_r; [exact Hm|].
        pose proof (series_max_ge _ m x Em Hx). lra.
      + apply all_in_scale with (P := fun v => (v <= 1)%Q); [intros; lra|].
        unfold n. rewrite <- (length_map v_masa_berlangganan).
        apply normalise_upper.
    - apply all_in_scale with (P := fun v => (v <= 1)%Q); [intros; lra|].
      unfold n. rewrite <- (length_map v_bandwidth_mbps).
      apply normalise_upper. }
  assert (Hlow : Forall (fun r => (0 <= v_pendapatan r)%Q) group ->
                 Forall (fun r => (0 <= v_masa_berlangganan r)%Q
                                  /\ (0 <= v_bandwidth_mbps r)%Q) group ->
                 all_in (fun v => (0 <= v)%Q) n
                   (add (add (scale p 0.5) (scale t 0.3)) (scale b 0.2))).
  { intros Hnn Hnn'. rewrite List.Forall_forall in Hnn, Hnn'.
    assert (Hm : (0 < m)%Q).
    { pose proof (series_max_member _ _ Em) as (r & <- & Hr)%in_map_iff.
      pose proof (Hnn r Hr). lra. }
    assert (Hc : forall f : value_row -> Q,
               (forall r, In r group -> (0 <= f r)%Q) ->
               all_in (fun v => (0 <= v)%Q) n (normalise (map f group))).
    { intros f Hf. unfold n. rewrite <- (length_map f).
      apply normalise_lower, List.Forall_forall.
      intros x (r & <- & Hr)%in_map_iff. apply Hf, Hr. }
    apply all_in_add
      with (P := fun v => (0 <= v)%Q) (P' := fun v => (0 <= v)%Q);
      [intros; lra| |].
    - apply all_in_add
        with (P := fun v => (0 <= v)%Q) (P' := fun v => (0 <= v)%Q);
        [intros; lra| |].
      + apply all_in_scale with (P := fun v => (0 <= v)%Q); [intros; lra|].
        unfold p. simpl. split; [rewrite !length_map; reflexivity|].
        apply List.Forall_forall.
        intros v (x & <- & (r & <- & Hr)%in_map_iff)%in_map_iff.
        apply Qle_shift_div_l; [exact Hm|]. pose proof (Hnn r Hr). lra.
      + apply all_in_scale with (P := fun v => (0 <= v)%Q); [intros; lra|].
        apply Hc. intros r Hr. apply (Hnn' r Hr).
    - apply all_in_scale with (P := fun v => (0 <= v)%Q); [intros; lra|].
      apply Hc. intros r Hr. apply (Hnn' r Hr). }
  assert (Hlen : all_in (fun _ => True) n
                   (add (add (scale p 0.5) (scale t 0.3)) (scale b 0.2))).
  { assert (Hc : forall f : value_row -> Q,
               all_in (fun _ => True) n (normalise (map f group))).
    { intros f. unfold normalise.
      destruct (series_max (map f group)) as [mf|]; simpl; [|exact I].
      destruct (Qlt_bool 0 mf); simpl; [|exact I].
      split; [unfold n; rewrite !length_map; reflexivity|].
      apply List.Forall_forall. intros; exact I. }
    apply all_in_add with (P := fun _ => True) (P' := fun _ => True);
      [intros; exact I| |].
    - apply all_in_add with (P := fun _ => True) (P' := fun _ => True);
        [intros; exact I| |];
        apply all_in_scale with (P := fun _ => True); try (intros; exact I);
        [|apply Hc].
      unfold p. simpl. split; [unfold n; rewrite !length_map; reflexivity|].
      apply List.Forall_forall. intros; exact I.
    - apply all_in_scale with (P := fun _ => True); [intros; exact I|].
      apply Hc. }
  destruct (add (add (scale p 0.5) (scale t 0.3)) (scale b 0.2))
    as [q|scores]; [discriminate|].
  exists scores. split; [reflexivity|].
  split; [exact (proj1 Hlen)|]. split.
  - intros Hnn. split; [exact (proj2 (Hup Hnn))|].
    intros Hnn'. exact (proj2 (Hlow Hnn Hnn')).
  - intros m' [= <-] Hz. exfalso. apply Ez, Hz.
Qed.

Lemma nbo_calc_value_score_range_witness :
  exists scores,
    NBO.calc_value_score
      [ {| v_pendapatan := 0; v_masa_berlangganan := 12;
           v_bandwidth_mbps := 20 |};
        {| v_pendapatan := 0; v_masa_berlangganan := 36;
           v_bandwidth_mbps := 50 |} ] = Column scores
    /\ scores = [0; 0]%Q.
Proof.
  destruct (nbo_calc_value_score_range
    [ {| v_pendapatan := 0; v_masa_berlangganan := 12;
         v_bandwidth_mbps := 20 |};
      {| v_pendapatan := 0; v_masa_berlangganan := 36;
         v_bandwidth_mbps := 50 |} ]) as (scores & E & _ & _ & H).
  exists scores. split; [exact E|]. apply (H 0%Q); reflexivity.
Defined.

End ClusterScores.

(** ** Tier roadmap and cross-sell by tier *)

Section Roadmap.
Import TierRoadmap.

Lemma roadmap_cases_of current_tier :
  In current_tier (map fst TIER_ROADMAP)
  \/ get_recommendation current_tier
     = {| next := None; priority := "UNKNOWN"; action := "Analyze Further" |}.
Proof.
  unfold get_recommendation, TIER_ROADMAP; cbn [dict_get].
  repeat match goal with
         | |- context [String.eqb current_tier ?k] =>
             destruct (String.eqb_spec current_tier k) as [E|?];
             [left; rewrite E; cbn; tauto|]
         end.
  right. reflexivity.
Qed.

(** X24.  Following the roadmap from any tier ends after at most three steps,
    and it never ends in the full portfolio: no tier has "ALL NOMENKLATUR"
    as its next tier, so the priority RETENTION is given to the customers
    that start there and to no other; a path that leaves its first tier
    ends in a tier the roadmap does not know, with priority UNKNOWN and
    the action "Analyze Further".  A tier outside the roadmap gets no
    tier offer. *)
Theorem roadmap_never_reaches_full_portfolio current_tier :
  follow 4 current_tier = None
  /\ (forall n, (0 < n)%nat ->
        follow n current_tier <> Some "ALL NOMENKLATUR")
  /\ (priority (get_recommendation current_tier) = "RETENTION"
      <-> current_tier = "ALL NOMENKLATUR")
  /\ (forall n last,
        (0 < n)%nat -> follow n current_tier = Some last ->
        next (get_recommendation last) = None ->
        priority (get_recommendation last) = "UNKNOWN"
        /\ action (get_recommendation last) = "Analyze Further")
  /\ (~ In current_tier (map fst TIER_ROADMAP) -> tier_nbo current_tier = []).
Proof.
  destruct (roadmap_cases_of current_tier) as [Hin|Hunknown].
  - cbn in Hin.
    repeat (destruct Hin as [<-|Hin]; [|]); [..|destruct Hin].
    all: split; [vm_compute; reflexivity|].
    all: split;
      [intros [|[|[|[|n]]]] Hn; try lia; vm_compute; congruence|].
    all: split; [vm_compute; split; congruence|].
    all: split;
      [intros [|[|[|[|n]]]] last Hn; try lia; vm_compute;
       intros E; inversion E; subst; vm_compute; try congruence; auto|].
    all: intros Hout; exfalso; apply Hout; cbn; tauto.
  - assert (Hf : forall n, (0 < n)%nat -> follow n current_tier = None).
    { intros [|n] Hn; [lia|]. cbn [follow]. rewrite Hunknown. reflexivity. }
    split; [apply Hf; lia|].
    split; [intros n Hn; rewrite (Hf n Hn); discriminate|].
    split.
    + rewrite Hunknown. cbn. split; [discriminate|].
      intros ->. vm_compute in Hunknown. discriminate.
    + split.
      * intros n last Hn E. rewrite (Hf n Hn) in E. discriminate.
      * intros _. unfold tier_nbo. rewrite Hunknown. reflexivity.
Qed.

Lemma roadmap_never_reaches_full_portfolio_witness :
  follow 3 "DI Only" = Some "DI-GE-SDS-TS"
  /\ priority (get_recommendation "DI-GE-SDS-TS") = "UNKNOWN".
Proof.
  split; [reflexivity|].
  destruct (roadmap_never_reaches_full_portfolio "DI Only")
    as (_ & _ & _ & H & _).
  apply (H 3%nat "DI-GE-SDS-TS"); [lia|reflexivity|reflexivity].
Defined.

End Roadmap.

Section CrossSell.
Import ProductCatalog.

Lemma categorize_step_family tier_products row :
  categorize_step tier_products row
  = match family row with
    | Some code => append_product tier_products code (Produk row)
    | None => tier_products
    end.
Proof.
  unfold categorize_step, family. cbv zeta.
  repeat match goal with
         | |- context [if ?b then _ else _] => destruct b
         end; reflexivity.
Qed.

Lemma products_of_append tier_products code produk code' p :
  In p (products_of (append_product tier_products code produk) code') ->
  In p (products_of tier_products code') \/ (code' = code /\ p = produk).
Proof.
  unfold append_product, products_of.
  destruct (decide (code = code')) as [->|Hne].
  - rewrite lookup_insert_eq. cbn [default].
    intros [H|[<-|[]]]%in_app_iff; [left; exact H|right; auto].
  - rewrite lookup_insert_ne by exact Hne. auto.
Qed.

Lemma products_of_empty code p :
  ~ In p (products_of empty_tier_products code).
Proof.
  unfold products_of, empty_tier_products.
  repeat match goal with
         | |- context [<[?k := _]> _ !! code] =>
             destruct (decide (k = code)) as [<-|?];
             [rewrite lookup_insert_eq; cbn; tauto
             |rewrite lookup_insert_ne by assumption]
         end.
  rewrite lookup_empty. cbn. tauto.
Qed.

Lemma categorize_from df_catalog : forall tier_products code p,
  In p (products_of (foldl categorize_step tier_products df_catalog) code) ->
  In p (products_of tier_products code)
  \/ exists row, In row df_catalog /\ Produk row = p
                 /\ family row = Some code.
Proof.
  induction df_catalog as [|row rows IH]; intros tp code p; cbn [foldl].
  - auto.
  - intros [H|(row' & Hin & Hp & Hf)]%IH.
    + rewrite categorize_step_family in H.
      destruct (family row) as [c|] eqn:Ef; [|left; exact H].
      apply products_of_append in H as [H|[-> ->]]; [left; exact H|].
      right. exists row. split; [left; reflexivity|]. split; auto.
    + right. exists row'. split; [right; exact Hin|]. split; auto.
Qed.

Lemma categorize_by_tier_members df_catalog code p :
  In p (products_of (categorize_by_tier df_catalog) code) ->
  exists row, In row df_catalog /\ Produk row = p /\ family row = Some code.
Proof.
  intros [H|H]%categorize_from; [|exact H].
  exfalso. exact (products_of_empty code p H).
Qed.

Lemma firstn_In {A : Type} n (l : list A) x : In x (firstn n l) -> In x l.
Proof.
  revert l. induction n as [|n IH]; intros [|y l]; simpl; try tauto.
  intros [->|H]; [left; reflexivity|right; apply IH, H].
Qed.

(** X25.  What [get_cross_sell_by_tier] offers: at most five products, each
    from one of the families TS, SDS and GE whose code does not occur in
    the customer's tier, so never a product filed under DI; with the
    families built from a catalog, each offer is the product of a catalog
    row of such a family.  A customer whose tier names none of DI, TS and
    SDS gets no offer, and neither does one whose tier names TS, SDS and
    GE. *)
Theorem cross_sell_offers_missing_families tier_products current_tier segmen :
  let offers := get_cross_sell_by_tier tier_products current_tier segmen in
  (length offers <= 5)%nat
  /\ Forall (fun p =>
               exists code,
                 In code ["TS"; "SDS"; "GE"]
                 /\ Py.contains code current_tier = false
                 /\ In p (products_of tier_products code)) offers
  /\ (Py.contains "TS" current_tier = false ->
      Py.contains "SDS" current_tier = false ->
      Py.contains "DI" current_tier = false -> offers = [])
  /\ (Py.contains "TS" current_tier = true ->
      Py.contains "SDS" current_tier = true ->
      Py.contains "GE" current_tier = true -> offers = [])
  /\ (forall df_catalog,
        tier_products = categorize_by_tier df_catalog ->
        Forall (fun p =>
                  exists row code,
                    In row df_catalog /\ Produk row = p
                    /\ family row = Some code /\ code <> "DI"
                    /\ Py.contains code current_tier = false) offers).
Proof.
  cbv zeta. unfold get_cross_sell_by_tier. cbv zeta.
  set (r1 := if negb (Py.contains "TS" current_tier) && _ then _ else _).
  set (r2 := if negb (Py.contains "SDS" current_tier) && _ && _
             then _ else _).
  set (r3 := if negb (Py.contains "GE" current_tier) && _ then _ else _).
  assert (Hall : Forall (fun p =>
               exists code,
                 In code ["TS"; "SDS"; "GE"]
                 /\ Py.contains code current_tier = false
                 /\ In p (products_of tier_products code))
            (r1 ++ r2 ++ r3)%list).
  { apply List.Forall_forall. intros p Hp.
    apply in_app_iff in Hp as [Hp|Hp]; [|apply in_app_iff in Hp as [Hp|Hp]].
    - unfold r1 in Hp. destruct (Py.contains "TS" current_tier) eqn:E;
        [destruct Hp|]. cbn [negb andb] in Hp.
      destruct (Py.contains "DI" current_tier); [|destruct Hp].
      exists "TS". split; [cbn; tauto|]. split; [exact E|].
      apply firstn_In in Hp. exact Hp.
    - unfold r2 in Hp. destruct (Py.contains "SDS" current_tier) eqn:E;
        [destruct Hp|]. cbn [negb andb] in Hp.
      destruct (Py.contains "DI" current_tier && Py.contains "TS" current_tier);
        [|destruct Hp].
      exists "SDS". split; [cbn; tauto|]. split; [exact E|].
      apply firstn_In in Hp. exact Hp.
    - unfold r3 in Hp. destruct (Py.contains "GE" current_tier) eqn:E;
        [destruct Hp|]. cbn [negb andb] in Hp.
      destruct (Py.contains "SDS" current_tier || Py.contains "TS" current_tier);
        [|destruct Hp].
      exists "GE". split; [cbn; tauto|]. split; [exact E|].
      apply firstn_In in Hp. exact Hp. }
  set (recs := (r1 ++ r2 ++ r3)%list) in *.
  set (final := if String.eqb segmen "GOVERNMENT" then _ else recs).
  assert (Hfinal : Forall (fun p =>
               exists code,
                 In code ["TS"; "SDS"; "GE"]
                 /\ Py.contains code current_tier = false
                 /\ In p (products_of tier_products code)) final
            /\ (recs = [] -> final = [])).
  { unfold final. destruct (String.eqb segmen "GOVERNMENT"); [|auto].
    destruct (List.filter _ recs) as [|g gs] eqn:Eg; [auto|]. split.
    - rewrite <- Eg. apply Forall_app. split; [|exact Hall].
      apply List.Forall_forall. intros p Hp%filter_In.
      rewrite List.Forall_forall in Hall. apply Hall, Hp.
    - intros E. rewrite E in Eg. discriminate. }
  destruct Hfinal as [Hfin Hnil].
  assert (Hoffers : Forall (fun p =>
               exists code,
                 In code ["TS"; "SDS"; "GE"]
                 /\ Py.contains code current_tier = false
                 /\ In p (products_of tier_products code))
            (firstn 5 final)).
  { apply List.Forall_forall. intros p Hp%firstn_In.
    rewrite List.Forall_forall in Hfin. apply Hfin, Hp. }
  split; [apply firstn_le_length|]. split; [exact Hoffers|].
  split; [|split].
  - intros Hts Hsds Hdi. rewrite Hnil; [reflexivity|].
    unfold recs, r1, r2, r3. rewrite Hts, Hsds, Hdi.
    destruct (Py.contains "GE" current_tier); reflexivity.
  - intros Hts Hsds Hge. rewrite Hnil; [reflexivity|].
    unfold recs, r1, r2, r3. rewrite Hts, Hsds, Hge.
    destruct (Py.contains "DI" current_tier); reflexivity.
  - intros df_catalog ->. apply List.Forall_forall. intros p Hp.
    rewrite List.Forall_forall in Hoffers.
    destruct (Hoffers p Hp) as (code & Hcode & Hc & Hin).
    apply categorize_by_tier_members in Hin as (row & Hrow & Hprod & Hfam).
    exists row, code. repeat split; try assumption.
    cbn in Hcode. intros ->. intuition discriminate.
Qed.

Lemma cross_sell_offers_missing_families_witness :
  get_cross_sell_by_tier (categorize_by_tier nbo_catalog)
    "GE Only" "GOVERNMENT" = []
  /\ get_cross_sell_by_tier (categorize_by_tier nbo_catalog)
       "DI Only" "BUSINESS" = ["Managed Security"].
Proof.
  split; [|reflexivity].
  destruct (cross_sell_offers_missing_families
              (categorize_by_tier nbo_catalog) "GE Only" "GOVERNMENT")
    as (_ & _ & H & _).
  apply H; reflexivity.
Defined.

End CrossSell.

(** ** Bandwidth texts of the NBO engine *)

Section BandwidthFix.
Import Py PyFacts NBO.

(** *** Rounding to the nearest double *)

Lemma round_half_even_nonneg n d :
  0 <= n -> 0 < d -> 0 <= round_half_even n d.
Proof.
  intros Hn Hd. unfold round_half_even.
  pose proof (Z.div_pos n d Hn Hd).
  repeat match goal with
         | |- context [if ?b then _ else _] => destruct b
         end; lia.
Qed.

Lemma float_round_pos_nonneg n d r :
  float_round_pos n d = Some r -> (0 <= r)%Q.
Proof.
  unfold float_round_pos. cbv zeta.
  set (e := Z.max (binade n d - 52) (-1074)).
  set (m := round_half_even _ _).
  destruct (_ <=? _); [discriminate|]. intros [= <-].
  rewrite Qred_correct.
  assert (Hm : 0 <= m).
  { apply round_half_even_nonneg.
    - apply Z.mul_nonneg_nonneg; [lia|apply Z.pow_nonneg; lia].
    - apply Z.mul_pos_pos; [lia|apply Z.pow_pos_nonneg; lia]. }
  unfold Qle. simpl. rewrite Z.mul_1_r.
  apply Z.mul_nonneg_nonneg; [exact Hm|apply Z.pow_nonneg; lia].
Qed.

Lemma float_round_nonneg q : (0 <= q)%Q -> float_nonneg (float_round q).
Proof.
  intros Hq. unfold float_round. destruct q as [[|n|n] d]; simpl.
  - apply Qle_refl.
  - destruct (float_round_pos n d) as [r|] eqn:E; simpl; [|reflexivity].
    exact (float_round_pos_nonneg n d r E).
  - exfalso. unfold Qle in Hq. simpl in Hq. lia.
Qed.

Lemma Qred_whole z : Qred (z # 1) = z # 1.
Proof.
  pose proof (Qred_correct (z # 1)) as Hc.
  pose proof (gcd_Qred (z # 1)) as Hg.
  destruct (Qred (z # 1)) as [a b]. unfold Qeq in Hc. simpl in Hc, Hg.
  rewrite Z.mul_1_r in Hc. subst a.
  rewrite Z.mul_comm, Z.gcd_comm, Z.gcd_mul_diag_l in Hg by lia.
  assert (b = 1%positive) by lia. subst b. rewrite Z.mul_1_r. reflexivity.
Qed.

(** A whole number below [2^53] is a double. *)
Lemma float_round_whole z :
  0 <= z < 2 ^ 53 -> float_round (z # 1) = Finite (z # 1).
Proof.
  intros [Hz0 Hz1]. unfold float_round. destruct z as [|n|n]; simpl;
    [reflexivity| |lia].
  assert (Hk0 : 0 <= Z.log2 (Zpos n)) by apply Z.log2_nonneg.
  assert (Hk1 : Z.log2 (Zpos n) < 53)
    by (apply Z.log2_lt_pow2; [lia|exact Hz1]).
  pose proof (Z.log2_spec (Zpos n) ltac:(lia)) as [Hlo _].
  assert (Hb : binade n 1 = Z.log2 (Zpos n)).
  { unfold binade. change (Z.log2 1) with 0. rewrite Z.sub_0_r.
    rewrite Z.max_r by lia. rewrite (Z.max_l 0) by lia.
    rewrite Z.pow_0_r, Z.mul_1_r, Z.mul_1_l.
    apply Z.leb_le in Hlo. rewrite Hlo. reflexivity. }
  unfold float_round_pos. rewrite Hb. cbv zeta.
  set (k := Z.log2 (Zpos n)) in *.
  rewrite (Z.max_l (k - 52)) by lia.
  rewrite (Z.max_l 0 (k - 52)) by lia.
  rewrite (Z.max_r 0 (- (k - 52))) by lia.
  rewrite Z.pow_0_r, !Z.mul_1_r.
  set (p := 2 ^ (- (k - 52))).
  assert (Hp : 0 < p) by (apply Z.pow_pos_nonneg; lia).
  assert (Hr : round_half_even (Zpos n * p) 1 = Zpos n * p).
  { unfold round_half_even. rewrite Z.mod_1_r, Z.div_1_r. reflexivity. }
  rewrite Hr.
  assert (Hover : (2 ^ 2098 <=? Zpos n * p * 2 ^ (k - 52 + 1074)) = false).
  { apply Z.leb_gt. unfold p.
    rewrite <- Z.mul_assoc, <- Z.pow_add_r by lia.
    replace (- (k - 52) + (k - 52 + 1074)) with 1074 by lia.
    apply Z.lt_le_trans with (2 ^ 53 * 2 ^ 1074).
    - apply Z.mul_lt_mono_pos_r; [apply Z.pow_pos_nonneg; lia|exact Hz1].
    - rewrite <- Z.pow_add_r by lia. apply Z.pow_le_mono_r; lia. }
  rewrite Hover. f_equal.
  rewrite <- (Qred_whole (Zpos n)). apply Qred_complete.
  unfold Qeq. simpl. rewrite Z2Pos.id by exact Hp. lia.
Qed.

Lemma power_of_ten_pos n : (0 < inject_Z (10 ^ Z.of_nat n))%Q.
Proof.
  change 0%Q with (inject_Z 0). rewrite <- Zlt_Qlt.
  apply Z.pow_pos_nonneg; lia.
Qed.

Lemma float_of_number_nonneg s value :
  float_of_number s = Some value -> float_nonneg value.
Proof.
  unfold float_of_number.
  pose proof (forallb_take_while isdecimal_char s) as Hw.
  set (whole := take_while isdecimal_char s) in *.
  destruct (drop_while isdecimal_char s) as [|c fraction].
  - destruct (String.eqb whole EmptyString); [discriminate|].
    intros [= <-]. apply float_round_nonneg.
    change 0%Q with (inject_Z 0). rewrite <- Zle_Qle.
    apply digits_value_from_nonneg; [lia|exact Hw].
  - destruct (Ascii.eqb c "."); [|discriminate]. cbn [andb].
    destruct (forallb_str isdecimal_char fraction) eqn:Hf; [|discriminate].
    cbn [andb]. destruct (negb _); [|discriminate].
    intros [= <-]. apply float_round_nonneg.
    apply Qle_shift_div_l; [apply power_of_ten_pos|].
    rewrite Qmult_0_l. change 0%Q with (inject_Z 0). rewrite <- Zle_Qle.
    apply digits_value_from_nonneg; [lia|].
    rewrite forallb_str_app, Hw, Hf. reflexivity.
Qed.

Lemma to_mbps_nonneg bw_str value :
  float_nonneg value -> float_nonneg (to_mbps bw_str value).
Proof.
  intros H. unfold to_mbps, float_times, float_over.
  repeat match goal with
         | |- context [if ?b then _ else _] => destruct b
         end; try exact H;
    destruct value as [q|negative]; try exact H; simpl in H;
    apply float_round_nonneg; try lra.
  apply Qle_shift_div_l; lra.
Qed.

Lemma cluster_of_agrees mbps :
  (0 <= mbps)%Q ->
  (cluster_of (Finite mbps) = "NO_BANDWIDTH" /\ (mbps == 0)%Q)
  \/ (cluster_of (Finite mbps) = "ATM_IOT" /\ (0 < mbps < 1)%Q)
  \/ (cluster_of (Finite mbps) = "UMKM_SMALL" /\ (1 <= mbps <= 20)%Q)
  \/ (cluster_of (Finite mbps) = "CORPORATE" /\ (20 < mbps <= 500)%Q)
  \/ (cluster_of (Finite mbps) = "ENTERPRISE" /\ (500 < mbps)%Q).
Proof.
  intros Hnn. unfold cluster_of, float_eqb, float_ltb, float_leb.
  destruct (Qeq_bool mbps 0) eqn:E0.
  { apply Qeq_bool_iff in E0. left. split; [reflexivity|exact E0]. }
  apply Qeq_bool_false in E0.
  destruct (Qlt_bool mbps 1) eqn:E1.
  { apply Qlt_bool_iff in E1. right; left. split; [reflexivity|]. lra. }
  apply Qlt_bool_false_iff in E1.
  destruct (Qle_bool mbps 20) eqn:E20.
  { apply Qle_bool_iff in E20. right; right; left. split; [reflexivity|lra]. }
  assert (H20 : (20 < mbps)%Q).
  { apply Qnot_le_lt. intros H%Qle_bool_iff. congruence. }
  destruct (Qle_bool mbps 500) eqn:E500.
  { apply Qle_bool_iff in E500. right; right; right; left.
    split; [reflexivity|lra]. }
  right; right; right; right. split; [reflexivity|].
  apply Qnot_le_lt. intros H%Qle_bool_iff. congruence.
Qed.

Lemma lower_char_no_decimal c :
  no_decimal c = true -> no_decimal (lower_char c) = true.
Proof.
  destruct c as [[] [] [] [] [] [] [] []]; vm_compute;
    first [reflexivity | discriminate].
Qed.

Lemma lower_no_decimal s :
  forallb_str no_decimal s = true -> forallb_str no_decimal (lower s) = true.
Proof.
  induction s as [|c s IH]; simpl; [reflexivity|].
  intros [Hc Hs]%andb_true_iff.
  rewrite (lower_char_no_decimal c Hc), (IH Hs). reflexivity.
Qed.

Lemma replace_comma_no_decimal s :
  forallb_str no_decimal s = true ->
  forallb_str no_decimal (replace_comma s) = true.
Proof.
  induction s as [|c s IH]; simpl; [reflexivity|].
  intros [Hc Hs]%andb_true_iff. rewrite (IH Hs), andb_true_r.
  destruct (Ascii.eqb c ","); [reflexivity|exact Hc].
Qed.

Lemma forallb_take_while_other p q s :
  forallb_str q s = true -> forallb_str q (take_while p s) = true.
Proof.
  induction s as [|c s IH]; simpl; [reflexivity|].
  intros [Hc Hs]%andb_true_iff. destruct (p c); [|reflexivity].
  simpl. rewrite Hc, (IH Hs). reflexivity.
Qed.

Lemma first_number_chars q s number :
  forallb_str q s = true -> first_number s = Some number ->
  forallb_str q number = true.
Proof.
  revert number. induction s as [|c s IH]; intros number; [discriminate|].
  intros H. pose proof H as [Hc Hs]%andb_true_iff. cbn [first_number].
  destruct (decimal_or_dot c) eqn:Ec; [|exact (IH number Hs)].
  intros [= <-]. apply (forallb_take_while_other decimal_or_dot q _ H).
Qed.

Lemma float_of_number_needs_digit s :
  forallb_str no_decimal s = true -> float_of_number s = None.
Proof.
  intros H. unfold float_of_number.
  destruct s as [|c s]; [reflexivity|].
  pose proof H as [Hc Hs]%andb_true_iff.
  unfold no_decimal in Hc. apply negb_true_iff in Hc.
  cbn [take_while drop_while]. rewrite Hc.
  destruct (Ascii.eqb c "."); [|reflexivity]. cbn [andb].
  destruct s as [|d s]; [reflexivity|].
  pose proof Hs as [Hd _]%andb_true_iff.
  unfold no_decimal in Hd. apply negb_true_iff in Hd.
  cbn [forallb_str]. rewrite Hd. reflexivity.
Qed.

(** X26.  [parse_bandwidth_fix] never gives a negative bandwidth, and the
    cluster it gives always agrees with the bandwidth it gives: 0 Mbps
    with NO_BANDWIDTH or UNKNOWN, below 1 Mbps with ATM_IOT, 1 to 20 with
    UMKM_SMALL, above 20 up to 500 with CORPORATE, above 500 (and the
    infinity of a number beyond the doubles) with ENTERPRISE.  A missing
    cell is (0, NO_BANDWIDTH), and a text without a decimal digit gives
    0 Mbps. *)
Theorem parse_bandwidth_fix_cluster_agrees bw_value :
  let mbps := fst (parse_bandwidth_fix bw_value) in
  let cluster := snd (parse_bandwidth_fix bw_value) in
  match mbps with
  | Finite mbps =>
      (0 <= mbps)%Q
      /\ (((cluster = "NO_BANDWIDTH" \/ cluster = "UNKNOWN") /\ (mbps == 0)%Q)
          \/ (cluster = "ATM_IOT" /\ (0 < mbps < 1)%Q)
          \/ (cluster = "UMKM_SMALL" /\ (1 <= mbps <= 20)%Q)
          \/ (cluster = "CORPORATE" /\ (20 < mbps <= 500)%Q)
          \/ (cluster = "ENTERPRISE" /\ (500 < mbps)%Q))
  | Inf negative => negative = false /\ cluster = "ENTERPRISE"
  end
  /\ (bw_value = NaN ->
      parse_bandwidth_fix bw_value = (Finite 0, "NO_BANDWIDTH"))
  /\ (forall s, bw_value = Str s -> forallb_str no_decimal s = true ->
        mbps = Finite 0
        /\ (cluster = "NO_BANDWIDTH" \/ cluster = "UNKNOWN")).
Proof.
  cbv zeta.
  assert (Hzero : forall tag, tag = "NO_BANDWIDTH" \/ tag = "UNKNOWN" ->
            (0 <= 0)%Q
            /\ (((tag = "NO_BANDWIDTH" \/ tag = "UNKNOWN") /\ (0 == 0)%Q)
                \/ (tag = "ATM_IOT" /\ (0 < 0 < 1)%Q)
                \/ (tag = "UMKM_SMALL" /\ (1 <= 0 <= 20)%Q)
                \/ (tag = "CORPORATE" /\ (20 < 0 <= 500)%Q)
                \/ (tag = "ENTERPRISE" /\ (500 < 0)%Q))).
  { intros tag Htag. split; [lra|]. left. split; [exact Htag|reflexivity]. }
  destruct bw_value as [|s]; cbn [parse_bandwidth_fix].
  { cbn [fst snd]. split; [apply Hzero; auto|]. split; [reflexivity|].
    intros s' [=]. }
  destruct (in_list (lower s) _) eqn:Elist.
  { cbn [fst snd]. split; [apply Hzero; auto|]. split; [discriminate|].
    intros _ _ _. auto. }
  set (bw_str := strip (replace_comma (lower s))).
  destruct (first_number bw_str) as [number|] eqn:Enum.
  2:{ cbn [fst snd]. split; [apply Hzero; auto|]. split; [discriminate|].
      intros _ _ _. auto. }
  destruct (float_of_number number) as [value|] eqn:Eval.
  2:{ cbn [fst snd]. split; [apply Hzero; auto|]. split; [discriminate|].
      intros _ _ _. auto. }
  cbn [fst snd].
  pose proof (to_mbps_nonneg bw_str value (float_of_number_nonneg _ _ Eval))
    as Hnn.
  split.
  - destruct (to_mbps bw_str value) as [mbps|negative]; simpl in Hnn.
    + split; [exact Hnn|].
      destruct (cluster_of_agrees _ Hnn) as [[-> H]|H]; [|right; exact H].
      left. split; [left; reflexivity|exact H].
    + subst negative. split; reflexivity.
  - split; [discriminate|]. intros s' [= <-] Hs. exfalso.
    assert (Hn : forallb_str no_decimal number = true).
    { apply (first_number_chars no_decimal bw_str); [|exact Enum].
      apply forallb_strip, replace_comma_no_decimal, lower_no_decimal, Hs. }
    rewrite (float_of_number_needs_digit number Hn) in Eval. discriminate.
Qed.

Lemma parse_bandwidth_fix_cluster_agrees_witness :
  fst (parse_bandwidth_fix (Str "n/a")) = Finite 0.
Proof.
  destruct (parse_bandwidth_fix_cluster_agrees (Str "n/a"))
    as (_ & _ & H).
  apply (H "n/a"); reflexivity.
Defined.

Lemma lower_app s t : lower (s ++ t)%string = (lower s ++ lower t)%string.
Proof.
  induction s as [|c s IH]; [reflexivity|].
  rewrite app_cons. simpl. rewrite IH. reflexivity.
Qed.

Lemma replace_comma_app s t :
  replace_comma (s ++ t)%string = (replace_comma s ++ replace_comma t)%string.
Proof.
  induction s as [|c s IH]; [reflexivity|].
  rewrite app_cons. simpl. rewrite IH. reflexivity.
Qed.

Lemma number_char_fixed c :
  number_char c = true ->
  lower_char c = c /\ (if Ascii.eqb c "," then "."%char else c) = c.
Proof.
  destruct c as [[] [] [] [] [] [] [] []]; vm_compute;
    first [discriminate | split; reflexivity].
Qed.

Lemma number_text_fixed s :
  forallb_str number_char s = true ->
  lower s = s /\ replace_comma s = s.
Proof.
  induction s as [|c s IH]; simpl; [split; reflexivity|].
  intros [Hc Hs]%andb_true_iff.
  destruct (number_char_fixed c Hc) as [-> ->].
  destruct (IH Hs) as [-> ->]. split; reflexivity.
Qed.

Lemma decimal_number_char s :
  forallb_str isdecimal_char s = true -> forallb_str number_char s = true.
Proof.
  apply forallb_str_weaken. intros c H. unfold number_char, decimal_or_dot.
  rewrite H. reflexivity.
Qed.

Lemma space_number_char s :
  forallb_str isspace_char s = true -> forallb_str number_char s = true.
Proof.
  apply forallb_str_weaken. intros c H. unfold number_char.
  rewrite H. apply orb_true_r.
Qed.

Lemma decimal_or_dot_number_char s :
  forallb_str decimal_or_dot s = true -> forallb_str number_char s = true.
Proof.
  apply forallb_str_weaken. intros c H. unfold number_char.
  rewrite H. reflexivity.
Qed.

(** A pattern whose first character is no number character is not found
    in a prefix of number characters. *)
Lemma contains_skip_number x p a b :
  number_char x = false -> forallb_str number_char a = true ->
  contains (String x p) (a ++ b) = contains (String x p) b.
Proof.
  intros Hx. induction a as [|c a IH]; [reflexivity|].
  intros [Hc Ha]%andb_true_iff. rewrite app_cons.
  cbn [contains startswith]. rewrite (IH Ha).
  destruct (Ascii.eqb_spec x c) as [->|_]; [congruence|reflexivity].
Qed.

Lemma to_mbps_skip_number a u value :
  forallb_str number_char a = true ->
  to_mbps (a ++ u) value = to_mbps u value.
Proof.
  intros Ha. unfold to_mbps.
  rewrite !(contains_skip_number _ _ a u) by (reflexivity || exact Ha).
  reflexivity.
Qed.

Lemma take_while_none p s :
  match s with
  | EmptyString => True
  | String c _ => p c = false
  end -> take_while p s = EmptyString.
Proof. destruct s as [|c s]; [reflexivity|]. simpl. intros ->. reflexivity. Qed.

Lemma first_number_here n rest :
  n <> EmptyString -> forallb_str decimal_or_dot n = true ->
  take_while decimal_or_dot rest = EmptyString ->
  first_number (n ++ rest) = Some n.
Proof.
  destruct n as [|c n]; [congruence|]. intros _ H Hrest.
  pose proof H as [Hc Hn]%andb_true_iff.
  rewrite app_cons. cbn [first_number]. rewrite Hc.
  rewrite <- app_cons, (take_while_app _ _ _ H), Hrest, app_nil_r_str.
  reflexivity.
Qed.

Lemma in_list_decimal_head d rest :
  isdecimal_char d = true ->
  in_list (String d rest) ["tidak ada"; "none"; "nan"; "-"] = false.
Proof.
  destruct d as [[] [] [] [] [] [] [] []]; intros H; vm_compute in H;
    first [discriminate | reflexivity].
Qed.

Lemma float_of_whole ds :
  ds <> EmptyString -> forallb_str isdecimal_char ds = true ->
  float_of_number ds
  = Some (float_round (inject_Z (digits_value_from 0 ds))).
Proof.
  intros Hne Hds. unfold float_of_number.
  pose proof (take_while_app isdecimal_char ds EmptyString Hds) as Ht.
  pose proof (drop_while_app isdecimal_char ds EmptyString Hds) as Hd.
  rewrite app_nil_r_str in Ht, Hd. cbn in Ht, Hd.
  rewrite app_nil_r_str in Ht. rewrite Ht, Hd.
  destruct (String.eqb_spec ds EmptyString); [contradiction|reflexivity].
Qed.

Lemma float_of_decimal ds fs :
  ds <> EmptyString -> forallb_str isdecimal_char ds = true ->
  forallb_str isdecimal_char fs = true ->
  float_of_number (ds ++ String "." fs)
  = Some (float_round
            (inject_Z (digits_value_from 0 (ds ++ fs))
             / inject_Z (10 ^ Z.of_nat (String.length fs)))).
Proof.
  intros Hne Hds Hfs. unfold float_of_number.
  rewrite (take_while_app isdecimal_char ds _ Hds),
          (drop_while_app isdecimal_char ds _ Hds).
  cbn [take_while drop_while].
  change (isdecimal_char ".") with false. cbv iota.
  change (Ascii.eqb "." ".") with true. cbn [andb].
  rewrite app_nil_r_str, Hfs. cbn [andb].
  destruct (String.eqb_spec (ds ++ fs) EmptyString) as [E|_]; [|reflexivity].
  destruct ds; [contradiction|discriminate].
Qed.

Lemma number_head_strip s :
  s <> EmptyString -> forallb_str decimal_or_dot s = true ->
  drop_while isspace_char s = s.
Proof.
  destruct s as [|c s]; [congruence|]. intros _ [Hc _]%andb_true_iff.
  apply drop_while_head. revert Hc.
  destruct c as [[] [] [] [] [] [] [] []]; vm_compute;
    first [reflexivity | discriminate].
Qed.

Lemma space_not_number c : isspace_char c = true -> decimal_or_dot c = false.
Proof.
  destruct c as [[] [] [] [] [] [] [] []]; vm_compute;
    first [reflexivity | discriminate].
Qed.

Lemma number_strip n : 
  n <> EmptyString -> forallb_str decimal_or_dot n = true -> strip n = n.
Proof.
  intros Hne Hn. apply strip_fixed; apply number_head_strip;
    [exact Hne|exact Hn|apply rev_nonempty, Hne|].
  rewrite forallb_rev. exact Hn.
Qed.

Lemma number_unit_strip n ws u :
  n <> EmptyString -> forallb_str decimal_or_dot n = true ->
  In u unit_words -> strip (n ++ ws ++ u) = (n ++ ws ++ u)%string.
Proof.
  intros Hne Hn Hu. apply strip_fixed.
  - destruct n as [|c n]; [congruence|]. rewrite app_cons.
    pose proof Hn as [Hc _]%andb_true_iff.
    apply drop_while_head. revert Hc. clear.
    destruct c as [[] [] [] [] [] [] [] []]; vm_compute;
      first [reflexivity | discriminate].
  - rewrite !rev_app. unfold unit_words in Hu. cbn [In] in Hu.
    repeat (destruct Hu as [<-|Hu]; [cbn [rev rev_append]; rewrite !app_cons;
                                     apply drop_while_head; reflexivity|]).
    destruct Hu.
Qed.

Lemma unit_not_number ws u :
  forallb_str isspace_char ws = true -> In u unit_words ->
  take_while decimal_or_dot (ws ++ u) = EmptyString.
Proof.
  intros Hws Hu. apply take_while_none. destruct ws as [|c ws].
  - rewrite app_nil. unfold unit_words in Hu. cbn [In] in Hu.
    repeat (destruct Hu as [<-|Hu]; [reflexivity|]). destruct Hu.
  - rewrite app_cons. apply space_not_number.
    apply andb_true_iff in Hws as [Hc _]. exact Hc.
Qed.

Lemma unit_fixed u : In u unit_words -> replace_comma u = u.
Proof.
  unfold unit_words. cbn [In]. intros Hu.
  repeat (destruct Hu as [<-|Hu]; [reflexivity|]). destruct Hu.
Qed.

(** A number text followed by blanks and a unit word. *)
Lemma number_unit_parse text n value ws u :
  in_list (lower text) ["tidak ada"; "none"; "nan"; "-"] = false ->
  replace_comma (lower text) = (n ++ ws ++ u)%string ->
  n <> EmptyString -> forallb_str decimal_or_dot n = true ->
  float_of_number n = Some value ->
  forallb_str isspace_char ws = true -> In u unit_words ->
  parse_bandwidth_fix (Str text)
  = (to_mbps u value, cluster_of (to_mbps u value)).
Proof.
  intros Hlist Htext Hne Hn Hval Hws Hu. unfold parse_bandwidth_fix.
  rewrite Hlist, Htext, (number_unit_strip n ws u Hne Hn Hu).
  rewrite (first_number_here n (ws ++ u) Hne Hn (unit_not_number ws u Hws Hu)).
  rewrite Hval. cbv zeta.
  rewrite <- app_assoc_str, to_mbps_skip_number; [reflexivity|].
  rewrite forallb_str_app, (decimal_or_dot_number_char n Hn),
    (space_number_char ws Hws). reflexivity.
Qed.

Lemma number_alone_parse text n value :
  in_list (lower text) ["tidak ada"; "none"; "nan"; "-"] = false ->
  replace_comma (lower text) = n ->
  n <> EmptyString -> forallb_str decimal_or_dot n = true ->
  float_of_number n = Some value ->
  parse_bandwidth_fix (Str text) = (value, cluster_of value).
Proof.
  intros Hlist Htext Hne Hn Hval. unfold parse_bandwidth_fix.
  rewrite Hlist, Htext, (number_strip n Hne Hn).
  pose proof (first_number_here n EmptyString Hne Hn eq_refl) as Hf.
  rewrite app_nil_r_str in Hf. rewrite Hf, Hval. cbv zeta.
  pose proof (to_mbps_skip_number n EmptyString value
                (decimal_or_dot_number_char n Hn)) as Hm.
  rewrite app_nil_r_str in Hm. rewrite Hm. reflexivity.
Qed.

Lemma number_forms ds fs number exact :
  ds <> EmptyString -> forallb_str isdecimal_char ds = true ->
  forallb_str isdecimal_char fs = true ->
  (number = ds /\ exact = inject_Z (digits_value_from 0 ds))
  \/ ((number = (ds ++ String "." fs)%string
       \/ number = (ds ++ String "," fs)%string)
      /\ exact = (inject_Z (digits_value_from 0 (ds ++ fs))
                  / inject_Z (10 ^ Z.of_nat (String.length fs)))%Q) ->
  exists n,
    replace_comma (lower number) = n
    /\ n <> EmptyString /\ forallb_str decimal_or_dot n = true
    /\ float_of_number n = Some (float_round exact)
    /\ exists d rest, lower number = String d rest
                      /\ isdecimal_char d = true.
Proof.
  intros Hne Hds Hfs Hform.
  destruct (number_text_fixed ds (decimal_number_char ds Hds)) as [Hl Hr].
  destruct (number_text_fixed fs (decimal_number_char fs Hfs)) as [Hlf Hrf].
  assert (Hdd : forallb_str decimal_or_dot ds = true).
  { revert Hds. apply forallb_str_weaken. intros c H.
    unfold decimal_or_dot. rewrite H. reflexivity. }
  assert (Hdf : forallb_str decimal_or_dot fs = true).
  { revert Hfs. apply forallb_str_weaken. intros c H.
    unfold decimal_or_dot. rewrite H. reflexivity. }
  assert (Hhead : forall tail, exists d rest,
             (ds ++ tail)%string = String d rest /\ isdecimal_char d = true).
  { intros tail. destruct ds as [|d ds']; [congruence|].
    exists d, (ds' ++ tail)%string. split; [apply app_cons|].
    apply andb_true_iff in Hds as [Hd _]. exact Hd. }
  destruct Hform as [[-> ->]|[[->| ->] ->]].
  - exists ds. rewrite Hl, Hr. split; [reflexivity|]. split; [exact Hne|].
    split; [exact Hdd|]. split; [apply float_of_whole; assumption|].
    destruct (Hhead EmptyString) as (d & rest & E & Hd).
    rewrite app_nil_r_str in E. eauto.
  - exists (ds ++ String "." fs)%string.
    rewrite lower_app, replace_comma_app, Hl, Hr. cbn [lower replace_comma].
    rewrite Hlf, Hrf. change (lower_char ".") with "."%char.
    change (Ascii.eqb "." ",") with false. cbv iota.
    split; [reflexivity|]. split; [destruct ds; [congruence|discriminate]|].
    split; [rewrite forallb_str_app, Hdd; cbn; exact Hdf|].
    split; [apply float_of_decimal; assumption|]. apply Hhead.
  - exists (ds ++ String "." fs)%string.
    rewrite lower_app, replace_comma_app, Hl, Hr. cbn [lower replace_comma].
    rewrite Hlf, Hrf. change (lower_char ",") with ","%char.
    change (Ascii.eqb "," ",") with true. cbv iota.
    split; [reflexivity|]. split; [destruct ds; [congruence|discriminate]|].
    split; [rewrite forallb_str_app, Hdd; cbn; exact Hdf|].
    split; [apply float_of_decimal; assumption|]. apply Hhead.
Qed.

(** X27.  How [parse_bandwidth_fix] reads a number: a whole number, or
    one with a fraction after a dot or a comma, alone or followed by
    blanks and a unit word in any letter case.  The number is read as
    the double nearest to it; Gbps is worth 1000 Mbps, Kbps a thousandth,
    a fibre pair 100 Mbps, each time rounded to the nearest double, and a
    number without unit counts as Mbps; the cluster is that of the
    resulting bandwidth.  For a whole number of Gbps below [2^53] Mbps
    nothing is rounded. *)
Theorem parse_bandwidth_fix_numbers ds fs ws unit number exact :
  ds <> EmptyString -> forallb_str isdecimal_char ds = true ->
  forallb_str isdecimal_char fs = true ->
  forallb_str isspace_char ws = true ->
  (number = ds /\ exact = inject_Z (digits_value_from 0 ds))
  \/ ((number = (ds ++ String "." fs)%string
       \/ number = (ds ++ String "," fs)%string)
      /\ exact = (inject_Z (digits_value_from 0 (ds ++ fs))
                  / inject_Z (10 ^ Z.of_nat (String.length fs)))%Q) ->
  let value := float_round exact in
  parse_bandwidth_fix (Str number) = (value, cluster_of value)
  /\ (lower unit = "gbps" \/ lower unit = "gb" ->
      parse_bandwidth_fix (Str (number ++ ws ++ unit))
      = (float_times value 1000, cluster_of (float_times value 1000)))
  /\ (lower unit = "kbps" \/ lower unit = "kb" ->
      parse_bandwidth_fix (Str (number ++ ws ++ unit))
      = (float_over value 1000, cluster_of (float_over value 1000)))
  /\ (lower unit = "mbps" \/ lower unit = "mb" ->
      parse_bandwidth_fix (Str (number ++ ws ++ unit))
      = (value, cluster_of value))
  /\ (lower unit = "pair" ->
      parse_bandwidth_fix (Str (number ++ ws ++ unit))
      = (float_times value 100, cluster_of (float_times value 100)))
  /\ (number = ds -> digits_value_from 0 ds * 1000 < 2 ^ 53 ->
      value = Finite (inject_Z (digits_value_from 0 ds))
      /\ float_times value 1000
         = Finite (inject_Z (digits_value_from 0 ds * 1000))
      /\ float_times value 100
         = Finite (inject_Z (digits_value_from 0 ds * 100))).
Proof.
  intros Hne Hds Hfs Hws Hform value.
  destruct (number_forms ds fs number exact Hne Hds Hfs Hform)
    as (n & Hn & Hnne & Hnd & Hval & d & rest & Hd & Hdd).
  fold value in Hval.
  assert (Hlist : forall tail,
            in_list (lower (number ++ tail))
              ["tidak ada"; "none"; "nan"; "-"] = false).
  { intros tail. rewrite lower_app, Hd, app_cons.
    apply in_list_decimal_head, Hdd. }
  assert (Hunit : forall u, In u unit_words -> lower unit = u ->
            parse_bandwidth_fix (Str (number ++ ws ++ unit))
            = (to_mbps u value, cluster_of (to_mbps u value))).
  { intros u Hu Hlower.
    apply (number_unit_parse _ n value ws u); try assumption.
    - apply Hlist.
    - rewrite !lower_app, !replace_comma_app, Hn, Hlower, (unit_fixed u Hu).
      destruct (number_text_fixed ws (space_number_char ws Hws)) as [-> ->].
      reflexivity. }
  split.
  { apply (number_alone_parse _ n value); try assumption.
    pose proof (Hlist EmptyString) as H. rewrite app_nil_r_str in H. exact H. }
  split.
  { intros [H|H]; rewrite (fun Hin => Hunit _ Hin H) by (cbn; tauto);
      reflexivity. }
  split.
  { intros [H|H]; rewrite (fun Hin => Hunit _ Hin H) by (cbn; tauto);
      reflexivity. }
  split.
  { intros [H|H]; rewrite (fun Hin => Hunit _ Hin H) by (cbn; tauto);
      reflexivity. }
  split.
  { intros H; rewrite (fun Hin => Hunit _ Hin H) by (cbn; tauto);
      reflexivity. }
  intros Hnum Hsmall.
  pose proof (digits_value_from_nonneg ds 0 ltac:(lia) Hds) as Hv.
  assert (Hexact : exact = inject_Z (digits_value_from 0 ds)).
  { destruct Hform as [[_ E]|[[E|E] _]]; [exact E| |];
      rewrite Hnum in E; exfalso;
      apply (f_equal String.length) in E;
      rewrite length_app in E; simpl in E; lia. }
  set (v := digits_value_from 0 ds) in *.
  assert (Hvalue : value = Finite (inject_Z v)).
  { unfold value. rewrite Hexact. apply float_round_whole. lia. }
  rewrite Hvalue. split; [reflexivity|]. unfold float_times.
  split.
  - change (inject_Z v * 1000)%Q with (inject_Z (v * 1000)).
    apply float_round_whole. lia.
  - change (inject_Z v * 100)%Q with (inject_Z (v * 100)).
    apply float_round_whole. lia.
Qed.

Lemma parse_bandwidth_fix_numbers_witness :
  parse_bandwidth_fix (Str "1,5 Gbps") = (Finite 1500, "ENTERPRISE")
  /\ parse_bandwidth_fix (Str "512 KBPS")
     = (Finite (1152921504606847 # 2251799813685248), "ATM_IOT")
  /\ parse_bandwidth_fix (Str "2 PAIR") = (Finite 200, "CORPORATE")
  /\ parse_bandwidth_fix (Str "20.0000000000000001")
     = (Finite 20, "UMKM_SMALL")
  /\ parse_bandwidth_fix (Str "3 gb") = (Finite (inject_Z (3 * 1000)),
                                         "ENTERPRISE").
Proof.
  split; [|split; [|split; [|split]]].
  - destruct (parse_bandwidth_fix_numbers "1" "5" " " "Gbps" "1,5"
                (15 / 10)%Q) as (_ & H & _);
      [discriminate|reflexivity|reflexivity|reflexivity
      |right; split; [right; reflexivity|reflexivity]|].
    etransitivity; [exact (H (or_introl eq_refl))|].
    vm_compute. reflexivity.
  - destruct (parse_bandwidth_fix_numbers "512" "" " " "KBPS" "512" 512%Q)
      as (_ & _ & H & _);
      [discriminate|reflexivity|reflexivity|reflexivity
      |left; split; reflexivity|].
    etransitivity; [exact (H (or_introl eq_refl))|].
    vm_compute. reflexivity.
  - destruct (parse_bandwidth_fix_numbers "2" "" " " "PAIR" "2" 2%Q)
      as (_ & _ & _ & _ & H & _);
      [discriminate|reflexivity|reflexivity|reflexivity
      |left; split; reflexivity|].
    etransitivity; [exact (H eq_refl)|]. vm_compute. reflexivity.
  - destruct (parse_bandwidth_fix_numbers "20" "0000000000000001" "" ""
                "20.0000000000000001"
                (inject_Z 200000000000000001
                 / inject_Z (10 ^ Z.of_nat 16))%Q) as (H & _);
      [discriminate|reflexivity|reflexivity|reflexivity
      |right; split; [left; reflexivity|reflexivity]|].
    etransitivity; [exact H|]. vm_compute. reflexivity.
  - destruct (parse_bandwidth_fix_numbers "3" "" " " "gb" "3" 3%Q)
      as (_ & H & _ & _ & _ & Hexact);
      [discriminate|reflexivity|reflexivity|reflexivity
      |left; split; reflexivity|].
    etransitivity; [exact (H (or_intror eq_refl))|].
    destruct (Hexact eq_refl) as (_ & -> & _); [vm_compute; reflexivity|].
    reflexivity.
Defined.

End BandwidthFix.

(** ** Reasoning texts *)

Section Reasoning.

Lemma join_nonempty sep l :
  l <> [] -> Forall (fun s => s <> EmptyString) l ->
  join sep l <> EmptyString.
Proof.
  destruct l as [|s rest]; [congruence|]. intros _ Hall.
  inversion Hall as [|? ? Hs _]; subst.
  destruct s as [|c s]; [congruence|].
  destruct rest; cbn [join]; [discriminate|].
  rewrite PyFacts.app_cons. discriminate.
Qed.

Lemma arpu_category_known revenue :
  fst (categorize_arpu_realistic revenue) <> "Unknown".
Proof.
  unfold categorize_arpu_realistic. destruct revenue as [r|]; [|discriminate].
  repeat match goal with
         | |- context [if ?b then _ else _] => destruct b
         end; discriminate.
Qed.

Lemma reasons_parts company product cost_category score_factors :
  reasons company product cost_category score_factors
  = (arpu_reason company cost_category
     ++ ip_reason company
     ++ category_reason company product
     ++ compliance_reason company
     ++ tenure_reason company
     ++ complementary_reason score_factors)%list.
Proof. reflexivity. Qed.

Lemma arpu_reason_absent company : arpu_reason company None = [].
Proof.
  unfold arpu_reason. destruct (Company.revenue company) as [r|];
    [|reflexivity].
  destruct (Qlt_bool 0 r); [|reflexivity]. cbv zeta. cbn [default].
  destruct (String.eqb_spec (fst (categorize_arpu_realistic (Some r)))
              "Unknown") as [E|_]; [|reflexivity].
  destruct (arpu_category_known _ E).
Qed.

Lemma complementary_reason_absent : complementary_reason ∅ = [].
Proof. reflexivity. Qed.

Lemma ip_reason_listed company :
  (length (ip_reason company) <= 1)%nat
  /\ Forall (fun reason => In reason (pipeline_reasons company))
       (ip_reason company).
Proof.
  unfold ip_reason. destruct (String.eqb _ _); cbn [length];
    (split; [lia|]); [|constructor].
  constructor; [|constructor]. left. reflexivity.
Qed.

Lemma category_reason_listed company product :
  (length (category_reason company product) <= 1)%nat
  /\ Forall (fun reason => In reason (pipeline_reasons company))
       (category_reason company product).
Proof.
  unfold category_reason. destruct (String.eqb _ _); cbn [length];
    (split; [lia|]); [|constructor].
  constructor; [|constructor]. right. left. reflexivity.
Qed.

Lemma compliance_reason_listed company :
  (length (compliance_reason company) <= 1)%nat
  /\ Forall (fun reason => In reason (pipeline_reasons company))
       (compliance_reason company).
Proof.
  unfold compliance_reason. destruct (in_list _ _); cbn [length];
    (split; [lia|]); [|constructor].
  constructor; [|constructor]. right. right. left. reflexivity.
Qed.

Lemma tenure_reason_listed company :
  (length (tenure_reason company) <= 1)%nat
  /\ Forall (fun reason => In reason (pipeline_reasons company))
       (tenure_reason company).
Proof.
  unfold tenure_reason.
  destruct (Company.tenure_clean company =? 0);
    [|destruct (5 <? Company.tenure_clean company)];
    cbn [length]; (split; [lia|]).
  - constructor; [|constructor]. right. right. right. left. reflexivity.
  - constructor; [|constructor].
    right. right. right. right. left. reflexivity.
  - constructor.
Qed.

Lemma Forall_nonempty_singleton_or_nil (b : bool) (s : string) :
  s <> EmptyString ->
  Forall (fun s => s <> EmptyString) (if b then [s] else []).
Proof. intros H. destruct b; repeat constructor. exact H. Qed.

Lemma reasons_nonempty company product cost_category score_factors :
  Forall (fun s => s <> EmptyString)
    (reasons company product cost_category score_factors).
Proof.
  rewrite reasons_parts. repeat (apply Forall_app; split).
  - unfold arpu_reason. destruct (Company.revenue company) as [r|];
      [|constructor].
    destruct (Qlt_bool 0 r); [|constructor]. cbv zeta.
    apply Forall_nonempty_singleton_or_nil. discriminate.
  - unfold ip_reason. apply Forall_nonempty_singleton_or_nil. discriminate.
  - unfold category_reason. apply Forall_nonempty_singleton_or_nil.
    discriminate.
  - unfold compliance_reason. apply Forall_nonempty_singleton_or_nil.
    discriminate.
  - unfold tenure_reason.
    destruct (Company.tenure_clean company =? 0);
      [repeat constructor; discriminate|].
    apply Forall_nonempty_singleton_or_nil. discriminate.
  - unfold complementary_reason. apply Forall_nonempty_singleton_or_nil.
    discriminate.
Qed.

(** X28.  A reasoning text is never empty.  The purchasing-power reason needs a
    product with a key [cost_category] (no ARPU category is "Unknown"),
    and the similar-customers reason a score factor [has_complementary];
    the pipeline passes neither, so the reasoning of its recommendations
    is made of at most four reasons: IP bundling, the customer's own
    category, compliance, and renewal or loyalty. *)
Theorem reasoning_never_names_purchasing_power company product row
    cost_category score_factors :
  generate_reasoning company product cost_category score_factors
    <> EmptyString
  /\ (cost_category = None ->
      score_factors !! "has_complementary" = None ->
      (length (reasons company product cost_category score_factors) <= 4)%nat
      /\ Forall (fun reason => In reason (pipeline_reasons company))
           (reasons company product cost_category score_factors))
  /\ (exists l,
        (length l <= 4)%nat
        /\ Forall (fun reason => In reason (pipeline_reasons company)) l
        /\ pipeline_reasoning company row
           = match l with
             | [] => "Rekomendasi berdasarkan profil lengkap"
             | _ => join " | " l
             end).
Proof.
  assert (Hbare : forall p,
            (length (reasons company p None ∅) <= 4)%nat
            /\ Forall (fun reason => In reason (pipeline_reasons company))
                 (reasons company p None ∅)).
  { intros p. rewrite reasons_parts.
    rewrite (arpu_reason_absent company), complementary_reason_absent.
    cbn [app]. rewrite app_nil_r.
    pose proof (ip_reason_listed company) as [L1 F1].
    pose proof (category_reason_listed company p) as [L2 F2].
    pose proof (compliance_reason_listed company) as [L3 F3].
    pose proof (tenure_reason_listed company) as [L4 F4].
    split.
    - rewrite !length_app. lia.
    - repeat (apply Forall_app; split); assumption. }
  split; [|split].
  - unfold generate_reasoning.
    destruct (reasons company product cost_category score_factors)
      as [|s l] eqn:E; [discriminate|].
    apply join_nonempty; [discriminate|]. rewrite <- E.
    apply reasons_nonempty.
  - intros -> Hfactors.
    assert (E : reasons company product None score_factors
                = reasons company product None ∅).
    { unfold reasons, complementary_reason.
      rewrite Hfactors, lookup_empty. reflexivity. }
    rewrite E. apply Hbare.
  - exists (reasons company (catalog_product row) None ∅).
    destruct (Hbare (catalog_product row)) as [H1 H2].
    split; [exact H1|]. split; [exact H2|].
    unfold pipeline_reasoning, generate_reasoning.
    destruct (reasons company (catalog_product row) None ∅); reflexivity.
Qed.

Lemma reasoning_never_names_purchasing_power_witness :
  (length (reasons renewal_company remote_suite None ∅) <= 4)%nat.
Proof.
  destruct (reasoning_never_names_purchasing_power renewal_company
              remote_suite (hd blank_name_line sample_catalog)
              None ∅) as (_ & H & _).
  apply H; reflexivity.
Defined.

End Reasoning.

(** ** Revenue cleaning *)

Section RevenueCleaning.
Import Py PyFacts.

Lemma keep_decimal_app s t :
  keep_decimal (s ++ t) = (keep_decimal s ++ keep_decimal t)%string.
Proof.
  induction s as [|c s IH]; [reflexivity|].
  rewrite app_cons. simpl. destruct (isdecimal_char c); [|exact IH].
  rewrite app_cons, IH. reflexivity.
Qed.

Lemma keep_decimal_digits s : forallb_str isdecimal_char (keep_decimal s) = true.
Proof.
  induction s as [|c s IH]; [reflexivity|]. simpl.
  destruct (isdecimal_char c) eqn:E; [|exact IH].
  simpl. rewrite E, IH. reflexivity.
Qed.

Lemma keep_decimal_fixed s :
  forallb_str isdecimal_char s = true -> keep_decimal s = s.
Proof.
  induction s as [|c s IH]; [reflexivity|]. simpl.
  intros [Hc Hs]%andb_true_iff. rewrite Hc, (IH Hs). reflexivity.
Qed.

Lemma keep_decimal_none s :
  forallb_str no_decimal s = true -> keep_decimal s = EmptyString.
Proof.
  induction s as [|c s IH]; [reflexivity|]. simpl.
  intros [Hc Hs]%andb_true_iff. unfold no_decimal in Hc.
  apply negb_true_iff in Hc. rewrite Hc. exact (IH Hs).
Qed.

(** X29.  The revenue cleaning keeps the decimal digits of a cell and
    nothing else: any other character (a sign, a decimal point, a
    thousands separator, a currency code) can be removed without changing
    the result, so "1500.50" is read as 150050 and "-500" as 500.  The
    integer the digits denote is never negative, and up to 2^53 it is the
    number the column holds; beyond, the column may hold a float near it.
    A missing cell and a text without digits give 0. *)
Theorem clean_revenue_keeps_digits_only :
  (forall value, 0 <= denoted (clean_revenue value))
  /\ clean_revenue NaN = Exact 0
  /\ (forall s, forallb_str no_decimal s = true ->
        clean_revenue (Str s) = Exact 0)
  /\ (forall a c b, isdecimal_char c = false ->
        clean_revenue (Str (a ++ String c b)) = clean_revenue (Str (a ++ b)))
  /\ (forall ds, forallb_str isdecimal_char ds = true ->
        clean_revenue (Str ds)
        = if digits_value_from 0 ds <=? 2 ^ 53
          then Exact (digits_value_from 0 ds)
          else Inexact (digits_value_from 0 ds))
  /\ (forall ds fs,
        forallb_str isdecimal_char ds = true ->
        forallb_str isdecimal_char fs = true ->
        digits_value_from 0 (ds ++ fs) <= 2 ^ 53 ->
        clean_revenue (Str (ds ++ String "." fs))
        = Exact (digits_value_from 0 (ds ++ fs))).
Proof.
  assert (Hdigits : forall ds, forallb_str isdecimal_char ds = true ->
            clean_revenue (Str ds)
            = if digits_value_from 0 ds <=? 2 ^ 53
              then Exact (digits_value_from 0 ds)
              else Inexact (digits_value_from 0 ds)).
  { intros ds Hds. unfold clean_revenue, str.
    rewrite (keep_decimal_fixed ds Hds).
    destruct ds; reflexivity. }
  assert (Hdrop : forall a c b, isdecimal_char c = false ->
            clean_revenue (Str (a ++ String c b))
            = clean_revenue (Str (a ++ b))).
  { intros a c b Hc. unfold clean_revenue, str.
    rewrite !keep_decimal_app. cbn [keep_decimal]. rewrite Hc. reflexivity. }
  split; [|split; [|split; [|split; [|split]]]].
  - intros value. unfold clean_revenue.
    pose proof (keep_decimal_digits (str value)) as Hd.
    destruct (keep_decimal (str value)) as [|c s] eqn:E; [simpl; lia|].
    pose proof (digits_value_from_nonneg (String c s) 0 ltac:(lia) Hd).
    destruct (_ <=? _); simpl; assumption.
  - reflexivity.
  - intros s Hs. unfold clean_revenue, str. rewrite (keep_decimal_none s Hs).
    reflexivity.
  - exact Hdrop.
  - exact Hdigits.
  - intros ds fs Hds Hfs Hsmall. rewrite Hdrop by reflexivity.
    rewrite Hdigits by (rewrite forallb_str_app, Hds, Hfs; reflexivity).
    apply Z.leb_le in Hsmall. rewrite Hsmall. reflexivity.
Qed.

Lemma clean_revenue_keeps_digits_only_witness :
  clean_revenue (Str "1500.50") = Exact 150050
  /\ clean_revenue (Str "-500") = clean_revenue (Str "500")
  /\ clean_revenue (Str "9007199254740993") = Inexact 9007199254740993.
Proof.
  destruct clean_revenue_keeps_digits_only
    as (_ & _ & _ & Hdrop & Hdigits & Hdot).
  split; [|split].
  - apply (Hdot "1500" "50" eq_refl eq_refl). vm_compute. discriminate.
  - exact (Hdrop "" "-"%char "500" eq_refl).
  - exact (Hdigits "9007199254740993" eq_refl).
Defined.

End RevenueCleaning.

(** ** Product hierarchy *)

Section Hierarchy.
Import ProductCatalog.

Lemma dict_set_keys {A : Type} (d : list (string * A)) key value k :
  k ∈ map fst (dict_set d key value) <-> k = key \/ k ∈ map fst d.
Proof.
  induction d as [|[k' v'] rest IH]; cbn [dict_set map fst].
  - rewrite elem_of_cons, elem_of_nil. tauto.
  - destruct (String.eqb_spec key k') as [->|Hne]; cbn [map fst].
    + rewrite !elem_of_cons. tauto.
    + rewrite !elem_of_cons, IH. tauto.
Qed.

Lemma dict_set_nodup {A : Type} (d : list (string * A)) key value :
  NoDup (map fst d) -> NoDup (map fst (dict_set d key value)).
Proof.
  induction d as [|[k' v'] rest IH]; cbn [dict_set map fst].
  - intros _. apply NoDup_singleton.
  - intros [Hout Hnd]%NoDup_cons.
    destruct (String.eqb_spec key k') as [->|Hne]; cbn [map fst].
    + apply NoDup_cons. auto.
    + apply NoDup_cons. split; [|apply IH, Hnd].
      rewrite dict_set_keys. intros [->|H]; [congruence|contradiction].
Qed.

Lemma dict_get_member {A : Type} (d : list (string * A)) key value :
  NoDup (map fst d) -> In (key, value) d -> dict_get d key = Some value.
Proof.
  induction d as [|[k' v'] rest IH]; [intros _ []|].
  cbn [map fst dict_get]. intros [Hout Hnd]%NoDup_cons Hin.
  destruct Hin as [[= -> ->]|Hin].
  - rewrite String.eqb_refl. reflexivity.
  - destruct (String.eqb_spec key k') as [->|Hne]; [|exact (IH Hnd Hin)].
    exfalso. apply Hout. apply list_elem_of_In, in_map_iff.
    exists (k', value). auto.
Qed.

Lemma build_product_hierarchy_nodup df_catalog :
  NoDup (map fst (build_product_hierarchy df_catalog)).
Proof.
  unfold build_product_hierarchy.
  assert (H : forall h, NoDup (map fst h) ->
                        NoDup (map fst (foldl hierarchy_step h df_catalog))).
  { induction df_catalog as [|row rows IH]; intros h Hh; cbn [foldl];
      [exact Hh|]. apply IH. apply dict_set_nodup, Hh. }
  apply H. apply NoDup_nil. exact I.
Qed.

Lemma target_level_cases current target :
  target_level current = Some target ->
  (current = "ENTRY" /\ target = "MID") \/ (current = "MID" /\ target = "HIGH").
Proof.
  unfold target_level.
  destruct (String.eqb_spec current "ENTRY") as [->|_];
    [intros [= <-]; auto|].
  destruct (String.eqb_spec current "MID") as [->|_];
    [intros [= <-]; auto|discriminate].
Qed.

Lemma get_next_level_product_step product_hierarchy current next :
  NoDup (map fst product_hierarchy) ->
  get_next_level_product product_hierarchy current = Some next ->
  exists current_info next_info,
    dict_get product_hierarchy current = Some current_info
    /\ dict_get product_hierarchy next = Some next_info
    /\ kategori next_info = kategori current_info
    /\ ((level current_info = "ENTRY" /\ level next_info = "MID")
        \/ (level current_info = "MID" /\ level next_info = "HIGH")).
Proof.
  intros Hnd. unfold get_next_level_product.
  destruct (dict_get product_hierarchy current) as [ci|] eqn:Ec;
    [|discriminate].
  destruct (target_level (level ci)) as [target|] eqn:Et; [|discriminate].
  cbv zeta.
  destruct (List.filter _ product_hierarchy) as [|[p i] rest] eqn:Ef;
    [discriminate|].
  cbn [map fst]. intros [= <-].
  assert (Hin : In (p, i) (List.filter
                   (fun item =>
                      String.eqb (level (snd item)) target
                      && String.eqb (kategori (snd item)) (kategori ci))
                   product_hierarchy))
    by (rewrite Ef; left; reflexivity).
  apply filter_In in Hin as [Hin Hok]. cbn [snd] in Hok.
  apply andb_true_iff in Hok as [Hl%String.eqb_eq Hk%String.eqb_eq].
  exists ci, i. split; [reflexivity|].
  split; [apply dict_get_member; assumption|]. split; [exact Hk|].
  destruct (target_level_cases _ _ Et) as [[H1 ->]|[H1 ->]]; auto.
Qed.

(** X30.  The upgrade [get_next_level_product] names for a product of the
    catalog is a catalog product of the same category exactly one level
    up (ENTRY to MID, MID to HIGH), never the product itself; so a chain
    of upgrades has at most two steps, and a product of level HIGH or
    UNKNOWN, or one that is not in the catalog, has no upgrade. *)
Theorem next_level_product_is_one_level_up df_catalog current next :
  let product_hierarchy := build_product_hierarchy df_catalog in
  (get_next_level_product product_hierarchy current = Some next ->
   (exists current_info next_info,
      dict_get product_hierarchy current = Some current_info
      /\ dict_get product_hierarchy next = Some next_info
      /\ kategori next_info = kategori current_info
      /\ ((level current_info = "ENTRY" /\ level next_info = "MID")
          \/ (level current_info = "MID" /\ level next_info = "HIGH")))
   /\ next <> current
   /\ (forall second,
         get_next_level_product product_hierarchy next = Some second ->
         get_next_level_product product_hierarchy second = None))
  /\ (dict_get product_hierarchy current = None ->
      get_next_level_product product_hierarchy current = None)
  /\ (forall current_info,
        dict_get product_hierarchy current = Some current_info ->
        level current_info = "HIGH" \/ level current_info = "UNKNOWN" ->
        get_next_level_product product_hierarchy current = None).
Proof.
  cbv zeta. set (h := build_product_hierarchy df_catalog).
  pose proof (build_product_hierarchy_nodup df_catalog) as Hnd. fold h in Hnd.
  split; [|split].
  - intros Hnext.
    destruct (get_next_level_product_step h current next Hnd Hnext)
      as (ci & ni & Hc & Hn & Hk & Hlevels).
    split; [exists ci, ni; auto|]. split.
    + intros ->. rewrite Hc in Hn. injection Hn as <-.
      destruct Hlevels as [[H1 H2]|[H1 H2]]; rewrite H1 in H2; discriminate.
    + intros second Hsecond.
      destruct (get_next_level_product_step h next second Hnd Hsecond)
        as (ni' & si & Hn' & Hs & _ & Hlevels').
      rewrite Hn in Hn'. injection Hn' as <-.
      destruct (get_next_level_product h second) as [third|] eqn:Ethird;
        [|reflexivity].
      destruct (get_next_level_product_step h second third Hnd Ethird)
        as (si' & ti & Hs' & _ & _ & Hlevels'').
      rewrite Hs in Hs'. injection Hs' as <-.
      exfalso.
      destruct Hlevels as [[_ H2]|[_ H2]],
               Hlevels' as [[H3 H4]|[H3 H4]],
               Hlevels'' as [[H5 _]|[H5 _]]; congruence.
  - intros Hc. unfold get_next_level_product. rewrite Hc. reflexivity.
  - intros ci Hc Hlevel. unfold get_next_level_product. rewrite Hc.
    destruct Hlevel as [-> | ->]; reflexivity.
Qed.

Lemma next_level_product_is_one_level_up_witness :
  get_next_level_product (build_product_hierarchy ladder_catalog)
    "IP VPN Basic" = Some "IP VPN Professional"
  /\ "IP VPN Professional" <> "IP VPN Basic".
Proof.
  split; [reflexivity|].
  destruct (next_level_product_is_one_level_up ladder_catalog
              "IP VPN Basic" "IP VPN Professional") as (H & _).
  destruct (H eq_refl) as (_ & Hne & _). exact Hne.
Defined.

End Hierarchy.
